(** * devsecops-pipe: the security report generator

    A shallow embedding of [scripts/generate-report.py] and the properties
    of its adapters, collector, aggregator, recommendation engine and
    Markdown renderer.

    The script is dynamically typed: every adapter reads a decoded JSON
    document with [dict.get], subscripts, iteration and [float()], any of
    which can raise.  The embedding keeps that: documents are values of
    [json], each Python operation is a function into [result], and a
    [try ... except Exception] block is a computation that keeps the
    list built so far when the body raises. *)

From Stdlib Require Import ZArith String Ascii List Bool Lia.
From Stdlib Require Import PrimFloat SpecFloat FloatOps.
From stdpp Require Import gmap strings list fin_maps pretty.

Local Open Scope string_scope.
Local Open Scope list_scope.
Set Warnings "-register-all".

(* ================================================================== *)
(** * Python values and built-in operations *)
(* ================================================================== *)

(** Exceptions a parse can run into; all derive from [Exception], so the
    adapters' [except Exception] catches every one of them.  [OSError] and
    [JSONDecodeError] come from [open] and [json.load]. *)
Inductive exn : Set :=
| AttributeError | TypeError | KeyError | ValueError | IndexError
| OverflowError | OSError | JSONDecodeError.

Inductive result (A : Type) : Type :=
| Ok (a : A)
| Raise (e : exn).
Arguments Ok {A} a.
Arguments Raise {A} e.

Definition rbind {A B} (r : result A) (k : A -> result B) : result B :=
  match r with
  | Ok a => k a
  | Raise e => Raise e
  end.

Declare Scope py_scope.
Delimit Scope py_scope with py.
Notation "'let?' x ':=' r 'in' k" := (rbind r (fun x => k))
  (at level 10, x name, r at level 100, k at level 200) : py_scope.
Local Open Scope py_scope.

(** What [json.load] returns.  Integers are Python's unbounded [int],
    floats are binary64.  An object is the items of the [dict] in
    insertion order; should a key stand twice in the list, its first pair
    is the one that counts (see [assoc] and [dict_items]), so every list
    stands for one [dict]. *)
Inductive json : Type :=
| JNull
| JBool (b : bool)
| JInt (z : Z)
| JFloat (f : float)
| JStr (s : string)
| JArr (l : list json)
| JObj (kvs : list (string * json)).

(** ** Strings

    A [string] stands for a Python [str], one [ascii] per character.
    [upper] and [lower] map the ASCII letters; what [str.upper] makes of
    a string with a character outside ASCII is left to a built-in
    (see [str_upper] below). *)

Definition ascii_upper (c : ascii) : ascii :=
  let n := nat_of_ascii c in
  if (97 <=? n)%nat && (n <=? 122)%nat then ascii_of_nat (n - 32) else c.

Definition ascii_lower (c : ascii) : ascii :=
  let n := nat_of_ascii c in
  if (65 <=? n)%nat && (n <=? 90)%nat then ascii_of_nat (n + 32) else c.

Fixpoint str_map (f : ascii -> ascii) (s : string) : string :=
  match s with
  | EmptyString => EmptyString
  | String c s' => String (f c) (str_map f s')
  end.

(** [s.upper()] and [s.lower()] on the ASCII letters. *)
Definition upper (s : string) : string := str_map ascii_upper s.
Definition lower (s : string) : string := str_map ascii_lower s.

(** [s.isascii()]. *)
Fixpoint is_ascii (s : string) : bool :=
  match s with
  | EmptyString => true
  | String c s' => (nat_of_ascii c <? 128)%nat && is_ascii s'
  end.

(** [s.startswith(p)]. *)
Definition startswith (s p : string) : bool := String.prefix p s.

(** [p in s] for two strings. *)
Fixpoint str_contains (p s : string) : bool :=
  String.prefix p s ||
  match s with
  | EmptyString => false
  | String _ s' => str_contains p s'
  end.

(** [s[:n]]. *)
Fixpoint str_take (n : nat) (s : string) : string :=
  match n, s with
  | S n', String c s' => String c (str_take n' s')
  | _, _ => EmptyString
  end.

(** ["\n".join(lines)]. *)
Fixpoint join (sep : string) (lines : list string) : string :=
  match lines with
  | [] => ""
  | [l] => l
  | l :: ls => l +:+ sep +:+ join sep ls
  end.

Fixpoint str_chars (s : string) : list string :=
  match s with
  | EmptyString => []
  | String c s' => String c EmptyString :: str_chars s'
  end.

(** ** Dictionaries decoded from JSON objects *)

Section Assoc.
Context {V : Type}.

Fixpoint assoc (k : string) (kvs : list (string * V)) : option V :=
  match kvs with
  | [] => None
  | (k', v) :: rest => if String.eqb k k' then Some v else assoc k rest
  end.

Fixpoint items_from (seen : list string) (kvs : list (string * V))
  : list (string * V) :=
  match kvs with
  | [] => []
  | (k, v) :: rest =>
      if existsb (String.eqb k) seen then items_from seen rest
      else (k, v) :: items_from (k :: seen) rest
  end.

(** [d.items()]: one pair per key, in insertion order. *)
Definition dict_items (kvs : list (string * V)) : list (string * V) :=
  items_from [] kvs.
End Assoc.

(** ** Truth value, attribute access, subscripts, iteration *)

(** [bool(x)], as [if x:] and [x if c else y] test it. *)
Definition truthy (x : json) : bool :=
  match x with
  | JNull => false
  | JBool b => b
  | JInt z => negb (z =? 0)%Z
  | JFloat f => negb (PrimFloat.eqb f 0%float)
  | JStr s => negb (String.eqb s "")
  | JArr l => match l with [] => false | _ => true end
  | JObj kvs => match kvs with [] => false | _ => true end
  end.

(** [x.get(k, d)]: only a [dict] has the method. *)
Definition py_get (x : json) (k : string) (d : json) : result json :=
  match x with
  | JObj kvs => Ok (default d (assoc k kvs))
  | _ => Raise AttributeError
  end.

(** [x[k]] for a string [k]. *)
Definition py_getitem (x : json) (k : string) : result json :=
  match x with
  | JObj kvs => match assoc k kvs with
                | Some v => Ok v
                | None => Raise KeyError
                end
  | _ => Raise TypeError
  end.

(** [x[0]]. *)
Definition py_first (x : json) : result json :=
  match x with
  | JArr (y :: _) => Ok y
  | JArr [] => Raise IndexError
  | JStr (String c _) => Ok (JStr (String c EmptyString))
  | JStr EmptyString => Raise IndexError
  | JObj _ => Raise KeyError
  | _ => Raise TypeError
  end.

(** [x[:n]].  Slicing a [dict] raises ([TypeError] up to Python 3.11,
    [KeyError] from 3.12 on); the embedding takes the former. *)
Definition py_slice (n : nat) (x : json) : result json :=
  match x with
  | JArr l => Ok (JArr (take n l))
  | JStr s => Ok (JStr (str_take n s))
  | _ => Raise TypeError
  end.

(** [iter(x)], as a [for] loop or a comprehension calls it: a list gives
    its elements, a [dict] its keys, a [str] its characters. *)
Definition py_iter (x : json) : result (list json) :=
  match x with
  | JArr l => Ok l
  | JObj kvs => Ok (map (fun kv => JStr (fst kv)) (dict_items kvs))
  | JStr s => Ok (map JStr (str_chars s))
  | _ => Raise TypeError
  end.

(** [k in x] for a string [k]. *)
Definition py_contains (k : string) (x : json) : result bool :=
  match x with
  | JObj kvs => Ok (bool_decide (is_Some (assoc k kvs)))
  | JArr l =>
      Ok (existsb (fun y => match y with
                            | JStr s => String.eqb s k
                            | _ => false
                            end) l)
  | JStr s => Ok (str_contains k s)
  | _ => Raise TypeError
  end.

(** ** Hashing and equality of keys

    [dict] keys are compared with [is], then with [==] after hashing:
    [True == 1 == 1.0], lists and dicts are unhashable.  A NaN equals
    nothing under [==], but [json] hands out one and the same object for
    every [NaN] it reads, so a NaN key read from a document is found by a
    NaN read from a document. *)

Definition hashable (x : json) : bool :=
  match x with
  | JArr _ | JObj _ => false
  | _ => true
  end.

(** Is the float exactly the integer [z]? *)
Definition float_eq_int (f : float) (z : Z) : bool :=
  match Prim2SF f with
  | S754_zero _ => (z =? 0)%Z
  | S754_finite s m e =>
      let v := if s then Z.neg m else Z.pos m in
      if (0 <=? e)%Z then (z =? v * 2 ^ e)%Z else (z * 2 ^ (- e) =? v)%Z
  | _ => false
  end.

Definition int_of_bool (b : bool) : Z := if b then 1%Z else 0%Z.

Definition key_eqb (x y : json) : bool :=
  match x, y with
  | JNull, JNull => true
  | JStr s, JStr t => String.eqb s t
  | JBool a, JBool b => (int_of_bool a =? int_of_bool b)%Z
  | JBool a, JInt z | JInt z, JBool a => (int_of_bool a =? z)%Z
  | JInt a, JInt b => (a =? b)%Z
  | JBool a, JFloat f | JFloat f, JBool a => float_eq_int f (int_of_bool a)
  | JInt z, JFloat f | JFloat f, JInt z => float_eq_int f z
  | JFloat f, JFloat g =>
      PrimFloat.eqb f g || (PrimFloat.is_nan f && PrimFloat.is_nan g)
  | _, _ => false
  end.

(** A [dict] with arbitrary hashable keys (the SARIF rule table). *)
Definition pydict : Type := list (json * json).

Fixpoint pydict_lookup (k : json) (d : pydict) : option json :=
  match d with
  | [] => None
  | (k', v) :: rest => if key_eqb k' k then Some v else pydict_lookup k rest
  end.

(** [d[k] = v]: an existing key keeps its place and takes the new value. *)
Fixpoint pydict_set (k v : json) (d : pydict) : pydict :=
  match d with
  | [] => [(k, v)]
  | (k', v') :: rest =>
      if key_eqb k' k then (k', v) :: rest else (k', v') :: pydict_set k v rest
  end.

(** [d.get(k, dflt)]. *)
Definition pydict_get (d : pydict) (k dflt : json) : result json :=
  if hashable k then Ok (default dflt (pydict_lookup k d))
  else Raise TypeError.

(** ** Numbers and text *)

(** [float(z)] for an [int]: the nearest binary64, ties to even, and
    [OverflowError] past the largest one. *)
Definition float_of_int (z : Z) : result float :=
  match binary_normalize 53 1024 z 0 false with
  | S754_infinity _ => Raise OverflowError
  | sf => Ok (SF2Prim sf)
  end.

(** The built-ins the embedding does not spell out: the parser behind
    [float(s)] for a string ([None] is [ValueError]); [repr] of floats,
    lists and dicts, which [str()] and f-strings fall back on; and the
    case mapping of Unicode behind [s.upper()] for a string with a
    character outside ASCII. *)
Record builtins : Type := {
  float_of_str : string -> option float;
  py_repr : json -> string;
  upper_beyond_ascii : string -> string
}.

Section Builtins.
Context (B : builtins).

(** [s.upper()]: on an ASCII string the letters [a] to [z] are mapped and
    nothing else changes. *)
Definition str_upper (s : string) : string :=
  if is_ascii s then upper s else upper_beyond_ascii B s.

(** [float(x)]. *)
Definition py_float (x : json) : result float :=
  match x with
  | JFloat f => Ok f
  | JInt z => float_of_int z
  | JBool b => Ok (if b then 1%float else 0%float)
  | JStr s => match float_of_str B s with
              | Some f => Ok f
              | None => Raise ValueError
              end
  | _ => Raise TypeError
  end.

(** [str(x)], which is also what [f"{x}"] inserts. *)
Definition py_str (x : json) : string :=
  match x with
  | JStr s => s
  | JInt z => pretty z
  | JBool true => "True"
  | JBool false => "False"
  | JNull => "None"
  | _ => py_repr B x
  end.
End Builtins.

(* ================================================================== *)
(** * Data model *)
(* ================================================================== *)

(** [Vulnerability].  The constructor checks no types, so a field holds
    whatever the adapter read from the document; only [severity] is a
    string by construction in all three adapters. *)
Record Vulnerability : Type := {
  id : json;
  title : json;
  severity : string;
  description : json;
  source : json;
  file_path : json;
  line_number : json;
  cwe : json;
  cvss : json;
  remediation : json;
  references : json
}.

(** [ScanResult].  [summary] holds the counts [collect_results] builds
    with [summary[v.severity] += 1].  The script reads and updates its
    count dictionaries by key only, so they are finite maps here; the
    order of their keys shows in the JSON output alone. *)
Record ScanResult : Type := {
  scanner : string;
  timestamp : string;
  vulnerabilities : list Vulnerability;
  summary : gmap string nat
}.

Record SecurityReport : Type := {
  generated_at : string;
  repository : string;
  branch : string;
  commit : string;
  scan_results : list ScanResult;
  total_vulnerabilities : gmap string nat;
  recommendations : list string
}.

Definition SEVERITY_ORDER : list string :=
  ["CRITICAL"; "HIGH"; "MEDIUM"; "LOW"; "INFO"].

(** A file found by [rglob]: the parts of its path the script reads, and
    what [open] followed by [json.load] gives for it. *)
Record file : Type := {
  stem : string;
  suffix : string;
  contents : result json
}.

(** A line printed to [sys.stderr]: the input directory does not exist,
    an adapter caught an exception, or [main] found no scan result. *)
Inductive diagnostic : Type :=
| MissingInputDir
| ParseError (adapter_name : string) (f : file) (e : exn)
| NoScanResults.

(* ================================================================== *)
(** * Scanner adapters *)
(* ================================================================== *)

(** The body of an adapter's [try] block: it appends to [vulnerabilities]
    and may raise, and what it appended stays when it does. *)
Definition adapter (A : Type) : Type :=
  list Vulnerability -> result A * list Vulnerability.

Definition aret {A} (a : A) : adapter A := fun vs => (Ok a, vs).

Definition abind {A B} (m : adapter A) (k : A -> adapter B) : adapter B :=
  fun vs =>
    match m vs with
    | (Ok a, vs') => k a vs'
    | (Raise e, vs') => (Raise e, vs')
    end.

Definition lift {A} (r : result A) : adapter A := fun vs => (r, vs).

(** [vulnerabilities.append(vuln)]. *)
Definition append (v : Vulnerability) : adapter unit :=
  fun vs => (Ok tt, vs ++ [v]).

Notation "'let*' x ':=' m 'in' k" := (abind m (fun x => k))
  (at level 10, x name, m at level 100, k at level 200) : py_scope.

(** [for x in xs: body]. *)
Fixpoint for_each {A} (xs : list A) (body : A -> adapter unit) : adapter unit :=
  match xs with
  | [] => aret tt
  | x :: xs' => let* _ := body x in for_each xs' body
  end.

(** [vulnerabilities = []; try: body; except Exception as e: print(...);
    return vulnerabilities]. *)
Definition try_except (name : string) (f : file) (body : adapter unit)
  : list Vulnerability * list diagnostic :=
  match body [] with
  | (Ok _, vs) => (vs, [])
  | (Raise e, vs) => (vs, [ParseError name f e])
  end.

(** [m.get(k, d)] on a literal [dict] with string keys. *)
Definition table_get (m : list (string * string)) (k : json) (d : string)
  : result string :=
  match k with
  | JStr s => Ok (default d (assoc s m))
  | JArr _ | JObj _ => Raise TypeError
  | _ => Ok d
  end.

Section Adapters.
Context (B : builtins).

(** ** SARIF *)

(** [{r['id']: r for r in ...}]. *)
Fixpoint rules_of (rs : list json) (acc : pydict) : result pydict :=
  match rs with
  | [] => Ok acc
  | r :: rest =>
      let? k := py_getitem r "id" in
      if hashable k then rules_of rest (pydict_set k r acc)
      else Raise TypeError
  end.

Definition score_severity (score : float) : string :=
  if (9 <=? score)%float then "CRITICAL"
  else if (7 <=? score)%float then "HIGH"
  else if (4 <=? score)%float then "MEDIUM"
  else "LOW".

(** [[tag for tag in tags if tag.startswith('http')]]. *)
Fixpoint http_tags (tags : list json) : result (list json) :=
  match tags with
  | [] => Ok []
  | JStr s :: rest =>
      let? rest' := http_tags rest in
      Ok (if startswith s "http" then JStr s :: rest' else rest')
  | _ :: _ => Raise AttributeError
  end.

(** The body of [for result in run.get('results', [])]. *)
Definition sarif_result (tool_name : json) (rules : pydict) (res : json)
  : result Vulnerability :=
  let? rule_id := py_get res "ruleId" (JStr "") in
  let? rule := pydict_get rules rule_id (JObj []) in
  let? level := py_get res "level" (JStr "warning") in
  let severity_map := [("error", "HIGH"); ("warning", "MEDIUM"); ("note", "LOW")] in
  let? severity := table_get severity_map level "MEDIUM" in
  let? props := py_get rule "properties" (JObj []) in
  let? scored := py_contains "security-severity" props in
  let? severity :=
    if scored then
      let? raw := py_getitem props "security-severity" in
      let? score := py_float B raw in
      Ok (score_severity score)
    else Ok severity in
  let? locations := py_get res "locations" (JArr [JObj []]) in
  let? location :=
    if truthy locations then py_first locations else Ok (JObj []) in
  let? physical_location := py_get location "physicalLocation" (JObj []) in
  let? artifact_location :=
    py_get physical_location "artifactLocation" (JObj []) in
  let? region := py_get physical_location "region" (JObj []) in
  let? short := py_get rule "shortDescription" (JObj []) in
  let? title := py_get short "text" rule_id in
  let? message := py_get res "message" (JObj []) in
  let? description := py_get message "text" (JStr "") in
  let? file_path := py_get artifact_location "uri" (JStr "") in
  let? line_number := py_get region "startLine" (JInt 0) in
  let? cwe := py_get props "cwe" (JStr "") in
  let? raw_cvss := py_get props "security-severity" (JInt 0) in
  let? cvss := py_float B raw_cvss in
  let? help := py_get rule "help" (JObj []) in
  let? remediation := py_get help "text" (JStr "") in
  let? tags := py_get props "tags" (JArr []) in
  let? tags := py_iter tags in
  let? references := http_tags tags in
  Ok {| id := rule_id; title := title; severity := severity;
        description := description; source := tool_name;
        file_path := file_path; line_number := line_number;
        cwe := cwe; cvss := JFloat cvss; remediation := remediation;
        references := JArr references |}.

(** The body of [for run in data.get('runs', [])]. *)
Definition sarif_run (run : json) : adapter unit :=
  let* tool_name :=
    lift (let? tool := py_get run "tool" (JObj []) in
          let? driver := py_get tool "driver" (JObj []) in
          py_get driver "name" (JStr "Unknown")) in
  let* rules :=
    lift (let? tool := py_get run "tool" (JObj []) in
          let? driver := py_get tool "driver" (JObj []) in
          let? rs := py_get driver "rules" (JArr []) in
          let? rs := py_iter rs in
          rules_of rs []) in
  let* results :=
    lift (let? rs := py_get run "results" (JArr []) in py_iter rs) in
  for_each results (fun res =>
    let* vuln := lift (sarif_result tool_name rules res) in
    append vuln).

Definition parse_sarif (filepath : file)
  : list Vulnerability * list diagnostic :=
  try_except "SARIF" filepath (
    let* data := lift (contents filepath) in
    let* runs :=
      lift (let? rs := py_get data "runs" (JArr []) in py_iter rs) in
    for_each runs sarif_run).

(** ** npm audit *)

(** [d.items()]: only a [dict] has the method. *)
Definition py_items (x : json) : result (list (string * json)) :=
  match x with
  | JObj kvs => Ok (dict_items kvs)
  | _ => Raise AttributeError
  end.

Definition is_dict (x : json) : bool :=
  match x with
  | JObj _ => true
  | _ => false
  end.

(** The body of [for vuln_id, vuln_data in ....items()]. *)
Definition npm_advisory (entry : string * json) : result Vulnerability :=
  let '(vuln_id, vuln_data) := entry in
  let severity_map := [("critical", "CRITICAL"); ("high", "HIGH");
                       ("moderate", "MEDIUM"); ("low", "LOW")] in
  let? title := py_get vuln_data "name" (JStr vuln_id) in
  let? native := py_get vuln_data "severity" (JStr "") in
  let? severity := table_get severity_map native "MEDIUM" in
  let? description := py_get vuln_data "title" (JStr "") in
  let? probe := py_get vuln_data "fixAvailable" JNull in
  let? remediation :=
    if is_dict probe then
      let? fix_available := py_get vuln_data "fixAvailable" (JObj []) in
      py_get fix_available "name" (JStr "")
    else Ok (JStr "") in
  let? url := py_get vuln_data "url" (JStr "") in
  Ok {| id := JStr vuln_id; title := title; severity := severity;
        description := description; source := JStr "npm audit";
        file_path := JStr "package.json"; line_number := JInt 0;
        cwe := JStr ""; cvss := JFloat 0%float; remediation := remediation;
        references := JArr [url] |}.

Definition parse_npm_audit (filepath : file)
  : list Vulnerability * list diagnostic :=
  try_except "npm audit" filepath (
    let* data := lift (contents filepath) in
    let* entries :=
      lift (let? vs := py_get data "vulnerabilities" (JObj []) in
            py_items vs) in
    for_each entries (fun entry =>
      let* vuln := lift (npm_advisory entry) in
      append vuln)).

(** ** Trivy *)

(** [x.upper()]: only a [str] has the method. *)
Definition py_upper (x : json) : result string :=
  match x with
  | JStr s => Ok (str_upper B s)
  | _ => Raise AttributeError
  end.

(** The body of [for vuln_data in result.get('Vulnerabilities', [])]. *)
Definition trivy_vuln (target : json) (vuln_data : json)
  : result Vulnerability :=
  let? vid := py_get vuln_data "VulnerabilityID" (JStr "") in
  let? dflt := py_get vuln_data "VulnerabilityID" (JStr "") in
  let? title := py_get vuln_data "Title" dflt in
  let? native := py_get vuln_data "Severity" (JStr "UNKNOWN") in
  let? severity := py_upper native in
  let? description := py_get vuln_data "Description" (JStr "") in
  let? scores := py_get vuln_data "CVSS" (JObj []) in
  let? nvd := py_get scores "nvd" (JObj []) in
  let? cvss := py_get nvd "V3Score" (JInt 0) in
  let? pkg := py_get vuln_data "PkgName" (JStr "") in
  let? fixed := py_get vuln_data "FixedVersion" (JStr "N/A") in
  let remediation := "Update " +:+ py_str B pkg +:+ " to " +:+ py_str B fixed in
  let? refs := py_get vuln_data "References" (JArr []) in
  let? references := py_slice 3 refs in
  Ok {| id := vid; title := title; severity := severity;
        description := description; source := JStr "Trivy";
        file_path := target; line_number := JInt 0; cwe := JStr "";
        cvss := cvss; remediation := JStr remediation;
        references := references |}.

(** The body of [for result in data.get('Results', [])]. *)
Definition trivy_result (res : json) : adapter unit :=
  let* target := lift (py_get res "Target" (JStr "")) in
  let* vulns :=
    lift (let? vs := py_get res "Vulnerabilities" (JArr []) in py_iter vs) in
  for_each vulns (fun vuln_data =>
    let* vuln := lift (trivy_vuln target vuln_data) in
    append vuln).

Definition parse_trivy_json (filepath : file)
  : list Vulnerability * list diagnostic :=
  try_except "Trivy" filepath (
    let* data := lift (contents filepath) in
    let* results :=
      lift (let? rs := py_get data "Results" (JArr []) in py_iter rs) in
    for_each results trivy_result).
End Adapters.

(* ================================================================== *)
(** * Result collector *)
(* ================================================================== *)

(** What the script sees of [self.input_dir]: whether it exists, and the
    files each [rglob] pattern yields, in the order it yields them. *)
Record directory : Type := {
  dir_exists : bool;
  sarif_files : list file;
  npm_files : list file;
  trivy_files : list file
}.

(** The process environment: the clock behind [datetime.now().isoformat()]
    (indexed by the number of earlier readings) and [os.environ]. *)
Record environment : Type := {
  now_iso : nat -> string;
  environ : gmap string string
}.

(** What a run has written and read so far. *)
Record io : Type := {
  stderr : list diagnostic;
  clock_reads : nat
}.

(** The generator object; [self_scan_results] is its [scan_results]
    attribute (the name is taken by the field of [SecurityReport]). *)
Record ReportGenerator : Type := {
  input_dir : directory;
  self_scan_results : list ScanResult
}.

(** [ReportGenerator(input_dir)]. *)
Definition new_generator (d : directory) : ReportGenerator :=
  {| input_dir := d; self_scan_results := [] |}.

(** [summary = defaultdict(int); for v in vulns: summary[v.severity] += 1]. *)
Definition count_severities (vulns : list Vulnerability) : gmap string nat :=
  foldl (fun summary v =>
           <[severity v := default 0 (summary !! severity v) + 1]> summary)
        ∅ vulns.

Section Collector.
Context (B : builtins) (E : environment).

(** One pass of a discovery loop: run the adapter, forward what it
    printed, and append a [ScanResult] when [vulns] is not empty. *)
Definition collect_file
    (parse : file -> list Vulnerability * list diagnostic)
    (scanner_of : file -> string)
    (st : list ScanResult * io) (f : file) : list ScanResult * io :=
  let '(results, w) := st in
  let '(vulns, printed) := parse f in
  let w := {| stderr := stderr w ++ printed; clock_reads := clock_reads w |} in
  match vulns with
  | [] => (results, w)
  | _ :: _ =>
      let summary := count_severities vulns in
      (results ++ [{| scanner := scanner_of f;
                      timestamp := now_iso E (clock_reads w);
                      vulnerabilities := vulns;
                      summary := summary |}],
       {| stderr := stderr w; clock_reads := S (clock_reads w) |})
  end.

Definition collect_results (self : ReportGenerator) (w : io)
  : ReportGenerator * io :=
  if negb (dir_exists (input_dir self)) then
    (self, {| stderr := stderr w ++ [MissingInputDir];
              clock_reads := clock_reads w |})
  else
    let st := (self_scan_results self, w) in
    let st := foldl (collect_file (parse_sarif B) stem)
                    st (sarif_files (input_dir self)) in
    let st := foldl (collect_file parse_npm_audit (fun _ => "npm-audit"))
                    st (npm_files (input_dir self)) in
    let st := foldl (fun st trivy_file =>
                       if String.eqb (suffix trivy_file) ".json" then
                         collect_file (parse_trivy_json B)
                                      (fun f => "trivy-" +:+ stem f)
                                      st trivy_file
                       else st)
                    st (trivy_files (input_dir self)) in
    ({| input_dir := input_dir self; self_scan_results := fst st |}, snd st).

(* ================================================================ *)
(** * Aggregator and recommendation engine *)
(* ================================================================ *)

(** [sum(r.summary.get(key, 0) for r in self.scan_results)]. *)
Definition sum_summaries (key : string) (rs : list ScanResult) : nat :=
  foldr (fun r acc => default 0 (summary r !! key) + acc) 0 rs.

Definition critical_message (total_critical : nat) : string :=
  "CRITICAL: " +:+ pretty total_critical +:+ " critical vulnerabilities found. "
  +:+ "These must be addressed immediately before deployment.".

Definition high_message (total_high : nat) : string :=
  "HIGH: " +:+ pretty total_high +:+ " high severity vulnerabilities found. "
  +:+ "Plan to remediate these within 7 days.".

Definition sast_message : string :=
  "Consider enabling SAST scanning with Semgrep for code analysis.".

Definition reassurance_message : string :=
  "No critical or high severity vulnerabilities found. "
  +:+ "Continue monitoring and keep dependencies updated.".

Definition _generate_recommendations (self : ReportGenerator) : list string :=
  let recommendations := [] in
  let total_critical := sum_summaries "CRITICAL" (self_scan_results self) in
  let total_high := sum_summaries "HIGH" (self_scan_results self) in
  let recommendations :=
    if (0 <? total_critical)%nat
    then recommendations ++ [critical_message total_critical]
    else recommendations in
  let recommendations :=
    if (0 <? total_high)%nat
    then recommendations ++ [high_message total_high]
    else recommendations in
  let scanners := map scanner (self_scan_results self) in
  let recommendations :=
    if negb (existsb (fun s => str_contains "semgrep" (lower s)) scanners)
    then recommendations ++ [sast_message]
    else recommendations in
  let recommendations :=
    match recommendations with
    | [] => recommendations ++ [reassurance_message]
    | _ :: _ => recommendations
    end in
  recommendations.

(** [for severity, count in result.summary.items(): total[severity] += count].
    The sum does not depend on the order the items come in. *)
Definition add_summary (total : gmap string nat) (res : ScanResult)
  : gmap string nat :=
  map_fold (fun severity count total =>
              <[severity := default 0 (total !! severity) + count]> total)
           total (summary res).

Definition generate_report (self : ReportGenerator) (w : io)
  : SecurityReport * io :=
  let total := foldl add_summary ∅ (self_scan_results self) in
  let recommendations := _generate_recommendations self in
  ({| generated_at := now_iso E (clock_reads w);
      repository := default "unknown" (environ E !! "GITHUB_REPOSITORY");
      branch := default "unknown" (environ E !! "GITHUB_REF_NAME");
      commit := str_take 8 (default "unknown" (environ E !! "GITHUB_SHA"));
      scan_results := self_scan_results self;
      total_vulnerabilities := total;
      recommendations := recommendations |},
   {| stderr := stderr w; clock_reads := S (clock_reads w) |}).

(* ================================================================ *)
(** * Markdown renderer *)
(* ================================================================ *)

(** A loop whose body extends [lines] and may raise. *)
Fixpoint for_lines {A} (xs : list A)
    (body : list string -> A -> result (list string))
    (lines : list string) : result (list string) :=
  match xs with
  | [] => Ok lines
  | x :: xs' => let? lines := body lines x in for_lines xs' body lines
  end.

(** [by_severity = defaultdict(list);
    for vuln in vulns: by_severity[vuln.severity].append(vuln)]. *)
Definition group_by_severity (vulns : list Vulnerability)
  : gmap string (list Vulnerability) :=
  foldl (fun by_severity vuln =>
           <[severity vuln :=
               default [] (by_severity !! severity vuln) ++ [vuln]]>
             by_severity)
        ∅ vulns.

(** The body of [for vuln in vulns[:10]]. *)
Definition markdown_vuln (lines : list string) (vuln : Vulnerability)
  : result (list string) :=
  let lines := lines ++ ["- **" +:+ py_str B (title vuln) +:+ "** ("
                         +:+ py_str B (id vuln) +:+ ")"] in
  let lines :=
    if truthy (file_path vuln)
    then lines ++ ["  - File: `" +:+ py_str B (file_path vuln) +:+ "`:"
                   +:+ py_str B (line_number vuln)]
    else lines in
  let? lines :=
    if truthy (remediation vuln)
    then let? cut := py_slice 100 (remediation vuln) in
         Ok (lines ++ ["  - Fix: " +:+ py_str B cut])
    else Ok lines in
  Ok (lines ++ [""]).

(** The body of the inner [for severity in self.SEVERITY_ORDER]. *)
Definition markdown_group (by_severity : gmap string (list Vulnerability))
    (lines : list string) (sev : string) : result (list string) :=
  let vulns := default [] (by_severity !! sev) in
  match vulns with
  | [] => Ok lines
  | _ :: _ =>
      let lines := lines ++ ["#### " +:+ sev +:+ " ("
                             +:+ pretty (length vulns) +:+ ")"] in
      let lines := lines ++ [""] in
      let? lines := for_lines (take 10 vulns) markdown_vuln lines in
      if (10 <? length vulns)%nat
      then Ok ((lines ++ ["  *...and " +:+ pretty (length vulns - 10)
                          +:+ " more*"]) ++ [""])
      else Ok lines
  end.

(** The body of [for result in report.scan_results]. *)
Definition markdown_scan (lines : list string) (res : ScanResult)
  : result (list string) :=
  let lines := lines ++ ["### " +:+ scanner res] in
  let lines := lines ++ [""] in
  match vulnerabilities res with
  | [] => Ok ((lines ++ ["No vulnerabilities found."]) ++ [""])
  | _ :: _ =>
      let by_severity := group_by_severity (vulnerabilities res) in
      for_lines SEVERITY_ORDER (markdown_group by_severity) lines
  end.

Definition markdown_lines (report : SecurityReport) : result (list string) :=
  let lines :=
    [ "# Security Scan Report";
      "";
      "**Generated:** " +:+ generated_at report;
      "**Repository:** " +:+ repository report;
      "**Branch:** " +:+ branch report;
      "**Commit:** " +:+ commit report;
      "";
      "## Summary";
      "";
      "| Severity | Count |";
      "|----------|-------|" ] in
  let lines :=
    foldl (fun lines sev =>
             let count := default 0 (total_vulnerabilities report !! sev) in
             lines ++ ["| " +:+ sev +:+ " | " +:+ pretty count +:+ " |"])
          lines SEVERITY_ORDER in
  let lines := lines ++ [""; "## Recommendations"; ""] in
  let lines :=
    foldl (fun lines rec => lines ++ ["- " +:+ rec])
          lines (recommendations report) in
  let lines := lines ++ [""; "## Detailed Findings"; ""] in
  for_lines (scan_results report) markdown_scan lines.

Definition output_markdown (report : SecurityReport) : result string :=
  let? lines := markdown_lines report in
  Ok (join (String "010"%char EmptyString) lines).

(** [main] up to [report = generator.generate_report()]: [None] is
    [sys.exit(1)] on an empty [scan_results]. *)
Definition main_report (d : directory) : option SecurityReport * io :=
  let '(generator, w) :=
    collect_results (new_generator d) {| stderr := []; clock_reads := 0 |} in
  match self_scan_results generator with
  | [] => (None, {| stderr := stderr w ++ [NoScanResults];
                    clock_reads := clock_reads w |})
  | _ :: _ => let '(report, w) := generate_report generator w in
              (Some report, w)
  end.
End Collector.

(* ================================================================== *)
(** * Vocabulary of the properties *)
(* ================================================================== *)

(** One of the five canonical severities. *)
Definition canonical (s : string) : Prop := In s SEVERITY_ORDER.

Definition canonicalb (s : string) : bool :=
  existsb (String.eqb s) SEVERITY_ORDER.

(** The test the SARIF adapter applies to a tag: a string that starts
    with [http]. *)
Definition looks_like_url (x : json) : bool :=
  match x with
  | JStr s => startswith s "http"
  | _ => false
  end.

(** The findings with a given severity, in order. *)
Definition with_severity (s : string) (vulns : list Vulnerability)
  : list Vulnerability :=
  filter (fun v => severity v = s) vulns.

(** [sum(summary.values())]. *)
Definition sum_values (m : gmap string nat) : nat :=
  map_fold (fun _ count acc => count + acc) 0 m.

(** A walk over a document seen as the outcomes of its items, in order:
    the finding an item yields, or the exception it raises. *)
Fixpoint oks_before_raise {A} (outs : list (result A)) : list A :=
  match outs with
  | Ok a :: rest => a :: oks_before_raise rest
  | _ => []
  end.

Fixpoint first_raise {A} (outs : list (result A)) : option exn :=
  match outs with
  | [] => None
  | Ok _ :: rest => first_raise rest
  | Raise e :: _ => Some e
  end.

(** What an adapter returns and prints for a walk with these outcomes,
    if it stops at the first exception and keeps what it has. *)
Definition stop_at_first_raise (name : string) (f : file)
    (outs : list (result Vulnerability))
  : list Vulnerability * list diagnostic :=
  (oks_before_raise outs,
   match first_raise outs with
   | Some e => [ParseError name f e]
   | None => []
   end).

(** An exception outside the item loops is a walk of one failed step. *)
Definition outcomes_of {A} (r : result A)
    (k : A -> list (result Vulnerability)) : list (result Vulnerability) :=
  match r with
  | Ok a => k a
  | Raise e => [Raise e]
  end.

Section Outcomes.
Context (B : builtins).

Definition sarif_run_outcomes (run : json) : list (result Vulnerability) :=
  outcomes_of (let? tool := py_get run "tool" (JObj []) in
               let? driver := py_get tool "driver" (JObj []) in
               py_get driver "name" (JStr "Unknown")) (fun tool_name =>
  outcomes_of (let? tool := py_get run "tool" (JObj []) in
               let? driver := py_get tool "driver" (JObj []) in
               let? rs := py_get driver "rules" (JArr []) in
               let? rs := py_iter rs in
               rules_of rs []) (fun rules =>
  outcomes_of (let? rs := py_get run "results" (JArr []) in py_iter rs)
              (fun results => map (sarif_result B tool_name rules) results))).

Definition sarif_outcomes (f : file) : list (result Vulnerability) :=
  outcomes_of (contents f) (fun data =>
  outcomes_of (let? rs := py_get data "runs" (JArr []) in py_iter rs)
              (fun runs => flat_map sarif_run_outcomes runs)).

Definition npm_outcomes (f : file) : list (result Vulnerability) :=
  outcomes_of (contents f) (fun data =>
  outcomes_of (let? vs := py_get data "vulnerabilities" (JObj []) in
               py_items vs)
              (fun entries => map npm_advisory entries)).

Definition trivy_result_outcomes (res : json) : list (result Vulnerability) :=
  outcomes_of (py_get res "Target" (JStr "")) (fun target =>
  outcomes_of (let? vs := py_get res "Vulnerabilities" (JArr []) in
               py_iter vs)
              (fun vulns => map (trivy_vuln B target) vulns)).

Definition trivy_outcomes (f : file) : list (result Vulnerability) :=
  outcomes_of (contents f) (fun data =>
  outcomes_of (let? rs := py_get data "Results" (JArr []) in py_iter rs)
              (fun results => flat_map trivy_result_outcomes results)).
End Outcomes.

(** What one discovered document adds to [scan_results], the timestamp
    apart: nothing, or one entry with its scanner name, findings and
    summary. *)
Definition contribution
    (parse : file -> list Vulnerability * list diagnostic)
    (scanner_of : file -> string) (f : file)
  : list (string * list Vulnerability * gmap string nat) :=
  match fst (parse f) with
  | [] => []
  | vulns => [(scanner_of f, vulns, count_severities vulns)]
  end.

Definition untimed (r : ScanResult)
  : string * list Vulnerability * gmap string nat :=
  (scanner r, vulnerabilities r, summary r).

(** A stand-in for the built-ins left open, to run the examples below.
    None of them reaches it: their documents hold no number written as a
    string, format no float, list or dict, and label no severity outside
    ASCII. *)
Definition sample_builtins : builtins :=
  {| float_of_str := fun _ => None; py_repr := fun _ => "";
     upper_beyond_ascii := fun s => s |}.

Definition sample_environment : environment :=
  {| now_iso := fun n => "2024-01-01T00:00:0" +:+ pretty n;
     environ := ∅ |}.

(* ================================================================== *)
(** * The command line entry point *)
(* ================================================================== *)

(** [--output]: the three choices [argparse] admits. *)
Inductive output_format : Set :=
| FormatJson
| FormatMarkdown
| FormatHtml.

(** The parsed arguments: the directory [--input-dir] names, the output
    format and [--output-file] ([None] when the option is absent). *)
Record arguments : Type := {
  args_input_dir : directory;
  args_output : output_format;
  args_output_file : option string
}.

(** How [main] ends: it returns, it calls [sys.exit], or an exception
    leaves it. *)
Inductive termination : Set :=
| Returned
| SysExit (code : nat)
| Uncaught (e : exn).

(** What a run of [main] leaves behind: how it ended, the texts printed
    to standard output, the lines of the script on [sys.stderr] (the
    interpreter's traceback of an uncaught exception is not among them)
    and the files written, each with its content. *)
Record run : Type := {
  run_termination : termination;
  run_stdout : list string;
  run_stderr : list diagnostic;
  run_files : list (string * string)
}.

Section Main.
Context (B : builtins) (E : environment).

(** [output_json] is [json.dumps(asdict(report), indent=2, ...)]: the
    layout of the text is the library's, so the function is taken as
    given.  [writable] tells whether [open(path, 'w')] succeeds. *)
Context (output_json : SecurityReport -> string) (writable : string -> bool).

Definition main (args : arguments) : run :=
  let '(report, w) := main_report B E (args_input_dir args) in
  match report with
  | None =>
      {| run_termination := SysExit 1; run_stdout := [];
         run_stderr := stderr w; run_files := [] |}
  | Some report =>
      let output :=
        match args_output args with
        | FormatJson => Ok (output_json report)
        | _ => output_markdown B report
        end in
      match output with
      | Raise e =>
          {| run_termination := Uncaught e; run_stdout := [];
             run_stderr := stderr w; run_files := [] |}
      | Ok output =>
          match args_output_file args with
          | Some (String c path) =>
              let output_file := String c path in
              if writable output_file then
                {| run_termination := Returned;
                   run_stdout := ["Report written to " +:+ output_file];
                   run_stderr := stderr w;
                   run_files := [(output_file, output)] |}
              else
                {| run_termination := Uncaught OSError; run_stdout := [];
                   run_stderr := stderr w; run_files := [] |}
          | _ =>
              {| run_termination := Returned; run_stdout := [output];
                 run_stderr := stderr w; run_files := [] |}
          end
      end
  end.
End Main.

(* ================================================================== *)
(** * The example application ([examples/python-app/app.py]) *)
(* ================================================================== *)

(** The view functions of the item API, as functions of the stored items.
    A view takes what Flask hands it: the value [request.get_json()]
    returned for [create_item], the integer of the route for [get_item]
    and [delete_item].  It returns the object it passes to [jsonify] with
    the status code, or the exception that leaves it. *)

(** An entry of the global list [items]: the dictionary [create_item]
    builds, with its three keys. *)
Record item : Type := {
  item_id : nat;
  item_name : json;
  item_description : json
}.

(** The entry as [jsonify] receives it. *)
Definition item_json (i : item) : json :=
  JObj [("id", JInt (Z.of_nat (item_id i)));
        ("name", item_name i);
        ("description", item_description i)].

(** The global [items] and the lines written with [logger.info]. *)
Record app_state : Type := {
  items : list item;
  logged : list string
}.

Record response : Type := {
  status : nat;
  body : json
}.

(** [get_items]. *)
Definition get_items (st : app_state) : result response * app_state :=
  (Ok {| status := 200;
         body := JObj [("items", JArr (map item_json (items st)));
                       ("count", JInt (Z.of_nat (length (items st))))] |},
   {| items := items st; logged := logged st ++ ["Fetching all items"] |}).

(** [create_item], [data] being what [request.get_json()] returned. *)
Definition create_item (data : json) (st : app_state)
  : result response * app_state :=
  let rejected :=
    if negb (truthy data) then Ok true
    else let? named := py_contains "name" data in Ok (negb named) in
  match rejected with
  | Raise e => (Raise e, st)
  | Ok true =>
      (Ok {| status := 400;
             body := JObj [("error", JStr "Name is required")] |}, st)
  | Ok false =>
      let fields :=
        let? raw_name := py_getitem data "name" in
        let? name := py_slice 100 raw_name in
        let? raw_description := py_get data "description" (JStr "") in
        let? description := py_slice 500 raw_description in
        Ok (name, description) in
      match fields with
      | Raise e => (Raise e, st)
      | Ok (name, description) =>
          let new_item := {| item_id := length (items st) + 1;
                             item_name := name;
                             item_description := description |} in
          (Ok {| status := 201; body := item_json new_item |},
           {| items := items st ++ [new_item];
              logged := logged st
                        ++ ["Created item: " +:+ pretty (item_id new_item)] |})
      end
  end.

(** [get_item]: the first entry with the id, if any. *)
Definition get_item (wanted : nat) (st : app_state)
  : result response * app_state :=
  match List.find (fun i => item_id i =? wanted)%nat (items st) with
  | Some found => (Ok {| status := 200; body := item_json found |}, st)
  | None =>
      (Ok {| status := 404;
             body := JObj [("error", JStr "Item not found")] |}, st)
  end.

(** [delete_item]: [items] is replaced by the entries with another id,
    also when that removes none. *)
Definition delete_item (unwanted : nat) (st : app_state)
  : result response * app_state :=
  let original_count := length (items st) in
  let kept := List.filter (fun i => negb (item_id i =? unwanted)%nat)
                          (items st) in
  if (length kept =? original_count)%nat then
    (Ok {| status := 404;
           body := JObj [("error", JStr "Item not found")] |},
     {| items := kept; logged := logged st |})
  else
    (Ok {| status := 200;
           body := JObj [("message", JStr "Item deleted")] |},
     {| items := kept;
        logged := logged st ++ ["Deleted item: " +:+ pretty unwanted] |}).

(** A request to the item API, and a sequence of requests served from a
    given state. *)
Inductive request : Type :=
| GetItems
| CreateItem (data : json)
| GetItem (wanted : nat)
| DeleteItem (unwanted : nat).

Definition serve_one (st : app_state) (rq : request) : app_state :=
  snd (match rq with
       | GetItems => get_items st
       | CreateItem data => create_item data st
       | GetItem wanted => get_item wanted st
       | DeleteItem unwanted => delete_item unwanted st
       end).

Definition serve (requests : list request) (st : app_state) : app_state :=
  foldl serve_one st requests.

(** The state of a fresh process: [items = []]. *)
Definition fresh : app_state := {| items := []; logged := [] |}.

(* ================================================================== *)
(** * Vocabulary of the proofs *)
(* ================================================================== *)

(** [m] only appends to the list, and what it appends satisfies [P]. *)
Definition appends_only (P : Vulnerability -> Prop) {A} (m : adapter A) : Prop :=
  forall vs, exists new, snd (m vs) = vs ++ new /\ Forall P new.

(** The walk with the given outcomes, as a computation on the list. *)
Definition replay (outs : list (result Vulnerability)) : adapter unit :=
  fun vs =>
    (match first_raise outs with
     | Some e => Raise e
     | None => Ok tt
     end,
     vs ++ oks_before_raise outs).

(** [st'] is [st] with the given entries appended to the scan results,
    the given lines printed, and one clock reading per entry. *)
Definition extends_by (st st' : list ScanResult * io)
    (entries : list (string * list Vulnerability * gmap string nat))
    (printed : list diagnostic) : Prop :=
  exists new,
    fst st' = fst st ++ new
    /\ map untimed new = entries
    /\ stderr (snd st') = stderr (snd st) ++ printed
    /\ clock_reads (snd st') = clock_reads (snd st) + length new.

(** What the Trivy loop adds and prints for a file: nothing unless its
    suffix is [.json]. *)
Definition trivy_contribution (B : builtins) (f : file)
  : list (string * list Vulnerability * gmap string nat) :=
  if String.eqb (suffix f) ".json"
  then contribution (parse_trivy_json B) (fun f => "trivy-" +:+ stem f) f
  else [].

Definition trivy_printed (B : builtins) (f : file) : list diagnostic :=
  if String.eqb (suffix f) ".json" then snd (parse_trivy_json B f) else [].

(** What [collect_results] appends: entries that hold at least one
    finding, with the summary counted from their findings. *)
Definition recorded (r : ScanResult) : Prop :=
  vulnerabilities r <> [] /\ summary r = count_severities (vulnerabilities r).

(** A loop body of the renderer that only extends [lines]. *)
Definition appender {A} (body : list string -> A -> result (list string))
  : Prop :=
  forall lines x,
    body lines x = let? new := body [] x in Ok (lines ++ new).

(** A remediation the renderer can print: empty, so it is skipped, or a
    value [[:100]] applies to. *)
Definition cuttable (x : json) : Prop :=
  match x with
  | JStr _ | JArr _ => True
  | _ => truthy x = false
  end.

(** Two reports that agree on everything but the findings and totals
    whose severity is not a canonical one. *)
Definition same_listed (r1 r2 : SecurityReport) : Prop :=
  generated_at r1 = generated_at r2
  /\ repository r1 = repository r2
  /\ branch r1 = branch r2
  /\ commit r1 = commit r2
  /\ recommendations r1 = recommendations r2
  /\ (forall s, canonical s ->
                default 0 (total_vulnerabilities r1 !! s)
                = default 0 (total_vulnerabilities r2 !! s))
  /\ Forall2 (fun s1 s2 =>
                scanner s1 = scanner s2
                /\ (vulnerabilities s1 = [] <-> vulnerabilities s2 = [])
                /\ forall s, canonical s ->
                             with_severity s (vulnerabilities s1)
                             = with_severity s (vulnerabilities s2))
             (scan_results r1) (scan_results r2).

(** ** Findings and the entries they were read from *)

(** The tool name and the rule table [parse_sarif] binds for a run. *)
Definition run_tool_name (run : json) : result json :=
  let? tool := py_get run "tool" (JObj []) in
  let? driver := py_get tool "driver" (JObj []) in
  py_get driver "name" (JStr "Unknown").

Definition run_rules (run : json) : result pydict :=
  let? tool := py_get run "tool" (JObj []) in
  let? driver := py_get tool "driver" (JObj []) in
  let? rs := py_get driver "rules" (JArr []) in
  let? rs := py_iter rs in
  rules_of rs [].

(** [res] is listed under [results] in [run], a run of the document
    [f]. *)
Definition sarif_result_of (f : file) (run res : json) : Prop :=
  exists data runs results,
    contents f = Ok data
    /\ (let? rs := py_get data "runs" (JArr []) in py_iter rs) = Ok runs
    /\ In run runs
    /\ (let? rs := py_get run "results" (JArr []) in py_iter rs) = Ok results
    /\ In res results.

(** [v] is the finding [parse_sarif] builds for the result [res] of the
    document, with the tool name and the rule table of its run. *)
Definition sarif_finding_of (B : builtins) (f : file) (v : Vulnerability)
    (tool_name : json) (rules : pydict) (res : json) : Prop :=
  exists run,
    sarif_result_of f run res
    /\ run_tool_name run = Ok tool_name
    /\ run_rules run = Ok rules
    /\ sarif_result B tool_name rules res = Ok v.

(** [v] is the finding [parse_npm_audit] builds for the advisory
    [vuln_id], an item of [vulnerabilities] in the document [f]. *)
Definition npm_finding_of (f : file) (v : Vulnerability)
    (vuln_id : string) (vuln_data : json) : Prop :=
  (exists data entries,
      contents f = Ok data
      /\ (let? vs := py_get data "vulnerabilities" (JObj []) in py_items vs)
         = Ok entries
      /\ In (vuln_id, vuln_data) entries)
  /\ npm_advisory (vuln_id, vuln_data) = Ok v.

(** [vuln_data] is listed under [Vulnerabilities] in [res], an entry of
    [Results] in the document [f]. *)
Definition trivy_entry_of (f : file) (res vuln_data : json) : Prop :=
  exists data results vulns,
    contents f = Ok data
    /\ (let? rs := py_get data "Results" (JArr []) in py_iter rs) = Ok results
    /\ In res results
    /\ (let? vs := py_get res "Vulnerabilities" (JArr []) in py_iter vs)
       = Ok vulns
    /\ In vuln_data vulns.

(** [v] is the finding [parse_trivy_json] builds for the entry
    [vuln_data] of the scan result [res], with the [Target] of [res]. *)
Definition trivy_finding_of (B : builtins) (f : file) (v : Vulnerability)
    (res vuln_data : json) : Prop :=
  trivy_entry_of f res vuln_data
  /\ exists target,
       py_get res "Target" (JStr "") = Ok target
       /\ trivy_vuln B target vuln_data = Ok v.

(** An image-scan entry the Trivy adapter can read: an object whose
    [Severity] is a string, whose [CVSS] is an object with an object
    under [nvd] (an absent field counts as the empty object), and whose
    [References] is a list or a string. *)
Definition trivy_entry_ok (vuln_data : json) : bool :=
  match vuln_data with
  | JObj kvs =>
      match default (JStr "UNKNOWN") (assoc "Severity" kvs) with
      | JStr _ => true
      | _ => false
      end
      && match default (JObj []) (assoc "CVSS" kvs) with
         | JObj scores => is_dict (default (JObj []) (assoc "nvd" scores))
         | _ => false
         end
      && match default (JArr []) (assoc "References" kvs) with
         | JArr _ | JStr _ => true
         | _ => false
         end
  | _ => false
  end.

(** A rule whose [id] is the string [s]. *)
Definition rule_has_id (s : string) (r : json) : bool :=
  match py_getitem r "id" with
  | Ok (JStr t) => String.eqb t s
  | _ => false
  end.

(** [st'] is [st] with scan results appended, each stamped with the next
    reading of the clock. *)
Definition stamped (E : environment) (st st' : list ScanResult * io) : Prop :=
  exists new,
    fst st' = fst st ++ new
    /\ map timestamp new
       = map (now_iso E) (seq (clock_reads (snd st)) (length new))
    /\ clock_reads (snd st') = clock_reads (snd st) + length new.

(** A value [x[:n]] can be taken of: a string or a list. *)
Definition sliceable (x : json) : bool :=
  match x with
  | JStr _ | JArr _ => true
  | _ => false
  end.

(** The length of a stored name or description. *)
Definition field_length (x : json) : nat :=
  match x with
  | JStr s => String.length s
  | JArr l => length l
  | _ => 0
  end.

(** A request that is no deletion. *)
Definition keeps_items (rq : request) : bool :=
  match rq with
  | DeleteItem _ => false
  | _ => true
  end.

(** A SARIF result the loop body can read when the run has no rule for
    it: an object whose [ruleId] and [level] can be looked up in a
    [dict], whose first location (the empty object when [locations] is
    empty, the default [[{}]] when it is absent) is an object with
    objects under [physicalLocation], [artifactLocation] and [region],
    and whose [message] is an object, an absent field counting as the
    empty object. *)
Definition readable_without_rule (res : json) : bool :=
  match res with
  | JObj kvs =>
      hashable (default (JStr "") (assoc "ruleId" kvs))
      && hashable (default (JStr "warning") (assoc "level" kvs))
      && match (let locations :=
                  default (JArr [JObj []]) (assoc "locations" kvs) in
                if truthy locations then py_first locations
                else Ok (JObj [])) with
         | Ok (JObj location) =>
             match default (JObj []) (assoc "physicalLocation" location) with
             | JObj physical =>
                 is_dict (default (JObj []) (assoc "artifactLocation" physical))
                 && is_dict (default (JObj []) (assoc "region" physical))
             | _ => false
             end
         | _ => false
         end
      && is_dict (default (JObj []) (assoc "message" kvs))
  | _ => false
  end.

(* ================================================================== *)
(** * Example documents *)
(* ================================================================== *)

(** Scenario A: one result at level [error], whose rule carries the
    score 9.5. *)
Definition scenario_a_rule : json :=
  JObj [("id", JStr "sql-injection");
        ("properties", JObj [("security-severity", JFloat 9.5%float)])].

Definition scenario_a_result : json :=
  JObj [("ruleId", JStr "sql-injection"); ("level", JStr "error")].

Definition scenario_a : file :=
  {| stem := "semgrep"; suffix := ".sarif";
     contents :=
       Ok (JObj [("runs", JArr [JObj [
             ("tool", JObj [("driver", JObj [
                 ("name", JStr "Semgrep");
                 ("rules", JArr [scenario_a_rule])])]);
             ("results", JArr [scenario_a_result])]])]) |}.

(** An image scan whose only entry has no [Severity]. *)
Definition unlabelled_scan : file :=
  {| stem := "trivy-image"; suffix := ".json";
     contents :=
       Ok (JObj [("Results", JArr [JObj [
             ("Target", JStr "alpine:3.18");
             ("Vulnerabilities", JArr [JObj [
                 ("VulnerabilityID", JStr "CVE-2023-0001");
                 ("PkgName", JStr "openssl")]])]])]) |}.

(** A SARIF document with two results: the first is well formed, the rule
    of the second has [null] for its score, on which [float()] raises. *)
Definition half_broken_sarif : file :=
  {| stem := "semgrep"; suffix := ".sarif";
     contents :=
       Ok (JObj [("runs", JArr [JObj [
             ("tool", JObj [("driver", JObj [
                 ("name", JStr "Semgrep");
                 ("rules", JArr [
                     JObj [("id", JStr "R1")];
                     JObj [("id", JStr "R2");
                           ("properties",
                            JObj [("security-severity", JNull)])]])])]);
             ("results", JArr [
                 JObj [("ruleId", JStr "R1"); ("level", JStr "warning")];
                 JObj [("ruleId", JStr "R2"); ("level", JStr "error")]])]])]) |}.

(** A file that cannot be decoded. *)
Definition garbled : file :=
  {| stem := "broken"; suffix := ".sarif"; contents := Raise JSONDecodeError |}.

(** An advisory with no [url]. *)
Definition advisory_without_url : file :=
  {| stem := "npm-audit"; suffix := ".json";
     contents :=
       Ok (JObj [("vulnerabilities", JObj [
             ("lodash", JObj [("name", JStr "lodash");
                              ("severity", JStr "moderate")])])]) |}.

(** An input directory holding that image scan alone. *)
Definition image_scan_only : directory :=
  {| dir_exists := true; sarif_files := []; npm_files := [];
     trivy_files := [unlabelled_scan] |}.

(** A finding of severity HIGH, and a scan result holding twelve of it. *)
Definition high_finding : Vulnerability :=
  {| id := JStr "sql-injection"; title := JStr "SQL injection";
     severity := "HIGH"; description := JStr ""; source := JStr "Semgrep";
     file_path := JStr "app.py"; line_number := JInt 7; cwe := JStr "";
     cvss := JFloat 0%float; remediation := JStr ""; references := JArr [] |}.

Definition twelve_high : ScanResult :=
  {| scanner := "semgrep"; timestamp := "2024-01-01T00:00:00";
     vulnerabilities := replicate 12 high_finding;
     summary := count_severities (replicate 12 high_finding) |}.

(** Scenario D: a Semgrep scan with one LOW finding and nothing else. *)
Definition scenario_d : ReportGenerator :=
  {| input_dir := {| dir_exists := true; sarif_files := [];
                     npm_files := []; trivy_files := [] |};
     self_scan_results :=
       [{| scanner := "Semgrep-results"; timestamp := "2024-01-01T00:00:00";
           vulnerabilities :=
             [{| id := JStr "weak-hash"; title := JStr "Weak hash";
                 severity := "LOW"; description := JStr "";
                 source := JStr "Semgrep"; file_path := JStr "";
                 line_number := JInt 0; cwe := JStr "";
                 cvss := JFloat 0%float; remediation := JStr "";
                 references := JArr [] |}];
           summary := {["LOW" := 1]} |}] |}.

(** Scenario C: an image-scan entry labelled [HIGH], with neither a
    [CVSS] object nor a [FixedVersion]. *)
Definition scenario_c : file :=
  {| stem := "trivy-image"; suffix := ".json";
     contents :=
       Ok (JObj [("Results", JArr [JObj [
             ("Target", JStr "alpine:3.18");
             ("Vulnerabilities", JArr [JObj [
                 ("VulnerabilityID", JStr "CVE-2023-0002");
                 ("Severity", JStr "HIGH");
                 ("PkgName", JStr "zlib")]])]])]) |}.

(** A SARIF result with two locations. *)
Definition two_location_result : json :=
  JObj [("ruleId", JStr "R1");
        ("locations", JArr [
           JObj [("physicalLocation", JObj [
              ("artifactLocation", JObj [("uri", JStr "src/a.py")]);
              ("region", JObj [("startLine", JInt 12)])])];
           JObj [("physicalLocation", JObj [
              ("artifactLocation", JObj [("uri", JStr "src/b.py")]);
              ("region", JObj [("startLine", JInt 40)])])]])].

(** An audit in the layout of npm 6, which lists [advisories] and has no
    [vulnerabilities]. *)
Definition npm6_audit : file :=
  {| stem := "npm-audit"; suffix := ".json";
     contents :=
       Ok (JObj [("advisories", JObj [
             ("1179", JObj [("module_name", JStr "minimist");
                            ("severity", JStr "high")])])]) |}.

(** Scenario D again, its scanner named in capitals. *)
Definition scenario_d_capitals : ReportGenerator :=
  {| input_dir := input_dir scenario_d;
     self_scan_results :=
       map (fun r => {| scanner := upper (scanner r);
                        timestamp := timestamp r;
                        vulnerabilities := vulnerabilities r;
                        summary := summary r |})
           (self_scan_results scenario_d) |}.

(** A finding with a remediation. *)
Definition fixable_finding : Vulnerability :=
  {| id := JStr "sql-injection"; title := JStr "SQL injection";
     severity := "HIGH"; description := JStr ""; source := JStr "Semgrep";
     file_path := JStr "app.py"; line_number := JInt 7; cwe := JStr "";
     cvss := JFloat 0%float;
     remediation := JStr "Use parameterised queries";
     references := JArr [] |}.

(** The item API after two items were created and the first deleted. *)
Definition after_a_deletion : app_state :=
  serve [CreateItem (JObj [("name", JStr "a")]);
         CreateItem (JObj [("name", JStr "b")]);
         DeleteItem 1] fresh.

(** The item a request for a third one then creates. *)
Definition third_item : item :=
  {| item_id := 2; item_name := JStr "c"; item_description := JStr "" |}.

(** The entry of Scenario C and the scan result that lists it. *)
Definition scenario_c_entry : json :=
  JObj [("VulnerabilityID", JStr "CVE-2023-0002");
        ("Severity", JStr "HIGH");
        ("PkgName", JStr "zlib")].

Definition scenario_c_result : json :=
  JObj [("Target", JStr "alpine:3.18");
        ("Vulnerabilities", JArr [scenario_c_entry])].

(* ================================================================== *)
(** * The adapter monad *)
(* ================================================================== *)

Section AppendsOnly.
Context (P : Vulnerability -> Prop).

Lemma appends_aret {A} (a : A) : appends_only P (aret a).
Proof. intros vs. exists []. simpl. by rewrite app_nil_r. Qed.

Lemma appends_lift {A} (r : result A) : appends_only P (lift r).
Proof. intros vs. exists []. simpl. by rewrite app_nil_r. Qed.

Lemma appends_append v : P v -> appends_only P (append v).
Proof. intros Hv vs. exists [v]. simpl. auto. Qed.

Lemma appends_abind {A C} (m : adapter A) (k : A -> adapter C) :
  appends_only P m ->
  (forall a vs, fst (m vs) = Ok a -> appends_only P (k a)) ->
  appends_only P (abind m k).
Proof.
  intros Hm Hk vs. unfold abind.
  destruct (Hm vs) as (new1 & E1 & F1).
  destruct (m vs) as [[a | e] vs'] eqn:Em; simpl in E1; subst vs'.
  - assert (Ea : fst (m vs) = Ok a) by (by rewrite Em).
    destruct (Hk a vs Ea (vs ++ new1)) as (new2 & E2 & F2).
    exists (new1 ++ new2). rewrite E2, app_assoc. split; [done |].
    by apply Forall_app.
  - exists new1. auto.
Qed.

Lemma appends_lift_bind {A C} (r : result A) (k : A -> adapter C) :
  (forall a, r = Ok a -> appends_only P (k a)) ->
  appends_only P (abind (lift r) k).
Proof.
  intros Hk. apply appends_abind; [apply appends_lift |].
  intros a vs E. apply Hk. exact E.
Qed.

Lemma appends_for_each {A} (xs : list A) (body : A -> adapter unit) :
  (forall x, In x xs -> appends_only P (body x)) ->
  appends_only P (for_each xs body).
Proof.
  induction xs as [| x xs IH]; intros Hb; simpl.
  - apply appends_aret.
  - apply appends_abind; [apply Hb; by left |].
    intros _ _ _. apply IH. intros y Hy. apply Hb. by right.
Qed.

Lemma try_except_Forall name f (body : adapter unit) :
  appends_only P body -> Forall P (fst (try_except name f body)).
Proof.
  intros Hb. unfold try_except.
  destruct (Hb []) as (new & E & F).
  destruct (body []) as [[[] | e] vs]; simpl in *; by subst.
Qed.
End AppendsOnly.

Lemma rbind_Ok {A C} (r : result A) (k : A -> result C) c :
  rbind r k = Ok c -> exists a, r = Ok a /\ k a = Ok c.
Proof. destruct r as [a | e]; simpl; [eauto | discriminate]. Qed.

Tactic Notation "bind_inv" hyp(H) "as" ident(x) ident(E) :=
  apply rbind_Ok in H; destruct H as (x & E & H).

Lemma assoc_In {V} k (kvs : list (string * V)) v :
  assoc k kvs = Some v -> In (k, v) kvs.
Proof.
  induction kvs as [| [k' v'] kvs IH]; simpl; [discriminate |].
  destruct (String.eqb k k') eqn:Ek.
  - apply String.eqb_eq in Ek. intros [= ->]. subst. by left.
  - intros H. right. auto.
Qed.

Lemma table_get_values m k d s :
  table_get m k d = Ok s -> s = d \/ In s (map snd m).
Proof.
  destruct k; simpl; try (intros [= <-]; by left); try discriminate.
  intros [= <-]. destruct (assoc s0 m) as [v |] eqn:Ea; simpl; [| by left].
  right. apply assoc_In in Ea. apply in_map_iff. by exists (s0, v).
Qed.

Section SarifResult.
Context (B : builtins).

Lemma sarif_result_inv tool_name rules res v :
  sarif_result B tool_name rules res = Ok v ->
  exists rule_id rule level base props scored,
    py_get res "ruleId" (JStr "") = Ok rule_id
    /\ pydict_get rules rule_id (JObj []) = Ok rule
    /\ py_get res "level" (JStr "warning") = Ok level
    /\ table_get [("error", "HIGH"); ("warning", "MEDIUM"); ("note", "LOW")]
                 level "MEDIUM" = Ok base
    /\ py_get rule "properties" (JObj []) = Ok props
    /\ py_contains "security-severity" props = Ok scored
    /\ (if scored
        then exists raw score,
            py_getitem props "security-severity" = Ok raw
            /\ py_float B raw = Ok score
            /\ severity v = score_severity score
        else severity v = base)
    /\ exists tags refs,
        (let? t := py_get props "tags" (JArr []) in py_iter t) = Ok tags
        /\ http_tags tags = Ok refs
        /\ references v = JArr refs.
Proof.
  intros H. unfold sarif_result in H.
  bind_inv H as rule_id E1. bind_inv H as rule E2. bind_inv H as level E3.
  cbv zeta in H.
  bind_inv H as base E4. bind_inv H as props E5. bind_inv H as scored E6.
  bind_inv H as sev E7. bind_inv H as locations E8. bind_inv H as location E9.
  bind_inv H as physical E10. bind_inv H as artifact E11. bind_inv H as region E12.
  bind_inv H as short E13. bind_inv H as title E14. bind_inv H as message E15.
  bind_inv H as descr E16. bind_inv H as path E17. bind_inv H as line E18.
  bind_inv H as cwe E19. bind_inv H as raw_cvss E20. bind_inv H as cvss E21.
  bind_inv H as help E22. bind_inv H as remed E23. bind_inv H as tags0 E24.
  bind_inv H as tags E25. bind_inv H as refs E26.
  injection H as <-. simpl.
  exists rule_id, rule, level, base, props, scored.
  repeat split; try assumption.
  - destruct scored.
    + bind_inv E7 as raw E7a. bind_inv E7 as score E7b. injection E7 as <-.
      by exists raw, score.
    + by injection E7 as <-.
  - exists tags, refs. rewrite E24. simpl. auto.
Qed.
End SarifResult.

Lemma npm_advisory_inv vuln_id vuln_data v :
  npm_advisory (vuln_id, vuln_data) = Ok v ->
  exists native url,
    py_get vuln_data "severity" (JStr "") = Ok native
    /\ table_get [("critical", "CRITICAL"); ("high", "HIGH");
                  ("moderate", "MEDIUM"); ("low", "LOW")]
                 native "MEDIUM" = Ok (severity v)
    /\ py_get vuln_data "url" (JStr "") = Ok url
    /\ references v = JArr [url].
Proof.
  intros H. unfold npm_advisory in H. cbv zeta in H.
  bind_inv H as title E1. bind_inv H as native E2. bind_inv H as sev E3.
  bind_inv H as descr E4. bind_inv H as probe E5. bind_inv H as remed E6.
  bind_inv H as url E7. injection H as <-. simpl.
  exists native, url. auto.
Qed.

Lemma trivy_vuln_inv B target vuln_data v :
  trivy_vuln B target vuln_data = Ok v ->
  exists label refs,
    py_get vuln_data "Severity" (JStr "UNKNOWN") = Ok (JStr label)
    /\ severity v = str_upper B label
    /\ py_get vuln_data "References" (JArr []) = Ok refs
    /\ py_slice 3 refs = Ok (references v).
Proof.
  intros H. unfold trivy_vuln in H.
  bind_inv H as vid E1. bind_inv H as dflt E2. bind_inv H as title E3.
  bind_inv H as native E4. bind_inv H as sev E5. bind_inv H as descr E6.
  bind_inv H as scores E7. bind_inv H as nvd E8. bind_inv H as cvss E9.
  bind_inv H as pkg E10. bind_inv H as fixed E11. cbv zeta in H.
  bind_inv H as refs E12. bind_inv H as sliced E13.
  injection H as <-. simpl.
  destruct native; try discriminate. injection E5 as <-.
  by exists s, refs.
Qed.

Lemma http_tags_filter tags refs :
  http_tags tags = Ok refs -> refs = List.filter looks_like_url tags.
Proof.
  revert refs. induction tags as [| t tags IH]; intros refs; simpl.
  - by intros [= <-].
  - destruct t; try discriminate.
    intros H. bind_inv H as rest E. injection H as <-.
    rewrite (IH rest E). cbn [List.filter looks_like_url]. unfold startswith.
    by destruct (String.prefix "http" s).
Qed.

(** Every finding an adapter returns was built by its per-item step. *)
Section FindingsComeFromItems.
Context (B : builtins) (P : Vulnerability -> Prop).

Lemma parse_sarif_Forall f :
  (forall tool_name rules res v,
      sarif_result B tool_name rules res = Ok v -> P v) ->
  Forall P (fst (parse_sarif B f)).
Proof.
  intros HP. apply try_except_Forall.
  apply appends_lift_bind; intros data _.
  apply appends_lift_bind; intros runs _.
  apply appends_for_each; intros run _. unfold sarif_run.
  apply appends_lift_bind; intros tool_name _.
  apply appends_lift_bind; intros rules _.
  apply appends_lift_bind; intros results _.
  apply appends_for_each; intros res _.
  apply appends_lift_bind; intros v Hv.
  apply appends_append. eauto.
Qed.

Lemma parse_npm_audit_Forall f :
  (forall vuln_id vuln_data v,
      npm_advisory (vuln_id, vuln_data) = Ok v -> P v) ->
  Forall P (fst (parse_npm_audit f)).
Proof.
  intros HP. apply try_except_Forall.
  apply appends_lift_bind; intros data _.
  apply appends_lift_bind; intros entries _.
  apply appends_for_each; intros [vuln_id vuln_data] _.
  apply appends_lift_bind; intros v Hv.
  apply appends_append. eauto.
Qed.

Lemma parse_trivy_json_Forall f :
  (forall target vuln_data v, trivy_vuln B target vuln_data = Ok v -> P v) ->
  Forall P (fst (parse_trivy_json B f)).
Proof.
  intros HP. apply try_except_Forall.
  apply appends_lift_bind; intros data _.
  apply appends_lift_bind; intros results _.
  apply appends_for_each; intros res _. unfold trivy_result.
  apply appends_lift_bind; intros target _.
  apply appends_lift_bind; intros vulns _.
  apply appends_for_each; intros vuln_data _.
  apply appends_lift_bind; intros v Hv.
  apply appends_append. eauto.
Qed.
End FindingsComeFromItems.

Lemma score_severity_canonical score : canonical (score_severity score).
Proof.
  unfold score_severity, canonical, SEVERITY_ORDER.
  repeat case_match; simpl; auto 6.
Qed.

(** Every finding an adapter returns was built from an entry of its
    document. *)
Section FindingsAndEntries.
Context (B : builtins).

Lemma parse_sarif_findings f :
  Forall (fun v => exists tool_name rules res,
              sarif_finding_of B f v tool_name rules res)
         (fst (parse_sarif B f)).
Proof.
  apply try_except_Forall.
  apply appends_lift_bind; intros data Hdata.
  apply appends_lift_bind; intros runs Hruns.
  apply appends_for_each; intros run Hrun. unfold sarif_run.
  apply appends_lift_bind; intros tool_name Htool.
  apply appends_lift_bind; intros rules Hrules.
  apply appends_lift_bind; intros results Hresults.
  apply appends_for_each; intros res Hres.
  apply appends_lift_bind; intros v Hv.
  apply appends_append. exists tool_name, rules, res, run.
  repeat split; try assumption. by exists data, runs, results.
Qed.

Lemma parse_npm_audit_findings f :
  Forall (fun v => exists vuln_id vuln_data,
              npm_finding_of f v vuln_id vuln_data)
         (fst (parse_npm_audit f)).
Proof.
  apply try_except_Forall.
  apply appends_lift_bind; intros data Hdata.
  apply appends_lift_bind; intros entries Hentries.
  apply appends_for_each; intros [vuln_id vuln_data] Hentry.
  apply appends_lift_bind; intros v Hv.
  apply appends_append. exists vuln_id, vuln_data.
  split; [by exists data, entries | exact Hv].
Qed.

Lemma parse_trivy_json_findings f :
  Forall (fun v => exists res vuln_data, trivy_finding_of B f v res vuln_data)
         (fst (parse_trivy_json B f)).
Proof.
  apply try_except_Forall.
  apply appends_lift_bind; intros data Hdata.
  apply appends_lift_bind; intros results Hresults.
  apply appends_for_each; intros res Hres. unfold trivy_result.
  apply appends_lift_bind; intros target Htarget.
  apply appends_lift_bind; intros vulns Hvulns.
  apply appends_for_each; intros vuln_data Hvuln.
  apply appends_lift_bind; intros v Hv.
  apply appends_append. exists res, vuln_data.
  split; [by exists data, results, vulns | by exists target].
Qed.
End FindingsAndEntries.

(** C1 (as amended). The findings of the SARIF and the npm adapters carry
    one of the five canonical severities.  A finding of the Trivy adapter
    carries the [Severity] label of the entry it was built from
    ([UNKNOWN] when the entry has none) in upper case, whatever that
    label is: so does the loop body for every entry, and every finding of
    a document was built from an entry of that document. *)
Theorem adapter_severities (B : builtins) (f : file) :
  Forall (fun v => canonical (severity v)) (fst (parse_sarif B f))
  /\ Forall (fun v => canonical (severity v)) (fst (parse_npm_audit f))
  /\ (forall target vuln_data v,
        trivy_vuln B target vuln_data = Ok v ->
        exists label,
          py_get vuln_data "Severity" (JStr "UNKNOWN") = Ok (JStr label)
          /\ severity v = str_upper B label)
  /\ Forall (fun v => exists res vuln_data label,
                 trivy_finding_of B f v res vuln_data
                 /\ py_get vuln_data "Severity" (JStr "UNKNOWN")
                    = Ok (JStr label)
                 /\ severity v = str_upper B label)
            (fst (parse_trivy_json B f)).
Proof.
  assert (Hitem : forall target vuln_data v,
             trivy_vuln B target vuln_data = Ok v ->
             exists label,
               py_get vuln_data "Severity" (JStr "UNKNOWN") = Ok (JStr label)
               /\ severity v = str_upper B label).
  { intros target vuln_data v Hv.
    apply trivy_vuln_inv in Hv as (label & refs & Hl & Hs & _).
    by exists label. }
  split; [| split; [| split; [exact Hitem |]]].
  - apply parse_sarif_Forall. intros tool_name rules res v Hv.
    apply sarif_result_inv in Hv
      as (rule_id & rule & level & base & props & scored
          & _ & _ & _ & Hbase & _ & _ & Hsev & _).
    destruct scored.
    + destruct Hsev as (raw & score & _ & _ & ->). apply score_severity_canonical.
    + rewrite Hsev. apply table_get_values in Hbase.
      unfold canonical, SEVERITY_ORDER. simpl in *. intuition (subst; auto).
  - apply parse_npm_audit_Forall. intros vuln_id vuln_data v Hv.
    apply npm_advisory_inv in Hv as (native & url & _ & Hsev & _).
    apply table_get_values in Hsev.
    unfold canonical, SEVERITY_ORDER. simpl in *. intuition (subst; auto).
  - eapply Forall_impl; [apply parse_trivy_json_findings |]. cbv beta.
    intros v (res & vuln_data & Hof).
    pose proof Hof as (_ & target & _ & Hv).
    destruct (Hitem _ _ _ Hv) as (label & Hl & Hs).
    by exists res, vuln_data, label.
Qed.

(** C1, as stated, fails on the Trivy adapter: an entry without a
    [Severity] yields a finding labelled [UNKNOWN], whatever the open
    built-ins are. *)
Lemma trivy_label_passes_through :
  (forall B, exists v,
      In v (fst (parse_trivy_json B unlabelled_scan))
      /\ severity v = "UNKNOWN")
  /\ ~ canonical "UNKNOWN".
Proof.
  split.
  - intros B. eexists. split; [left; reflexivity | reflexivity].
  - unfold canonical, SEVERITY_ORDER. simpl. intuition discriminate.
Qed.

(** C8 (as amended). The SARIF adapter keeps exactly the tags of the
    rule that start with [http], in order, so every reference of a SARIF
    finding of a document is a string that starts with [http]; the npm
    adapter returns the one-element list holding the [url] of the
    advisory the finding was built from, as found, the empty string when
    it has none; the Trivy adapter returns the first three entries of the
    [References] of the entry the finding was built from, as found. *)
Theorem adapter_references (B : builtins) (f : file) :
  (forall tool_name rules res v,
      sarif_result B tool_name rules res = Ok v ->
      exists rule_id rule props tags,
        py_get res "ruleId" (JStr "") = Ok rule_id
        /\ pydict_get rules rule_id (JObj []) = Ok rule
        /\ py_get rule "properties" (JObj []) = Ok props
        /\ (let? t := py_get props "tags" (JArr []) in py_iter t) = Ok tags
        /\ references v = JArr (List.filter looks_like_url tags))
  /\ Forall (fun v => exists tool_name rules res refs,
                 sarif_finding_of B f v tool_name rules res
                 /\ references v = JArr refs
                 /\ Forall (fun x => exists s,
                               x = JStr s /\ startswith s "http" = true)
                           refs)
            (fst (parse_sarif B f))
  /\ (forall vuln_id vuln_data v,
        npm_advisory (vuln_id, vuln_data) = Ok v ->
        exists url,
          py_get vuln_data "url" (JStr "") = Ok url
          /\ references v = JArr [url])
  /\ Forall (fun v => exists vuln_id vuln_data url,
                 npm_finding_of f v vuln_id vuln_data
                 /\ py_get vuln_data "url" (JStr "") = Ok url
                 /\ references v = JArr [url])
            (fst (parse_npm_audit f))
  /\ (forall target vuln_data v,
        trivy_vuln B target vuln_data = Ok v ->
        exists refs,
          py_get vuln_data "References" (JArr []) = Ok refs
          /\ py_slice 3 refs = Ok (references v))
  /\ Forall (fun v => exists res vuln_data refs,
                 trivy_finding_of B f v res vuln_data
                 /\ py_get vuln_data "References" (JArr []) = Ok refs
                 /\ py_slice 3 refs = Ok (references v))
            (fst (parse_trivy_json B f)).
Proof.
  assert (Hitem : forall tool_name rules res v,
      sarif_result B tool_name rules res = Ok v ->
      exists rule_id rule props tags,
        py_get res "ruleId" (JStr "") = Ok rule_id
        /\ pydict_get rules rule_id (JObj []) = Ok rule
        /\ py_get rule "properties" (JObj []) = Ok props
        /\ (let? t := py_get props "tags" (JArr []) in py_iter t) = Ok tags
        /\ references v = JArr (List.filter looks_like_url tags)).
  { intros tool_name rules res v Hv.
    apply sarif_result_inv in Hv
      as (rule_id & rule & level & base & props & scored
          & H1 & H2 & _ & _ & H5 & _ & _ & tags & refs & Ht & Hr & Hv).
    exists rule_id, rule, props, tags. repeat split; try assumption.
    by rewrite Hv, (http_tags_filter _ _ Hr). }
  assert (Hnpm : forall vuln_id vuln_data v,
             npm_advisory (vuln_id, vuln_data) = Ok v ->
             exists url,
               py_get vuln_data "url" (JStr "") = Ok url
               /\ references v = JArr [url]).
  { intros vuln_id vuln_data v Hv.
    apply npm_advisory_inv in Hv as (native & url & _ & _ & Hu & Hr).
    by exists url. }
  assert (Htrivy : forall target vuln_data v,
             trivy_vuln B target vuln_data = Ok v ->
             exists refs,
               py_get vuln_data "References" (JArr []) = Ok refs
               /\ py_slice 3 refs = Ok (references v)).
  { intros target vuln_data v Hv.
    apply trivy_vuln_inv in Hv as (label & refs & _ & _ & Hr & Hs).
    by exists refs. }
  split; [exact Hitem |]. split; [| split; [exact Hnpm |]].
  2: split; [| split; [exact Htrivy |]].
  - eapply Forall_impl; [apply parse_sarif_findings |]. cbv beta.
    intros v (tool_name & rules & res & Hof).
    pose proof Hof as (run & _ & _ & _ & Hv).
    destruct (Hitem _ _ _ _ Hv) as (_ & _ & _ & tags & _ & _ & _ & _ & Hr).
    exists tool_name, rules, res, (List.filter looks_like_url tags).
    split; [exact Hof |]. split; [exact Hr |].
    apply List.Forall_forall. intros x Hx.
    apply List.filter_In in Hx as [_ Hx].
    destruct x; try discriminate Hx. by eexists.
  - eapply Forall_impl; [apply parse_npm_audit_findings |]. cbv beta.
    intros v (vuln_id & vuln_data & Hof).
    destruct (Hnpm _ _ _ (proj2 Hof)) as (url & Hu & Hr).
    by exists vuln_id, vuln_data, url.
  - eapply Forall_impl; [apply parse_trivy_json_findings |]. cbv beta.
    intros v (res & vuln_data & Hof).
    pose proof Hof as (_ & target & _ & Hv).
    destruct (Htrivy _ _ _ Hv) as (refs & Hr & Hs).
    by exists res, vuln_data, refs.
Qed.

(** C8, as stated, fails on the npm adapter: for an advisory without a
    [url] the list of references holds the empty string. *)
Lemma npm_reference_not_a_url :
  exists v,
    In v (fst (parse_npm_audit advisory_without_url))
    /\ references v = JArr [JStr ""]
    /\ looks_like_url (JStr "") = false.
Proof. eexists. split; [left; reflexivity |]. split; reflexivity. Qed.

(* ================================================================== *)
(** * Where an adapter stops *)
(* ================================================================== *)

Lemma replay_nil vs : replay [] vs = (Ok tt, vs).
Proof. unfold replay. simpl. by rewrite app_nil_r. Qed.

Lemma replay_app outs1 outs2 vs :
  replay (outs1 ++ outs2) vs =
  match replay outs1 vs with
  | (Ok _, vs') => replay outs2 vs'
  | (Raise e, vs') => (Raise e, vs')
  end.
Proof.
  revert vs. induction outs1 as [| [v | e] outs1 IH]; intros vs.
  - by rewrite replay_nil.
  - specialize (IH (vs ++ [v])). unfold replay in *. simpl in *.
    rewrite <- !app_assoc in IH. simpl in IH. rewrite IH.
    destruct (first_raise outs1); [done |]. by rewrite <- app_assoc.
  - reflexivity.
Qed.

Lemma item_replay (r : result Vulnerability) vs :
  (let* v := lift r in append v) vs = replay [r] vs.
Proof. destruct r; unfold replay; simpl; by rewrite ?app_nil_r. Qed.

Lemma lift_bind_replay {A} (r : result A) (k : A -> adapter unit) outs :
  (forall a vs, k a vs = replay (outs a) vs) ->
  forall vs, abind (lift r) k vs = replay (outcomes_of r outs) vs.
Proof.
  intros Hk vs. destruct r as [a | e]; simpl.
  - apply Hk.
  - unfold replay. simpl. by rewrite app_nil_r.
Qed.

Lemma for_each_replay {A} (xs : list A) (body : A -> adapter unit) outs :
  (forall x vs, body x vs = replay (outs x) vs) ->
  forall vs, for_each xs body vs = replay (flat_map outs xs) vs.
Proof.
  intros Hb. induction xs as [| x xs IH]; intros vs; simpl.
  - by rewrite replay_nil.
  - rewrite replay_app. unfold abind. rewrite Hb.
    destruct (replay (outs x) vs) as [[[] | e] vs']; [apply IH | done].
Qed.

Lemma for_each_items_replay {A} (xs : list A) (g : A -> result Vulnerability) vs :
  for_each xs (fun x => let* v := lift (g x) in append v) vs
  = replay (map g xs) vs.
Proof.
  rewrite (for_each_replay xs _ (fun x => [g x]))
    by (intros; apply item_replay).
  reflexivity.
Qed.

Lemma try_except_replay name f (body : adapter unit) outs :
  (forall vs, body vs = replay outs vs) ->
  try_except name f body = stop_at_first_raise name f outs.
Proof.
  intros Hb. unfold try_except, stop_at_first_raise. rewrite Hb.
  unfold replay. simpl. by destruct (first_raise outs).
Qed.

Section Stops.
Context (B : builtins).

Lemma sarif_run_replay run vs :
  sarif_run B run vs = replay (sarif_run_outcomes B run) vs.
Proof.
  unfold sarif_run, sarif_run_outcomes.
  apply lift_bind_replay. intros tool_name vs1.
  apply lift_bind_replay. intros rules vs2.
  apply lift_bind_replay. intros results vs3.
  apply for_each_items_replay.
Qed.

Lemma parse_sarif_stops f :
  parse_sarif B f = stop_at_first_raise "SARIF" f (sarif_outcomes B f).
Proof.
  apply try_except_replay. intros vs. unfold sarif_outcomes.
  apply lift_bind_replay. intros data vs1.
  apply lift_bind_replay. intros runs vs2.
  apply for_each_replay. apply sarif_run_replay.
Qed.

Lemma parse_npm_audit_stops f :
  parse_npm_audit f = stop_at_first_raise "npm audit" f (npm_outcomes f).
Proof.
  apply try_except_replay. intros vs. unfold npm_outcomes.
  apply lift_bind_replay. intros data vs1.
  apply lift_bind_replay. intros entries vs2.
  apply for_each_items_replay.
Qed.

Lemma trivy_result_replay res vs :
  trivy_result B res vs = replay (trivy_result_outcomes B res) vs.
Proof.
  unfold trivy_result, trivy_result_outcomes.
  apply lift_bind_replay. intros target vs1.
  apply lift_bind_replay. intros vulns vs2.
  apply for_each_items_replay.
Qed.

Lemma parse_trivy_json_stops f :
  parse_trivy_json B f = stop_at_first_raise "Trivy" f (trivy_outcomes B f).
Proof.
  apply try_except_replay. intros vs. unfold trivy_outcomes.
  apply lift_bind_replay. intros data vs1.
  apply lift_bind_replay. intros results vs2.
  apply for_each_replay. apply trivy_result_replay.
Qed.
End Stops.

(* ================================================================== *)
(** * The collector *)
(* ================================================================== *)

Lemma extends_by_refl st : extends_by st st [] [].
Proof. exists []. simpl. rewrite !app_nil_r. auto. Qed.

Lemma extends_by_trans st1 st2 st3 e1 e2 p1 p2 :
  extends_by st1 st2 e1 p1 -> extends_by st2 st3 e2 p2 ->
  extends_by st1 st3 (e1 ++ e2) (p1 ++ p2).
Proof.
  intros (n1 & A1 & B1 & C1 & D1) (n2 & A2 & B2 & C2 & D2).
  exists (n1 ++ n2). rewrite A2, A1, C2, C1, D2, D1, map_app, B1, B2.
  rewrite List.length_app, !app_assoc. repeat split; lia.
Qed.

Section CollectorLemmas.
Context (B : builtins) (E : environment).

Lemma collect_file_extends parse scanner_of st f :
  extends_by st (collect_file E parse scanner_of st f)
             (contribution parse scanner_of f) (snd (parse f)).
Proof.
  destruct st as [rs w]. unfold collect_file, contribution.
  destruct (parse f) as [[| v vs] printed]; simpl.
  - exists []. simpl. rewrite app_nil_r. auto.
  - eexists [_]. simpl. repeat split; lia.
Qed.

Lemma foldl_extends step entry printed :
  (forall st f, extends_by st (step st f) (entry f) (printed f)) ->
  forall (fs : list file) st,
    extends_by st (foldl step st fs) (flat_map entry fs) (flat_map printed fs).
Proof.
  intros Hstep fs. induction fs as [| f fs IH]; intros st; simpl.
  - apply extends_by_refl.
  - eapply extends_by_trans; [apply Hstep | apply IH].
Qed.

Lemma collect_results_extends self w :
  dir_exists (input_dir self) = true ->
  let d := input_dir self in
  let '(self', w') := collect_results B E self w in
  input_dir self' = d
  /\ extends_by (self_scan_results self, w) (self_scan_results self', w')
       (flat_map (contribution (parse_sarif B) stem) (sarif_files d)
        ++ flat_map (contribution parse_npm_audit (fun _ => "npm-audit"))
                    (npm_files d)
        ++ flat_map (trivy_contribution B) (trivy_files d))
       (flat_map (fun f => snd (parse_sarif B f)) (sarif_files d)
        ++ flat_map (fun f => snd (parse_npm_audit f)) (npm_files d)
        ++ flat_map (trivy_printed B) (trivy_files d)).
Proof.
  intros Hd. unfold collect_results. rewrite Hd. cbn [negb]. cbv zeta.
  split; [reflexivity |]. cbn [self_scan_results].
  rewrite <- surjective_pairing.
  eapply extends_by_trans;
    [apply foldl_extends; intros; apply collect_file_extends |].
  eapply extends_by_trans;
    [apply foldl_extends; intros; apply collect_file_extends |].
  apply (foldl_extends _ (trivy_contribution B) (trivy_printed B)).
  intros st f. unfold trivy_contribution, trivy_printed.
  destruct (String.eqb (suffix f) ".json").
  - apply collect_file_extends.
  - apply extends_by_refl.
Qed.
End CollectorLemmas.

(* ================================================================== *)
(** * Summaries *)
(* ================================================================== *)

Lemma sum_values_bump (m : gmap string nat) k :
  sum_values (<[k := default 0 (m !! k) + 1]> m) = sum_values m + 1.
Proof.
  unfold sum_values.
  destruct (m !! k) as [n |] eqn:Ek; simpl.
  - rewrite <- (insert_delete_eq m k (n + 1)).
    rewrite map_fold_insert_L; [| intros; lia | apply lookup_delete_eq].
    rewrite (map_fold_delete_L _ _ k n m); [lia | intros; lia | done].
  - rewrite map_fold_insert_L; [lia | intros; lia | done].
Qed.

Lemma foldl_bump_lookup vulns (m : gmap string nat) s :
  default 0 (foldl (fun summary v =>
                      <[severity v := default 0 (summary !! severity v) + 1]>
                        summary) m vulns !! s)
  = default 0 (m !! s) + length (with_severity s vulns).
Proof.
  revert m. induction vulns as [| v vulns IH]; intros m; simpl; [lia |].
  rewrite IH. unfold with_severity. rewrite filter_cons.
  destruct (decide (severity v = s)) as [-> | Hne].
  - rewrite lookup_insert_eq. simpl. lia.
  - by rewrite lookup_insert_ne.
Qed.

Lemma foldl_bump_sum vulns (m : gmap string nat) :
  sum_values (foldl (fun summary v =>
                       <[severity v := default 0 (summary !! severity v) + 1]>
                         summary) m vulns)
  = sum_values m + length vulns.
Proof.
  revert m. induction vulns as [| v vulns IH]; intros m; simpl; [lia |].
  rewrite IH, sum_values_bump. lia.
Qed.

Lemma count_severities_lookup vulns s :
  default 0 (count_severities vulns !! s) = length (with_severity s vulns).
Proof. unfold count_severities. by rewrite foldl_bump_lookup, lookup_empty. Qed.

Lemma count_severities_sum vulns :
  sum_values (count_severities vulns) = length vulns.
Proof.
  unfold count_severities. rewrite foldl_bump_sum.
  unfold sum_values. by rewrite map_fold_empty.
Qed.

Lemma contribution_recorded parse scanner_of f (new : list ScanResult) :
  map untimed new = contribution parse scanner_of f -> Forall recorded new.
Proof.
  unfold contribution. destruct (fst (parse f)) as [| v vs].
  - destruct new; [constructor | discriminate].
  - destruct new as [| r [| r' new]]; try discriminate.
    intros [= _ Hv Hs]. constructor; [| constructor].
    split; [by rewrite Hv | by rewrite Hs, Hv].
Qed.

Lemma flat_map_recorded {A} (entry : A -> _) (xs : list A) :
  (forall x (new : list ScanResult), map untimed new = entry x -> Forall recorded new) ->
  forall new : list ScanResult,
    map untimed new = flat_map entry xs -> Forall recorded new.
Proof.
  intros He. induction xs as [| x xs IH]; intros new; simpl.
  - destruct new; [constructor | discriminate].
  - intros H. apply map_eq_app in H as (n1 & n2 & -> & H1 & H2).
    apply Forall_app. split; [by eapply He | by apply IH].
Qed.

Lemma app_recorded (e1 e2 : list (string * list Vulnerability * gmap string nat)) :
  (forall new : list ScanResult, map untimed new = e1 -> Forall recorded new) ->
  (forall new : list ScanResult, map untimed new = e2 -> Forall recorded new) ->
  forall new : list ScanResult, map untimed new = e1 ++ e2 -> Forall recorded new.
Proof.
  intros H1 H2 new H. apply map_eq_app in H as (n1 & n2 & -> & E1 & E2).
  apply Forall_app. auto.
Qed.

Lemma collect_results_recorded B E self w :
  exists new,
    self_scan_results (fst (collect_results B E self w))
    = self_scan_results self ++ new
    /\ Forall recorded new.
Proof.
  destruct (dir_exists (input_dir self)) eqn:Hd.
  - pose proof (collect_results_extends B E self w Hd) as H. cbv zeta in H.
    destruct (collect_results B E self w) as [self' w'].
    destruct H as (_ & new & Hnew & Hent & _). simpl in Hnew.
    exists new. split; [exact Hnew |]. clear Hnew. revert new Hent.
    repeat apply app_recorded; apply flat_map_recorded; intros f new.
    + apply contribution_recorded.
    + apply contribution_recorded.
    + unfold trivy_contribution. destruct (String.eqb (suffix f) ".json").
      * apply contribution_recorded.
      * destruct new; [constructor | discriminate].
  - exists []. unfold collect_results. rewrite Hd. simpl.
    by rewrite app_nil_r.
Qed.

(* ================================================================== *)
(** * Error handling (C2), summaries (C4), empty documents (C7) *)
(* ================================================================== *)

(** C2 (as amended). An adapter never lets an exception out: it walks
    the items of the document in order, stops at the first exception,
    prints it, and returns the findings built before it.  For a document
    that cannot be opened or decoded that list is empty.  The collector
    handles every discovered document, whatever happened on the others:
    the scan results it appends and the lines it prints are, document by
    document, what each adapter call returns and prints. *)
Theorem adapters_contain_errors (B : builtins) (E : environment) :
  (forall f, parse_sarif B f
             = stop_at_first_raise "SARIF" f (sarif_outcomes B f))
  /\ (forall f, parse_npm_audit f
                = stop_at_first_raise "npm audit" f (npm_outcomes f))
  /\ (forall f, parse_trivy_json B f
                = stop_at_first_raise "Trivy" f (trivy_outcomes B f))
  /\ (forall f e,
         contents f = Raise e ->
         parse_sarif B f = ([], [ParseError "SARIF" f e])
         /\ parse_npm_audit f = ([], [ParseError "npm audit" f e])
         /\ parse_trivy_json B f = ([], [ParseError "Trivy" f e]))
  /\ (forall self w,
         dir_exists (input_dir self) = true ->
         let d := input_dir self in
         extends_by
           (self_scan_results self, w)
           (self_scan_results (fst (collect_results B E self w)),
            snd (collect_results B E self w))
           (flat_map (contribution (parse_sarif B) stem) (sarif_files d)
            ++ flat_map (contribution parse_npm_audit (fun _ => "npm-audit"))
                        (npm_files d)
            ++ flat_map (trivy_contribution B) (trivy_files d))
           (flat_map (fun f => snd (parse_sarif B f)) (sarif_files d)
            ++ flat_map (fun f => snd (parse_npm_audit f)) (npm_files d)
            ++ flat_map (trivy_printed B) (trivy_files d))).
Proof.
  split; [apply parse_sarif_stops |].
  split; [apply parse_npm_audit_stops |].
  split; [apply parse_trivy_json_stops |].
  split.
  - intros f e He.
    rewrite parse_sarif_stops, parse_npm_audit_stops, parse_trivy_json_stops.
    unfold sarif_outcomes, npm_outcomes, trivy_outcomes. rewrite He.
    repeat split; reflexivity.
  - intros self w Hd d.
    pose proof (collect_results_extends B E self w Hd) as H. cbv zeta in H.
    destruct (collect_results B E self w) as [self' w'].
    exact (proj2 H).
Qed.

(** A run over one undecodable file: nothing is recorded, one line is
    printed. *)
Lemma garbled_file_contributes_nothing :
  contents garbled = Raise JSONDecodeError
  /\ parse_sarif sample_builtins garbled
     = ([], [ParseError "SARIF" garbled JSONDecodeError]).
Proof.
  split; [reflexivity |].
  destruct (adapters_contain_errors sample_builtins sample_environment)
    as (_ & _ & _ & H & _).
  exact (proj1 (H garbled JSONDecodeError eq_refl)).
Defined.

(** C2, as stated, fails: [float(None)] raises on the second result of
    the document, the adapter prints the error, and yet it returns the
    finding of the first result, which the collector records. *)
Lemma findings_survive_a_later_error :
  (forall B, exists v,
      parse_sarif B half_broken_sarif
      = ([v], [ParseError "SARIF" half_broken_sarif TypeError]))
  /\ (forall B E, exists r,
         self_scan_results
           (fst (collect_results B E
                   (new_generator {| dir_exists := true;
                                     sarif_files := [half_broken_sarif];
                                     npm_files := [];
                                     trivy_files := [] |})
                   {| stderr := []; clock_reads := 0 |})) = [r]
         /\ length (vulnerabilities r) = 1).
Proof.
  split.
  - intros B. eexists. reflexivity.
  - intros B E. eexists. split; reflexivity.
Qed.

(** C4. Every scan result appended by [collect_results] has a summary
    that gives, for each severity, the number of its findings with that
    severity, so the counts add up to the number of findings. *)
Theorem summary_counts_findings (B : builtins) (E : environment)
    (self : ReportGenerator) (w : io) :
  exists new,
    self_scan_results (fst (collect_results B E self w))
    = self_scan_results self ++ new
    /\ Forall (fun r =>
                 (forall s, default 0 (summary r !! s)
                            = length (with_severity s (vulnerabilities r)))
                 /\ sum_values (summary r) = length (vulnerabilities r))
              new.
Proof.
  destruct (collect_results_recorded B E self w) as (new & Hnew & Hrec).
  exists new. split; [exact Hnew |].
  eapply Forall_impl; [exact Hrec |].
  intros r [_ Hs]. split.
  - intros s. rewrite Hs. apply count_severities_lookup.
  - rewrite Hs. apply count_severities_sum.
Qed.

(** C7. A document whose adapter returns no finding adds no scan result;
    every scan result appended by [collect_results] holds at least one
    finding, and so does every scan result of the report [main] builds. *)
Theorem empty_documents_not_recorded (B : builtins) (E : environment) :
  (forall parse scanner_of st f,
      fst (parse f) = [] ->
      fst (collect_file E parse scanner_of st f) = fst st)
  /\ (forall self w, exists new,
         self_scan_results (fst (collect_results B E self w))
         = self_scan_results self ++ new
         /\ Forall (fun r => vulnerabilities r <> []) new)
  /\ (forall d,
         match fst (main_report B E d) with
         | Some report =>
             Forall (fun r => vulnerabilities r <> []) (scan_results report)
         | None => True
         end).
Proof.
  assert (Hnew : forall self w, exists new,
         self_scan_results (fst (collect_results B E self w))
         = self_scan_results self ++ new
         /\ Forall (fun r => vulnerabilities r <> []) new).
  { intros self w.
    destruct (collect_results_recorded B E self w) as (new & Hnew & Hrec).
    exists new. split; [exact Hnew |].
    eapply Forall_impl; [exact Hrec |]. by intros r [? _]. }
  split; [| split; [exact Hnew |]].
  - intros parse scanner_of [rs w] f Hf. unfold collect_file.
    destruct (parse f) as [vulns printed]. simpl in Hf. by subst.
  - intros d. unfold main_report.
    destruct (Hnew (new_generator d) {| stderr := []; clock_reads := 0 |})
      as (new & Hn & Hne).
    destruct (collect_results B E (new_generator d) _) as [generator w].
    destruct generator as [d' rs]. simpl in Hn. subst rs.
    destruct new as [| r new]; simpl; [exact I | exact Hne].
Qed.

(* ================================================================== *)
(** * Totals (C3) *)
(* ================================================================== *)

Lemma add_summary_lookup total res s :
  default 0 (add_summary total res !! s)
  = default 0 (total !! s) + default 0 (summary res !! s).
Proof.
  unfold add_summary.
  apply (map_fold_weak_ind
           (fun (r : gmap string nat) (m : gmap string nat) =>
              default 0 (r !! s) = default 0 (total !! s) + default 0 (m !! s))).
  - rewrite lookup_empty. simpl. lia.
  - intros i x m r Hi IH. destruct (decide (i = s)) as [-> | Hne].
    + rewrite !lookup_insert_eq. simpl. rewrite IH, Hi. simpl. lia.
    + by rewrite !lookup_insert_ne.
Qed.

Lemma add_summary_keys total res s :
  is_Some (add_summary total res !! s)
  <-> is_Some (total !! s) \/ is_Some (summary res !! s).
Proof.
  unfold add_summary.
  apply (map_fold_weak_ind
           (fun (r : gmap string nat) (m : gmap string nat) =>
              is_Some (r !! s) <-> is_Some (total !! s) \/ is_Some (m !! s))).
  - rewrite lookup_empty. split; [auto | intros [? | []%is_Some_None]; auto].
  - intros i x m r Hi IH. destruct (decide (i = s)) as [-> | Hne].
    + rewrite !lookup_insert_eq. split; eauto.
    + by rewrite !lookup_insert_ne.
Qed.

Lemma foldl_add_summary_lookup rs total s :
  default 0 (foldl add_summary total rs !! s)
  = default 0 (total !! s) + sum_list (map (fun r => default 0 (summary r !! s)) rs).
Proof.
  revert total. induction rs as [| r rs IH]; intros total; simpl; [lia |].
  rewrite IH, add_summary_lookup. lia.
Qed.

Lemma foldl_add_summary_keys rs total s :
  is_Some (foldl add_summary total rs !! s)
  <-> is_Some (total !! s) \/ Exists (fun r => is_Some (summary r !! s)) rs.
Proof.
  revert total. induction rs as [| r rs IH]; intros total; simpl.
  - rewrite Exists_nil. tauto.
  - rewrite IH, add_summary_keys, Exists_cons. tauto.
Qed.

Lemma sum_summaries_sum_list key rs :
  sum_summaries key rs = sum_list (map (fun r => default 0 (summary r !! key)) rs).
Proof. induction rs; simpl; congruence. Qed.

(** C3. In the report [generate_report] builds, the total of a severity
    is the sum, over the scan results of the report, of what their
    summaries hold for it (0 when a summary has no such key); and the
    totals have a key exactly when some summary has it. *)
Theorem totals_sum_summaries (E : environment) (self : ReportGenerator)
    (w : io) (s : string) :
  let report := fst (generate_report E self w) in
  default 0 (total_vulnerabilities report !! s)
  = sum_list (map (fun r => default 0 (summary r !! s)) (scan_results report))
  /\ (is_Some (total_vulnerabilities report !! s)
      <-> Exists (fun r => is_Some (summary r !! s)) (scan_results report)).
Proof.
  simpl. split.
  - by rewrite foldl_add_summary_lookup, lookup_empty.
  - rewrite foldl_add_summary_keys, lookup_empty.
    split; [intros [[]%is_Some_None | ?]; auto | auto].
Qed.

(* ================================================================== *)
(** * SARIF severity (C5) *)
(* ================================================================== *)

Lemma level_table level base :
  table_get [("error", "HIGH"); ("warning", "MEDIUM"); ("note", "LOW")]
            level "MEDIUM" = Ok base ->
  (level = JStr "error" -> base = "HIGH")
  /\ (level = JStr "warning" -> base = "MEDIUM")
  /\ (level = JStr "note" -> base = "LOW")
  /\ (level <> JStr "error" -> level <> JStr "warning" ->
      level <> JStr "note" -> base = "MEDIUM").
Proof.
  intros H. repeat split.
  - intros ->. by injection H.
  - intros ->. by injection H.
  - intros ->. by injection H.
  - intros H1 H2 H3. destruct level; try (by injection H); try discriminate.
    simpl in H.
    destruct (String.eqb_spec s "error") as [-> | _]; [done |].
    destruct (String.eqb_spec s "warning") as [-> | _]; [done |].
    destruct (String.eqb_spec s "note") as [-> | _]; [done |].
    by injection H.
Qed.

(** C5. For a SARIF result that yields a finding: without a
    [security-severity] on the matching rule, the severity is the one of
    the level, [error] to HIGH, [warning] to MEDIUM, [note] to LOW and
    anything else to MEDIUM; with one, it is the one of the score,
    CRITICAL from 9.0, HIGH from 7.0, MEDIUM from 4.0 and LOW below,
    whatever the level. *)
Theorem sarif_severity_layers (B : builtins) (tool_name : json)
    (rules : pydict) (res : json) (v : Vulnerability)
    (rule_id rule level props : json) (scored : bool) :
  sarif_result B tool_name rules res = Ok v ->
  py_get res "ruleId" (JStr "") = Ok rule_id ->
  pydict_get rules rule_id (JObj []) = Ok rule ->
  py_get res "level" (JStr "warning") = Ok level ->
  py_get rule "properties" (JObj []) = Ok props ->
  py_contains "security-severity" props = Ok scored ->
  (scored = false ->
   (level = JStr "error" -> severity v = "HIGH")
   /\ (level = JStr "warning" -> severity v = "MEDIUM")
   /\ (level = JStr "note" -> severity v = "LOW")
   /\ (level <> JStr "error" -> level <> JStr "warning" ->
       level <> JStr "note" -> severity v = "MEDIUM"))
  /\ (scored = true ->
      exists raw score,
        py_getitem props "security-severity" = Ok raw
        /\ py_float B raw = Ok score
        /\ severity v = if (9 <=? score)%float then "CRITICAL"
                        else if (7 <=? score)%float then "HIGH"
                        else if (4 <=? score)%float then "MEDIUM"
                        else "LOW").
Proof.
  intros Hv H1 H2 H3 H4 H5.
  apply sarif_result_inv in Hv
    as (rule_id' & rule' & level' & base & props' & scored'
        & E1 & E2 & E3 & Hbase & E5 & E6 & Hsev & _).
  rewrite H1 in E1. injection E1 as <-.
  rewrite H2 in E2. injection E2 as <-.
  rewrite H3 in E3. injection E3 as <-.
  rewrite H4 in E5. injection E5 as <-.
  rewrite H5 in E6. injection E6 as <-.
  split; intros ->.
  - rewrite Hsev. by apply level_table.
  - exact Hsev.
Qed.

(** Scenario A: level [error], score 9.5, severity CRITICAL. *)
Lemma scenario_a_is_critical :
  exists v,
    parse_sarif sample_builtins scenario_a = ([v], [])
    /\ sarif_result sample_builtins (JStr "Semgrep")
         [(JStr "sql-injection", scenario_a_rule)] scenario_a_result = Ok v
    /\ severity v = "CRITICAL".
Proof.
  eexists. split; [reflexivity |]. split; [reflexivity |].
  destruct (sarif_severity_layers sample_builtins (JStr "Semgrep")
              [(JStr "sql-injection", scenario_a_rule)] scenario_a_result _
              (JStr "sql-injection") scenario_a_rule (JStr "error")
              (JObj [("security-severity", JFloat 9.5%float)]) true
              eq_refl eq_refl eq_refl eq_refl eq_refl eq_refl)
    as [_ H].
  destruct (H eq_refl) as (raw & score & Hraw & Hscore & Hsev).
  injection Hraw as <-. injection Hscore as <-. exact Hsev.
Defined.

(* ================================================================== *)
(** * Recommendations (C6) *)
(* ================================================================== *)

Lemma reassurance_not_critical n : reassurance_message <> critical_message n.
Proof. discriminate. Qed.

Lemma reassurance_not_high n : reassurance_message <> high_message n.
Proof. discriminate. Qed.

Lemma reassurance_not_sast : reassurance_message <> sast_message.
Proof. discriminate. Qed.

Lemma existsb_map_Exists {A C} (f : A -> C) (p : C -> bool) (xs : list A) :
  existsb p (map f xs) = true <-> Exists (fun x => p (f x) = true) xs.
Proof.
  induction xs as [| x xs IH]; simpl.
  - rewrite Exists_nil. split; [discriminate | tauto].
  - rewrite Exists_cons, orb_true_iff, IH. tauto.
Qed.

(** C6. The recommendations hold the reassurance message exactly when
    no CRITICAL and no HIGH finding was counted and some scanner name
    contains [semgrep], case apart; they are then that message alone, so
    it never stands beside the message of another rule. *)
Theorem reassurance_iff_no_rule_fired (self : ReportGenerator) :
  let rs := self_scan_results self in
  let recs := _generate_recommendations self in
  let total_critical :=
    sum_list (map (fun r => default 0 (summary r !! "CRITICAL")) rs) in
  let total_high :=
    sum_list (map (fun r => default 0 (summary r !! "HIGH")) rs) in
  (In reassurance_message recs
   <-> total_critical = 0 /\ total_high = 0
       /\ Exists (fun r => str_contains "semgrep" (lower (scanner r)) = true) rs)
  /\ (In reassurance_message recs -> recs = [reassurance_message])
  /\ (In reassurance_message recs ->
      (forall n, ~ In (critical_message n) recs)
      /\ (forall n, ~ In (high_message n) recs)
      /\ ~ In sast_message recs).
Proof.
  intros rs recs total_critical total_high.
  assert (Hmain :
    In reassurance_message recs
    <-> total_critical = 0 /\ total_high = 0
        /\ Exists (fun r => str_contains "semgrep" (lower (scanner r)) = true) rs).
  { subst recs total_critical total_high. unfold _generate_recommendations.
    rewrite <- !sum_summaries_sum_list.
    rewrite <- (existsb_map_Exists scanner
                  (fun s => str_contains "semgrep" (lower s))).
    fold rs.
    destruct (Nat.ltb_spec 0 (sum_summaries "CRITICAL" rs)) as [Hc | Hc];
      destruct (Nat.ltb_spec 0 (sum_summaries "HIGH" rs)) as [Hh | Hh];
      destruct (existsb _ (map scanner rs)); simpl;
      (split;
       [ intros H; repeat (destruct H as [H | H]; [discriminate H |]);
         first [ by destruct H
               | repeat split; first [lia | reflexivity] ]
       | intros (? & ? & ?); first [lia | discriminate | by left] ]). }
  assert (Hone : In reassurance_message recs -> recs = [reassurance_message]).
  { intros Hin. apply Hmain in Hin as (Hc & Hh & Hs).
    subst recs total_critical total_high. unfold _generate_recommendations.
    rewrite <- !sum_summaries_sum_list in *. fold rs.
    apply (existsb_map_Exists scanner
             (fun s => str_contains "semgrep" (lower s))) in Hs.
    rewrite Hs, Hc, Hh. reflexivity. }
  split; [exact Hmain |]. split; [exact Hone |].
  intros Hin. rewrite (Hone Hin). simpl.
  split; [| split].
  - intros n [H | []]. by apply (reassurance_not_critical n).
  - intros n [H | []]. by apply (reassurance_not_high n).
  - intros [H | []]. by apply reassurance_not_sast.
Qed.

(* ================================================================== *)
(** * The Markdown renderer (C9, C10) *)
(* ================================================================== *)

Lemma foldl_group_lookup vulns (m : gmap string (list Vulnerability)) sev :
  default [] (foldl (fun by_severity vuln =>
                       <[severity vuln :=
                           default [] (by_severity !! severity vuln) ++ [vuln]]>
                         by_severity) m vulns !! sev)
  = default [] (m !! sev) ++ with_severity sev vulns.
Proof.
  revert m. induction vulns as [| v vulns IH]; intros m; simpl.
  - by rewrite app_nil_r.
  - rewrite IH. unfold with_severity. rewrite filter_cons.
    destruct (decide (severity v = sev)) as [-> | Hne].
    + rewrite lookup_insert_eq. simpl. by rewrite <- app_assoc.
    + by rewrite lookup_insert_ne.
Qed.

Lemma group_by_severity_lookup vulns sev :
  default [] (group_by_severity vulns !! sev) = with_severity sev vulns.
Proof. unfold group_by_severity. by rewrite foldl_group_lookup, lookup_empty. Qed.

Lemma foldl_snoc {A C} (f : A -> C) (xs : list A) (acc : list C) :
  foldl (fun acc x => acc ++ [f x]) acc xs = acc ++ map f xs.
Proof.
  revert acc. induction xs as [| x xs IH]; intros acc; simpl.
  - by rewrite app_nil_r.
  - by rewrite IH, <- app_assoc.
Qed.

Lemma for_lines_ext {A} (xs : list A) body1 body2 lines :
  (forall x ls, In x xs -> body1 ls x = body2 ls x) ->
  for_lines xs body1 lines = for_lines xs body2 lines.
Proof.
  revert lines. induction xs as [| x xs IH]; intros lines Hb; simpl; [done |].
  rewrite Hb by (by left). destruct (body2 lines x); simpl; [| done].
  apply IH. intros y ls Hy. apply Hb. by right.
Qed.

Lemma for_lines_appender {A} (xs : list A) body :
  appender body ->
  forall lines,
    for_lines xs body lines
    = let? new := for_lines xs body [] in Ok (lines ++ new).
Proof.
  intros Hb. induction xs as [| x xs IH]; intros lines; simpl.
  - by rewrite app_nil_r.
  - rewrite (Hb lines x), (Hb [] x). destruct (body [] x) as [new |]; simpl; [| done].
    rewrite (IH (lines ++ new)), (IH new).
    destruct (for_lines xs body []) as [rest |]; simpl; [| done].
    by rewrite app_assoc.
Qed.

Lemma for_lines_items {A} (xs : list A) body lines lines' :
  appender body ->
  for_lines xs body lines = Ok lines' ->
  exists items,
    Forall2 (fun x ls => body [] x = Ok ls) xs items
    /\ lines' = lines ++ concat items.
Proof.
  intros Hb. revert lines lines'.
  induction xs as [| x xs IH]; intros lines lines'; simpl.
  - intros [= <-]. exists []. split; [constructor | by rewrite app_nil_r].
  - rewrite (Hb lines x). destruct (body [] x) as [new |] eqn:Ex; simpl; [| done].
    intros H. apply IH in H as (items & Hitems & ->).
    exists (new :: items). split; [by constructor |].
    simpl. by rewrite app_assoc.
Qed.

Lemma for_lines_total {A} (xs : list A) body lines :
  appender body ->
  Forall (fun x => exists ls, body [] x = Ok ls) xs ->
  exists lines', for_lines xs body lines = Ok lines'.
Proof.
  intros Hb Hxs. revert lines.
  induction Hxs as [| x xs [ls Hx] _ IH]; intros lines; simpl; [eauto |].
  rewrite (Hb lines x), Hx. simpl. apply IH.
Qed.

Section Renderer.
Context (B : builtins).

Lemma markdown_vuln_appender : appender (markdown_vuln B).
Proof.
  intros lines v. unfold markdown_vuln.
  destruct (truthy (file_path v)), (truthy (remediation v)); simpl;
    try (destruct (py_slice 100 (remediation v)); simpl; [| done]);
    by rewrite <- ?app_assoc.
Qed.

Lemma markdown_group_appender by_severity :
  appender (markdown_group B by_severity).
Proof.
  intros lines sev. unfold markdown_group.
  destruct (default [] (by_severity !! sev)) as [| v vs];
    cbv beta iota zeta.
  - simpl. by rewrite app_nil_r.
  - set (found := take 10 (v :: vs)).
    rewrite (for_lines_appender found _ markdown_vuln_appender).
    rewrite (for_lines_appender found _ markdown_vuln_appender (([] ++ _) ++ _)).
    destruct (for_lines found (markdown_vuln B) []) as [new |]; simpl; [| done].
    destruct (10 <? S (length vs))%nat; simpl;
      by rewrite <- ?app_assoc.
Qed.

Lemma markdown_scan_appender : appender (markdown_scan B).
Proof.
  intros lines r. unfold markdown_scan.
  destruct (vulnerabilities r) as [| v vs]; cbv beta iota zeta.
  - simpl. by rewrite <- !app_assoc.
  - set (by_severity := group_by_severity (v :: vs)).
    rewrite (for_lines_appender _ _ (markdown_group_appender by_severity)).
    rewrite (for_lines_appender _ _ (markdown_group_appender by_severity)
               (([] ++ _) ++ _)).
    destruct (for_lines SEVERITY_ORDER _ []) as [new |]; simpl; [| done].
    by rewrite <- !app_assoc.
Qed.
End Renderer.

Section RendererTotal.
Context (B : builtins).

Lemma markdown_vuln_shape v ls :
  markdown_vuln B [] v = Ok ls ->
  exists detail,
    ls = ["- **" +:+ py_str B (title v) +:+ "** ("
          +:+ py_str B (id v) +:+ ")"] ++ detail ++ [""]
    /\ length detail <= 2.
Proof.
  unfold markdown_vuln.
  destruct (truthy (file_path v)), (truthy (remediation v)); simpl;
    try (destruct (py_slice 100 (remediation v)); simpl; [| done]);
    intros [= <-];
    first [ exists []; split; [reflexivity | simpl; lia]
          | eexists [_]; split; [reflexivity | simpl; lia]
          | eexists [_; _]; split; [reflexivity | simpl; lia] ].
Qed.

Lemma markdown_vuln_total v :
  cuttable (remediation v) -> exists ls, markdown_vuln B [] v = Ok ls.
Proof.
  intros Hc. unfold markdown_vuln.
  destruct (remediation v); simpl in Hc |- *; rewrite ?Hc;
    destruct (truthy (file_path v)); simpl; repeat case_match; eauto.
Qed.

Lemma markdown_group_total by_severity sev :
  Forall (fun v => cuttable (remediation v)) (default [] (by_severity !! sev)) ->
  exists g, markdown_group B by_severity [] sev = Ok g.
Proof.
  intros Hc. unfold markdown_group.
  destruct (default [] (by_severity !! sev)) as [| v vs] eqn:Ev;
    cbv beta iota zeta; [eauto |].
  destruct (for_lines_total (take 10 (v :: vs)) (markdown_vuln B)
              (([] ++ ["#### " +:+ sev +:+ " ("
                       +:+ pretty (length (v :: vs)) +:+ ")"]) ++ [""])
              (markdown_vuln_appender B)) as [ls Hls].
  - apply Forall_take. eapply Forall_impl; [exact Hc |].
    intros x Hx. by apply markdown_vuln_total.
  - rewrite Hls. simpl. destruct (_ <? _)%nat; eauto.
Qed.

Lemma markdown_scan_total r :
  Forall (fun v => cuttable (remediation v)) (vulnerabilities r) ->
  exists sec, markdown_scan B [] r = Ok sec.
Proof.
  intros Hc. unfold markdown_scan.
  destruct (vulnerabilities r) as [| v vs] eqn:Ev; cbv beta iota zeta; [eauto |].
  apply for_lines_total; [apply markdown_group_appender |].
  apply Forall_forall. intros sev _. apply markdown_group_total.
  rewrite group_by_severity_lookup. unfold with_severity.
  apply Forall_forall. intros x Hx. apply list_elem_of_filter in Hx as [_ Hx].
  rewrite Forall_forall in Hc. by apply Hc.
Qed.
End RendererTotal.

(** C9. The Markdown output has the header, then one table row for each
    of CRITICAL, HIGH, MEDIUM, LOW and INFO in that order with the total
    of that severity (0 when none occurred), then the recommendations
    and one section per scan result.  In a section the findings of a
    canonical severity form one group, which lists the first 10 of them
    and ends with the line [...and N more], N the number left out,
    exactly when there are more than 10.  The output is produced
    whenever every remediation is empty or can be cut to 100
    characters. *)
Theorem markdown_table_and_groups (B : builtins) (report : SecurityReport) :
  (forall text,
      output_markdown B report = Ok text ->
      exists sections,
        Forall2 (fun r sec => markdown_scan B [] r = Ok sec)
                (scan_results report) sections
        /\ text =
           join (String "010"%char EmptyString)
             (["# Security Scan Report"; "";
               "**Generated:** " +:+ generated_at report;
               "**Repository:** " +:+ repository report;
               "**Branch:** " +:+ branch report;
               "**Commit:** " +:+ commit report;
               ""; "## Summary"; "";
               "| Severity | Count |";
               "|----------|-------|"]
              ++ map (fun sev =>
                        "| " +:+ sev +:+ " | "
                        +:+ pretty (default 0 (total_vulnerabilities report !! sev))
                        +:+ " |")
                     ["CRITICAL"; "HIGH"; "MEDIUM"; "LOW"; "INFO"]
              ++ [""; "## Recommendations"; ""]
              ++ map (fun rec => "- " +:+ rec) (recommendations report)
              ++ [""; "## Detailed Findings"; ""]
              ++ concat sections))
  /\ (forall r sec,
         markdown_scan B [] r = Ok sec ->
         (vulnerabilities r = [] ->
          sec = ["### " +:+ scanner r; ""; "No vulnerabilities found."; ""])
         /\ (vulnerabilities r <> [] ->
             exists groups,
               Forall2 (fun sev g =>
                          markdown_group B (group_by_severity (vulnerabilities r))
                                         [] sev = Ok g)
                       ["CRITICAL"; "HIGH"; "MEDIUM"; "LOW"; "INFO"] groups
               /\ sec = ["### " +:+ scanner r; ""] ++ concat groups))
  /\ (forall vulns sev g,
         markdown_group B (group_by_severity vulns) [] sev = Ok g ->
         let found := with_severity sev vulns in
         exists items,
           Forall2 (fun v ls => markdown_vuln B [] v = Ok ls)
                   (take 10 found) items
           /\ g = match found with
                  | [] => []
                  | _ :: _ =>
                      ["#### " +:+ sev +:+ " (" +:+ pretty (length found) +:+ ")";
                       ""]
                      ++ concat items
                      ++ (if (10 <? length found)%nat
                          then ["  *...and " +:+ pretty (length found - 10)
                                +:+ " more*"; ""]
                          else [])
                  end)
  /\ (forall v ls,
         markdown_vuln B [] v = Ok ls ->
         exists detail,
           ls = ["- **" +:+ py_str B (title v) +:+ "** ("
                 +:+ py_str B (id v) +:+ ")"] ++ detail ++ [""]
           /\ length detail <= 2)
  /\ (Forall (fun r => Forall (fun v => cuttable (remediation v))
                              (vulnerabilities r))
             (scan_results report) ->
      exists text, output_markdown B report = Ok text).
Proof.
  split; [| split; [| split; [| split]]].
  - intros text H. unfold output_markdown in H.
    bind_inv H as lines E. injection H as <-.
    unfold markdown_lines in E. cbv zeta in E.
    rewrite foldl_snoc in E.
    apply for_lines_items in E as (sections & Hs & ->);
      [| apply markdown_scan_appender].
    exists sections. split; [exact Hs |].
    f_equal. simpl. rewrite <- !app_assoc. reflexivity.
  - intros r sec H. unfold markdown_scan in H.
    destruct (vulnerabilities r) as [| v vs] eqn:Ev; cbv beta iota zeta in H.
    + split; [| done]. intros _. by injection H as <-.
    + split; [done |]. intros _.
      apply for_lines_items in H as (groups & Hg & ->);
        [| apply markdown_group_appender].
      by exists groups.
  - intros vulns sev g H found. unfold markdown_group in H.
    rewrite group_by_severity_lookup in H. fold found in H.
    destruct found as [| v vs]; cbv beta iota zeta in H.
    + injection H as <-. exists []. split; [constructor | done].
    + bind_inv H as lines E.
      apply for_lines_items in E as (items & Hi & ->);
        [| apply markdown_vuln_appender].
      exists items. split; [exact Hi |].
      destruct (10 <? length (v :: vs))%nat; injection H as <-;
        simpl; rewrite <- ?app_assoc, ?app_nil_r; reflexivity.
  - apply markdown_vuln_shape.
  - intros Hc. unfold output_markdown, markdown_lines. cbv zeta.
    destruct (for_lines_total (scan_results report) (markdown_scan B)
                (((foldl (fun lines rec => lines ++ ["- " +:+ rec])
                     ((foldl (fun lines sev =>
                                lines ++ ["| " +:+ sev +:+ " | "
                                          +:+ pretty (default 0
                                                (total_vulnerabilities report !! sev))
                                          +:+ " |"])
                         ["# Security Scan Report"; "";
                          "**Generated:** " +:+ generated_at report;
                          "**Repository:** " +:+ repository report;
                          "**Branch:** " +:+ branch report;
                          "**Commit:** " +:+ commit report;
                          ""; "## Summary"; "";
                          "| Severity | Count |";
                          "|----------|-------|"] SEVERITY_ORDER)
                      ++ [""; "## Recommendations"; ""])
                     (recommendations report))
                  ++ [""; "## Detailed Findings"; ""]))
                (markdown_scan_appender B)) as [lines Hl].
    + eapply Forall_impl; [exact Hc |]. intros r Hr.
      by apply markdown_scan_total.
    + rewrite Hl. simpl. eauto.
Qed.

Lemma for_lines_Forall2 {A} (xs ys : list A) body lines :
  Forall2 (fun x y => forall ls, body ls x = body ls y) xs ys ->
  for_lines xs body lines = for_lines ys body lines.
Proof.
  intros H. revert lines. induction H as [| x y xs ys Hxy _ IH]; intros lines.
  - reflexivity.
  - simpl. rewrite Hxy. destruct (body lines y); simpl; [apply IH | done].
Qed.

Lemma foldl_ext_in {A C} (f g : C -> A -> C) (xs : list A) (acc : C) :
  (forall a x, In x xs -> f a x = g a x) ->
  foldl f acc xs = foldl g acc xs.
Proof.
  revert acc. induction xs as [| x xs IH]; intros acc H; simpl; [done |].
  rewrite H by (by left). apply IH. intros a y Hy. apply H. by right.
Qed.

Lemma markdown_scan_same B lines (r1 r2 : ScanResult) :
  scanner r1 = scanner r2 ->
  (vulnerabilities r1 = [] <-> vulnerabilities r2 = []) ->
  (forall s, canonical s ->
             with_severity s (vulnerabilities r1)
             = with_severity s (vulnerabilities r2)) ->
  markdown_scan B lines r1 = markdown_scan B lines r2.
Proof.
  intros Hn He Hs. unfold markdown_scan. rewrite Hn.
  destruct (vulnerabilities r1) as [| v1 vs1] eqn:E1,
           (vulnerabilities r2) as [| v2 vs2] eqn:E2;
    cbv beta iota zeta.
  - reflexivity.
  - discriminate (proj1 He eq_refl).
  - discriminate (proj2 He eq_refl).
  - apply for_lines_ext. intros sev ls Hsev. unfold markdown_group.
    by rewrite !group_by_severity_lookup, (Hs sev Hsev).
Qed.

Lemma markdown_lines_same B (r1 r2 : SecurityReport) :
  same_listed r1 r2 -> markdown_lines B r1 = markdown_lines B r2.
Proof.
  intros (Hg & Hr & Hb & Hc & Hrec & Ht & Hs).
  unfold markdown_lines. cbv zeta. rewrite Hg, Hr, Hb, Hc, Hrec.
  rewrite (foldl_ext_in _
             (fun lines sev =>
                lines ++ ["| " +:+ sev +:+ " | "
                          +:+ pretty (default 0 (total_vulnerabilities r2 !! sev))
                          +:+ " |"]) SEVERITY_ORDER)
    by (intros a sev Hsev; by rewrite (Ht sev Hsev)).
  apply for_lines_Forall2.
  eapply Forall2_impl; [exact Hs |].
  intros s1 s2 (Hn & He & Hw) ls. by apply markdown_scan_same.
Qed.

Lemma summary_le_sum s (r : ScanResult) rs :
  In r rs ->
  default 0 (summary r !! s)
  <= sum_list (map (fun r => default 0 (summary r !! s)) rs).
Proof.
  induction rs as [| r' rs IH]; simpl; [done |].
  intros [-> | Hin]; [lia |]. specialize (IH Hin). lia.
Qed.

Lemma with_severity_own v vulns :
  In v vulns -> 1 <= length (with_severity (severity v) vulns).
Proof.
  intros Hin. apply list_elem_of_In in Hin.
  assert (Hv : v ∈ with_severity (severity v) vulns)
    by (by apply list_elem_of_filter).
  destruct (with_severity (severity v) vulns); [by apply elem_of_nil in Hv |].
  simpl. lia.
Qed.

(** C10. In the report [main] builds, every finding is counted under
    its own severity, canonical or not, in the summary of its scan result
    and in the totals; the Markdown output reads the totals and the
    findings of the five canonical severities only, so it is the same for
    any report that differs in nothing else: a finding with another
    severity shows in no table row and in no section. *)
Theorem unlisted_severity_counted_not_shown (B : builtins) (E : environment)
    (d : directory) (report : SecurityReport) (w : io) :
  main_report B E d = (Some report, w) ->
  (forall r v,
      In r (scan_results report) ->
      In v (vulnerabilities r) ->
      1 <= default 0 (summary r !! severity v)
      /\ 1 <= default 0 (total_vulnerabilities report !! severity v))
  /\ (forall report',
         same_listed report report' ->
         output_markdown B report = output_markdown B report').
Proof.
  intros Hmain. split.
  - intros r v Hr Hv. unfold main_report in Hmain.
    destruct (collect_results_recorded B E (new_generator d)
                {| stderr := []; clock_reads := 0 |}) as (new & Hn & Hrec).
    destruct (collect_results B E (new_generator d) _) as [generator w0].
    simpl in Hn.
    destruct (self_scan_results generator) as [| r0 rs] eqn:Ers;
      [discriminate |].
    assert (Ht :
    default 0 (total_vulnerabilities (fst (generate_report E generator w0))
               !! severity v)
    = sum_list (map (fun r => default 0 (summary r !! severity v))
                    (scan_results (fst (generate_report E generator w0)))))
    by (simpl; by rewrite foldl_add_summary_lookup, lookup_empty).
    assert (Hrep : report = fst (generate_report E generator w0))
      by (by injection Hmain as <- _).
    assert (Hsr : scan_results report = r0 :: rs)
      by (by rewrite Hrep, <- Ers).
    rewrite <- Hrep, Hsr in Ht. rewrite Hsr in Hr. subst new.
    assert (Hs : 1 <= default 0 (summary r !! severity v)).
    { rewrite Forall_forall in Hrec.
      destruct (Hrec r) as [_ ->]; [by apply list_elem_of_In |].
      rewrite count_severities_lookup. by apply with_severity_own. }
    split; [exact Hs |]. rewrite Ht.
    pose proof (summary_le_sum (severity v) r _ Hr). lia.
  - intros report' Hsame. unfold output_markdown.
    by rewrite (markdown_lines_same B report report' Hsame).
Qed.

(** A run over the image scan without a [Severity]: its finding is
    counted under [UNKNOWN]. *)
Lemma unknown_label_is_counted :
  exists report w r v,
    main_report sample_builtins sample_environment image_scan_only
    = (Some report, w)
    /\ In r (scan_results report)
    /\ In v (vulnerabilities r)
    /\ severity v = "UNKNOWN"
    /\ 1 <= default 0 (summary r !! "UNKNOWN")
    /\ 1 <= default 0 (total_vulnerabilities report !! "UNKNOWN").
Proof.
  destruct (main_report sample_builtins sample_environment image_scan_only)
    as [[report |] w] eqn:Hm; [| vm_compute in Hm; discriminate Hm].
  pose proof (proj1 (unlisted_severity_counted_not_shown
                       sample_builtins sample_environment image_scan_only
                       report w Hm)) as Hcount.
  vm_compute in Hm. injection Hm as <- <-.
  eexists _, _, _, _. split; [reflexivity |].
  split; [left; reflexivity |].
  split; [left; reflexivity |].
  split; [reflexivity |].
  exact (Hcount _ _ (or_introl eq_refl) (or_introl eq_refl)).
Defined.

(* ================================================================== *)
(** * The scenarios, run *)
(* ================================================================== *)

(** Scenario D: no CRITICAL, no HIGH, a scanner named after Semgrep. *)
Example scenario_d_reassures :
  _generate_recommendations scenario_d = [reassurance_message].
Proof. reflexivity. Qed.

(** Twelve findings of one severity: ten are listed, two are summed up. *)
Example twelve_high_listing :
  exists listing,
    markdown_scan sample_builtins [] twelve_high
    = Ok (["### semgrep"; ""; "#### HIGH (12)"; ""]
          ++ listing ++ ["  *...and 2 more*"; ""])
    /\ listing
       = concat (replicate 10 ["- **SQL injection** (sql-injection)";
                               "  - File: `app.py`:7"; ""]).
Proof. eexists. split; [| reflexivity]. vm_compute. reflexivity. Qed.

(** The report of the image scan without a [Severity]: the table has its
    five rows, all at 0, and the section of the scan lists nothing. *)
Example image_scan_markdown :
  exists report w,
    main_report sample_builtins sample_environment image_scan_only
    = (Some report, w)
    /\ default 0 (total_vulnerabilities report !! "UNKNOWN") = 1
    /\ markdown_lines sample_builtins report
       = Ok ["# Security Scan Report"; "";
             "**Generated:** 2024-01-01T00:00:01";
             "**Repository:** unknown"; "**Branch:** unknown";
             "**Commit:** unknown"; ""; "## Summary"; "";
             "| Severity | Count |"; "|----------|-------|";
             "| CRITICAL | 0 |"; "| HIGH | 0 |"; "| MEDIUM | 0 |";
             "| LOW | 0 |"; "| INFO | 0 |";
             ""; "## Recommendations"; "";
             "- Consider enabling SAST scanning with Semgrep for code analysis.";
             ""; "## Detailed Findings"; ""; "### trivy-trivy-image"; ""].
Proof.
  eexists _, _. split; [vm_compute; reflexivity |].
  split; vm_compute; reflexivity.
Qed.

(** Scenario B: the npm label [moderate] becomes MEDIUM. *)
Example scenario_b_is_medium :
  map severity (fst (parse_npm_audit advisory_without_url)) = ["MEDIUM"].
Proof. reflexivity. Qed.

(** Scenario C: the label is kept, the score defaults to 0 and the
    remediation names the package and [N/A]. *)
Example scenario_c_defaults :
  map (fun v => (severity v, cvss v, remediation v))
      (fst (parse_trivy_json sample_builtins scenario_c))
  = [("HIGH", JInt 0, JStr "Update zlib to N/A")].
Proof. reflexivity. Qed.

(* ================================================================== *)
(** * The npm adapter, field by field *)
(* ================================================================== *)

Lemma npm_table native sev :
  table_get [("critical", "CRITICAL"); ("high", "HIGH");
             ("moderate", "MEDIUM"); ("low", "LOW")]
            native "MEDIUM" = Ok sev ->
  (native = JStr "critical" -> sev = "CRITICAL")
  /\ (native = JStr "high" -> sev = "HIGH")
  /\ (native = JStr "moderate" -> sev = "MEDIUM")
  /\ (native = JStr "low" -> sev = "LOW")
  /\ (native <> JStr "critical" -> native <> JStr "high" ->
      native <> JStr "moderate" -> native <> JStr "low" -> sev = "MEDIUM").
Proof.
  intros H. repeat split.
  - intros ->. by injection H.
  - intros ->. by injection H.
  - intros ->. by injection H.
  - intros ->. by injection H.
  - intros H1 H2 H3 H4.
    destruct native; try (by injection H); try discriminate.
    simpl in H.
    destruct (String.eqb_spec s "critical") as [-> | _]; [done |].
    destruct (String.eqb_spec s "high") as [-> | _]; [done |].
    destruct (String.eqb_spec s "moderate") as [-> | _]; [done |].
    destruct (String.eqb_spec s "low") as [-> | _]; [done |].
    by injection H.
Qed.

(** X1. The npm adapter maps the labels [critical], [high], [moderate]
    and [low], written in lower case, to CRITICAL, HIGH, MEDIUM and LOW;
    any other value of [severity], a missing one, a label in another
    case or a value that is no string, gives MEDIUM. *)
Theorem npm_severity_table (vuln_id : string) (vuln_data native : json)
    (v : Vulnerability) :
  npm_advisory (vuln_id, vuln_data) = Ok v ->
  py_get vuln_data "severity" (JStr "") = Ok native ->
  (native = JStr "critical" -> severity v = "CRITICAL")
  /\ (native = JStr "high" -> severity v = "HIGH")
  /\ (native = JStr "moderate" -> severity v = "MEDIUM")
  /\ (native = JStr "low" -> severity v = "LOW")
  /\ (native <> JStr "critical" -> native <> JStr "high" ->
      native <> JStr "moderate" -> native <> JStr "low" ->
      severity v = "MEDIUM").
Proof.
  intros Hv Hn.
  apply npm_advisory_inv in Hv as (native' & url & Hn' & Hsev & _).
  rewrite Hn in Hn'. injection Hn' as <-. by apply npm_table.
Qed.

(** An advisory labelled [HIGH] in upper case is not in the table. *)
Lemma npm_upper_case_label_is_medium :
  exists v,
    npm_advisory ("minimist", JObj [("severity", JStr "HIGH")]) = Ok v
    /\ severity v = "MEDIUM".
Proof.
  eexists. split; [reflexivity |].
  refine (proj2 (proj2 (proj2 (proj2
            (npm_severity_table "minimist" (JObj [("severity", JStr "HIGH")])
               (JStr "HIGH") _ eq_refl eq_refl)))) _ _ _ _);
    discriminate.
Defined.

(** X2. An advisory raises exactly in two cases: its entry is no object
    ([AttributeError] on [.get]), or the value of its [severity] is a
    list or an object, which cannot be a key of the table
    ([TypeError]).  Any other entry yields a finding. *)
Theorem npm_advisory_raises (vuln_id : string) (vuln_data : json) :
  match vuln_data with
  | JObj kvs =>
      if hashable (default (JStr "") (assoc "severity" kvs))
      then exists v, npm_advisory (vuln_id, vuln_data) = Ok v
      else npm_advisory (vuln_id, vuln_data) = Raise TypeError
  | _ => npm_advisory (vuln_id, vuln_data) = Raise AttributeError
  end.
Proof.
  destruct vuln_data as [| b | z | x | s | l | kvs]; try reflexivity.
  unfold npm_advisory. cbn [py_get rbind].
  destruct (default (JStr "") (assoc "severity" kvs)) as [| b | z | x | s | l | o];
    cbn [hashable table_get rbind]; try reflexivity;
    destruct (assoc "fixAvailable" kvs) as [[| b' | z' | x' | s' | l' | o'] |];
    cbn [default is_dict py_get rbind]; eauto.
Qed.

(** X3. The remediation of an npm finding is the [name] inside
    [fixAvailable] when that field is an object, and empty otherwise: for
    the booleans npm writes there, and when the field is absent.  Its
    title is the [name] of the advisory, or the advisory id without
    one. *)
Theorem npm_remediation (vuln_id : string) (kvs : list (string * json))
    (v : Vulnerability) :
  npm_advisory (vuln_id, JObj kvs) = Ok v ->
  remediation v =
    match assoc "fixAvailable" kvs with
    | Some (JObj fix_available) => default (JStr "") (assoc "name" fix_available)
    | _ => JStr ""
    end
  /\ title v = default (JStr vuln_id) (assoc "name" kvs)
  /\ id v = JStr vuln_id.
Proof.
  intros H. unfold npm_advisory in H. cbv zeta in H.
  bind_inv H as title E1. bind_inv H as native E2. bind_inv H as sev E3.
  bind_inv H as descr E4. bind_inv H as probe E5. bind_inv H as remed E6.
  bind_inv H as url E7. injection H as <-. simpl in *.
  injection E1 as <-. injection E5 as <-.
  repeat split.
  destruct (assoc "fixAvailable" kvs) as [[| b | z | x | s | l | o] |];
    simpl in E6; by injection E6 as <-.
Qed.

(** An advisory whose fix is flagged with [true]. *)
Lemma npm_boolean_fix_gives_no_remediation :
  exists v,
    npm_advisory ("lodash", JObj [("fixAvailable", JBool true)]) = Ok v
    /\ remediation v = JStr "".
Proof.
  eexists. split; [reflexivity |].
  exact (proj1 (npm_remediation "lodash" [("fixAvailable", JBool true)]
                  _ eq_refl)).
Defined.

(* ================================================================== *)
(** * Findings follow the document *)
(* ================================================================== *)

Lemma npm_advisory_id vuln_id vuln_data v :
  npm_advisory (vuln_id, vuln_data) = Ok v -> id v = JStr vuln_id.
Proof.
  intros H. unfold npm_advisory in H. cbv zeta in H.
  bind_inv H as title E1. bind_inv H as native E2. bind_inv H as sev E3.
  bind_inv H as descr E4. bind_inv H as probe E5. bind_inv H as remed E6.
  bind_inv H as url E7. by injection H as <-.
Qed.

Lemma items_from_keys {V} (seen : list string) (kvs : list (string * V)) :
  NoDup (map fst (items_from seen kvs))
  /\ forall k, In k (map fst (items_from seen kvs)) -> ~ In k seen.
Proof.
  revert seen. induction kvs as [| [k v] kvs IH]; intros seen; simpl.
  - split; [constructor | intros k []].
  - destruct (existsb (String.eqb k) seen) eqn:Ek.
    + apply IH.
    + destruct (IH (k :: seen)) as [Hnd Hout]. simpl. split.
      * constructor; [| exact Hnd].
        intros Hin%list_elem_of_In. apply (Hout k Hin). by left.
      * intros k' [<- | Hin].
        -- intros Hs. apply not_true_iff_false in Ek. apply Ek.
           apply existsb_exists. exists k. split; [exact Hs |].
           apply String.eqb_refl.
        -- intros Hs. apply (Hout k' Hin). by right.
Qed.

Lemma dict_items_NoDup {V} (kvs : list (string * V)) :
  NoDup (map fst (dict_items kvs)).
Proof. apply items_from_keys. Qed.

Lemma oks_before_raise_prefix {A C} (g : A -> result Vulnerability)
    (h : Vulnerability -> C) (i : A -> C) (xs : list A) :
  (forall x v, g x = Ok v -> h v = i x) ->
  map h (oks_before_raise (map g xs)) `prefix_of` map i xs
  /\ (first_raise (map g xs) = None ->
      map h (oks_before_raise (map g xs)) = map i xs).
Proof.
  intros Hg. induction xs as [| x xs [IHp IHe]]; simpl.
  - split; [done | done].
  - destruct (g x) as [v | e] eqn:Ex; simpl.
    + rewrite (Hg x v Ex). split.
      * by apply prefix_cons.
      * intros Hn. by rewrite IHe.
    + split; [apply prefix_nil | discriminate].
Qed.

(** X4. The npm adapter yields one finding per advisory, in the order
    of the document and under the advisory's id: the ids of its findings
    are an initial part of the advisory ids, all of them when nothing was
    printed, and no two findings of a document share an id. *)
Theorem npm_findings_follow_advisories (f : file) (data : json)
    (kvs : list (string * json)) :
  contents f = Ok data ->
  py_get data "vulnerabilities" (JObj []) = Ok (JObj kvs) ->
  let ids := map (fun kv => JStr (fst kv)) (dict_items kvs) in
  map id (fst (parse_npm_audit f)) `prefix_of` ids
  /\ (snd (parse_npm_audit f) = [] -> map id (fst (parse_npm_audit f)) = ids)
  /\ NoDup (map id (fst (parse_npm_audit f))).
Proof.
  intros Hc Hv ids. rewrite parse_npm_audit_stops.
  unfold npm_outcomes, stop_at_first_raise. rewrite Hc. cbn [outcomes_of].
  rewrite Hv. cbn [rbind py_items outcomes_of fst snd].
  destruct (oks_before_raise_prefix npm_advisory id
              (fun kv => JStr (fst kv)) (dict_items kvs)) as [Hp He].
  { intros [k d] v Hx. by apply npm_advisory_id in Hx. }
  split; [exact Hp |]. split.
  - destruct (first_raise (map npm_advisory (dict_items kvs)));
      [discriminate | intros _; by apply He].
  - destruct Hp as [rest Hp].
    assert (Hnd : NoDup ids).
    { subst ids. rewrite <- (map_map fst JStr).
      apply NoDup_fmap_2; [intros ? ? [=]; done | apply dict_items_NoDup]. }
    fold ids in Hp. rewrite Hp in Hnd. by apply NoDup_app in Hnd as [? _].
Qed.

(** The advisory of [advisory_without_url], followed. *)
Lemma lodash_advisory_is_followed :
  map id (fst (parse_npm_audit advisory_without_url)) = [JStr "lodash"].
Proof.
  destruct (npm_findings_follow_advisories advisory_without_url _ _
              eq_refl eq_refl) as (_ & He & _).
  exact (He eq_refl).
Defined.

(* ================================================================== *)
(** * The Trivy adapter, field by field *)
(* ================================================================== *)

(** X5. An image-scan entry yields a finding exactly when it is an
    object whose [Severity] is a string, whose [CVSS] and [CVSS.nvd] are
    objects and whose [References] is a list or a string, absent fields
    taking their defaults; on any other entry the adapter raises. *)
Theorem trivy_vuln_succeeds_iff (B : builtins) (target vuln_data : json) :
  trivy_entry_ok vuln_data = true
  <-> exists v, trivy_vuln B target vuln_data = Ok v.
Proof.
  unfold trivy_vuln, trivy_entry_ok.
  destruct vuln_data as [| b | z | x | s | l | kvs];
    try (split; [discriminate | intros [v [=]]]).
  cbn [py_get rbind].
  destruct (default (JStr "UNKNOWN") (assoc "Severity" kvs))
    as [| b | z | x | s | l | o]; cbn [py_upper rbind andb];
    try (split; [discriminate | intros [v [=]]]).
  destruct (default (JObj []) (assoc "CVSS" kvs))
    as [| b | z | x | s' | l | scores]; cbn [py_get rbind andb];
    try (split; [discriminate | intros [v [=]]]).
  destruct (default (JObj []) (assoc "nvd" scores))
    as [| b | z | x | s' | l | nvd]; cbn [is_dict py_get rbind andb];
    try (split; [discriminate | intros [v [=]]]).
  destruct (default (JArr []) (assoc "References" kvs))
    as [| b | z | x | s' | l | o]; cbn [py_slice rbind];
    try (split; [discriminate | intros [v [=]]]);
    split; eauto.
Qed.

Lemma ascii_upper_idempotent c : ascii_upper (ascii_upper c) = ascii_upper c.
Proof. destruct c as [[] [] [] [] [] [] [] []]; reflexivity. Qed.

Lemma upper_idempotent s : upper (upper s) = upper s.
Proof.
  unfold upper. induction s as [| c s IH]; simpl; [done |].
  by rewrite ascii_upper_idempotent, IH.
Qed.

(** X6. The finding built for an entry of an image scan: its file path
    is the [Target] of the scan result that lists the entry; its severity
    is [str.upper()] of the entry's [Severity] ([UNKNOWN] without one),
    which for an ASCII label maps the letters [a] to [z] and is in upper
    case; it keeps at most the first three [References] of its entry, in
    order; its score is [CVSS.nvd.V3Score] and 0 when the entry has no
    such score, whatever other score sources it lists; and its
    remediation is "Update <PkgName> to <FixedVersion>", with [N/A] for
    an absent version. *)
Theorem trivy_finding_fields (B : builtins) (f : file)
    (res vuln_data : json) (v : Vulnerability) :
  trivy_finding_of B f v res vuln_data ->
  exists kvs label,
    vuln_data = JObj kvs
    /\ py_get res "Target" (JStr "") = Ok (file_path v)
    /\ default (JStr "UNKNOWN") (assoc "Severity" kvs) = JStr label
    /\ severity v = str_upper B label
    /\ (is_ascii label = true ->
        severity v = upper label /\ upper (severity v) = severity v)
    /\ (forall l, default (JArr []) (assoc "References" kvs) = JArr l ->
                  references v = JArr (take 3 l) /\ length (take 3 l) <= 3)
    /\ (exists scores nvd,
           default (JObj []) (assoc "CVSS" kvs) = JObj scores
           /\ default (JObj []) (assoc "nvd" scores) = JObj nvd
           /\ cvss v = default (JInt 0) (assoc "V3Score" nvd))
    /\ remediation v
       = JStr ("Update "
               +:+ py_str B (default (JStr "") (assoc "PkgName" kvs))
               +:+ " to "
               +:+ py_str B (default (JStr "N/A") (assoc "FixedVersion" kvs))).
Proof.
  intros (_ & target & Htarget & H).
  destruct vuln_data as [| b | z | x | s' | l | kvs]; try discriminate H.
  unfold trivy_vuln in H. cbn [py_get rbind] in H.
  bind_inv H as sev E5.
  destruct (default (JStr "UNKNOWN") (assoc "Severity" kvs))
    as [| b | z | x | label | l | o] eqn:Elabel; try discriminate E5.
  cbn [py_upper] in E5. injection E5 as <-.
  destruct (default (JObj []) (assoc "CVSS" kvs))
    as [| b | z | x | s' | l | scores] eqn:Escores; try discriminate.
  cbn [py_get rbind] in H.
  destruct (default (JObj []) (assoc "nvd" scores))
    as [| b | z | x | s' | l | nvd] eqn:Envd; try discriminate.
  cbn [py_get rbind] in H. cbv zeta in H.
  bind_inv H as refs E13. injection H as <-.
  cbn [file_path severity references cvss remediation].
  exists kvs, label.
  split; [reflexivity |]. split; [exact Htarget |]. split; [exact Elabel |].
  split; [reflexivity |]. split; [| split; [| split]].
  - intros Ha. unfold str_upper. rewrite Ha.
    split; [reflexivity | apply upper_idempotent].
  - intros l Hl. rewrite Hl in E13. cbn [py_slice] in E13.
    injection E13 as <-. split; [reflexivity |]. rewrite length_take. lia.
  - exists scores, nvd. split; [exact Escores |]. split; [exact Envd | reflexivity].
  - reflexivity.
Qed.

(** The entry of Scenario C, field by field. *)
Lemma scenario_c_fields :
  exists v,
    In v (fst (parse_trivy_json sample_builtins scenario_c))
    /\ file_path v = JStr "alpine:3.18"
    /\ severity v = "HIGH"
    /\ cvss v = JInt 0
    /\ remediation v = JStr "Update zlib to N/A"
    /\ references v = JArr [].
Proof.
  assert (Hof : exists v,
             In v (fst (parse_trivy_json sample_builtins scenario_c))
             /\ trivy_finding_of sample_builtins scenario_c v
                  scenario_c_result scenario_c_entry).
  { eexists. split; [left; reflexivity |]. split.
    - eexists _, _, _. split; [reflexivity |]. split; [reflexivity |].
      split; [by left |]. split; [reflexivity | by left].
    - eexists. split; reflexivity. }
  destruct Hof as (v & Hin & Hof). exists v. split; [exact Hin |].
  destruct (trivy_finding_fields sample_builtins scenario_c
              scenario_c_result scenario_c_entry v Hof)
    as (kvs & label & Hk & Ht & Hl & _ & Ha & Hr
        & (scores & nvd & Hs & Hn & Hc) & Hrem).
  injection Hk as <-. injection Hl as <-.
  injection Hs as <-. injection Hn as <-.
  split; [by injection Ht |].
  split; [exact (proj1 (Ha eq_refl)) |].
  split; [exact Hc |]. split; [exact Hrem |].
  exact (proj1 (Hr [] eq_refl)).
Defined.

(* ================================================================== *)
(** * The SARIF adapter, field by field *)
(* ================================================================== *)

Section SarifFields.
Context (B : builtins).

Lemma sarif_result_fields tool_name rules res v :
  sarif_result B tool_name rules res = Ok v ->
  exists rule_id rule props scored locations location physical artifact region
         short message raw_cvss score help,
    py_get res "ruleId" (JStr "") = Ok rule_id
    /\ pydict_get rules rule_id (JObj []) = Ok rule
    /\ py_get rule "properties" (JObj []) = Ok props
    /\ py_contains "security-severity" props = Ok scored
    /\ (scored = true ->
        exists raw score', py_getitem props "security-severity" = Ok raw
                           /\ py_float B raw = Ok score'
                           /\ severity v = score_severity score')
    /\ py_get res "locations" (JArr [JObj []]) = Ok locations
    /\ (if truthy locations then py_first locations else Ok (JObj []))
       = Ok location
    /\ py_get location "physicalLocation" (JObj []) = Ok physical
    /\ py_get physical "artifactLocation" (JObj []) = Ok artifact
    /\ py_get physical "region" (JObj []) = Ok region
    /\ py_get rule "shortDescription" (JObj []) = Ok short
    /\ py_get short "text" rule_id = Ok (title v)
    /\ py_get res "message" (JObj []) = Ok message
    /\ py_get message "text" (JStr "") = Ok (description v)
    /\ py_get artifact "uri" (JStr "") = Ok (file_path v)
    /\ py_get region "startLine" (JInt 0) = Ok (line_number v)
    /\ py_get props "cwe" (JStr "") = Ok (cwe v)
    /\ py_get props "security-severity" (JInt 0) = Ok raw_cvss
    /\ py_float B raw_cvss = Ok score
    /\ cvss v = JFloat score
    /\ py_get rule "help" (JObj []) = Ok help
    /\ py_get help "text" (JStr "") = Ok (remediation v)
    /\ id v = rule_id
    /\ source v = tool_name.
Proof.
  intros H. unfold sarif_result in H.
  bind_inv H as rule_id E1. bind_inv H as rule E2. bind_inv H as level E3.
  cbv zeta in H.
  bind_inv H as base E4. bind_inv H as props E5. bind_inv H as scored E6.
  bind_inv H as sev E7. bind_inv H as locations E8. bind_inv H as location E9.
  bind_inv H as physical E10. bind_inv H as artifact E11.
  bind_inv H as region E12. bind_inv H as short E13. bind_inv H as title E14.
  bind_inv H as message E15. bind_inv H as descr E16. bind_inv H as path E17.
  bind_inv H as line E18. bind_inv H as cwe E19. bind_inv H as raw_cvss E20.
  bind_inv H as score E21. bind_inv H as help E22. bind_inv H as remed E23.
  bind_inv H as tags0 E24. bind_inv H as tags E25. bind_inv H as refs E26.
  injection H as <-. simpl.
  exists rule_id, rule, props, scored, locations, location, physical, artifact,
    region, short, message, raw_cvss, score, help.
  repeat (split; [assumption || reflexivity || idtac |]); try reflexivity.
  intros ->. bind_inv E7 as raw E7a. bind_inv E7 as score' E7b.
  injection E7 as <-. by exists raw, score'.
Qed.
End SarifFields.

Lemma sarif_result_without_rule B tool_name rules kvs :
  pydict_lookup (default (JStr "") (assoc "ruleId" kvs)) rules = None ->
  readable_without_rule (JObj kvs) = true
  <-> exists v, sarif_result B tool_name rules (JObj kvs) = Ok v.
Proof.
  intros Hnone. unfold sarif_result, readable_without_rule, pydict_get.
  cbn [py_get rbind]. rewrite Hnone.
  destruct (hashable (default (JStr "") (assoc "ruleId" kvs)));
    cbn [rbind andb default]; [| split; [discriminate | intros [v [=]]]].
  cbv zeta.
  destruct (default (JStr "warning") (assoc "level" kvs))
    as [| b | z | x | s | l | o];
    cbn [table_get hashable rbind andb py_get py_contains assoc bool_decide
         default];
    try (split; [discriminate | intros [v [=]]]).
  all: rewrite bool_decide_eq_false_2 by (intros [? [=]]); cbn [rbind].
  all: destruct (if truthy (default (JArr [JObj []]) (assoc "locations" kvs))
                 then py_first (default (JArr [JObj []]) (assoc "locations" kvs))
                 else Ok (JObj []))
         as [[| ? | ? | ? | ? | ? | location] | e];
    cbn [py_get rbind andb];
    try (split; [discriminate | intros [v [=]]]).
  all: destruct (default (JObj []) (assoc "physicalLocation" location))
         as [| ? | ? | ? | ? | ? | physical];
    cbn [py_get rbind andb];
    try (split; [discriminate | intros [v [=]]]).
  all: destruct (default (JObj []) (assoc "message" kvs))
         as [| ? | ? | ? | ? | ? | message];
    destruct (default (JObj []) (assoc "artifactLocation" physical))
         as [| ? | ? | ? | ? | ? | artifact];
    cbn [is_dict py_get rbind andb];
    try (split; [discriminate | intros [v [=]]]).
  all: destruct (default (JObj []) (assoc "region" physical))
         as [| ? | ? | ? | ? | ? | region];
    cbn [is_dict py_get rbind andb];
    try (split; [discriminate | intros [v [=]]]).
  all: split; [intros _; eexists; reflexivity | reflexivity].
Qed.

(** X7. A SARIF result whose [ruleId] names no rule of the run is still
    reported, exactly when the result itself is well formed: the rule
    table plays no part.  Its severity is the one of its level alone,
    [error] to HIGH, [warning] to MEDIUM, [note] to LOW and anything else
    to MEDIUM; its title is the rule id itself; and its weakness, score,
    remediation and references are empty. *)
Theorem sarif_unknown_rule (B : builtins) (tool_name : json) (rules : pydict)
    (res rule_id : json) :
  py_get res "ruleId" (JStr "") = Ok rule_id ->
  pydict_lookup rule_id rules = None ->
  (readable_without_rule res = true
   <-> exists v, sarif_result B tool_name rules res = Ok v)
  /\ forall v,
       sarif_result B tool_name rules res = Ok v ->
       exists level,
         py_get res "level" (JStr "warning") = Ok level
         /\ (level = JStr "error" -> severity v = "HIGH")
         /\ (level = JStr "warning" -> severity v = "MEDIUM")
         /\ (level = JStr "note" -> severity v = "LOW")
         /\ (level <> JStr "error" -> level <> JStr "warning" ->
             level <> JStr "note" -> severity v = "MEDIUM")
         /\ title v = rule_id
         /\ cwe v = JStr ""
         /\ cvss v = JFloat 0%float
         /\ remediation v = JStr ""
         /\ references v = JArr [].
Proof.
  intros Hid Hnone. split.
  { destruct res as [| ? | ? | ? | ? | ? | kvs]; try discriminate Hid.
    cbn [py_get] in Hid. injection Hid as <-.
    by apply sarif_result_without_rule. }
  intros v Hv.
  pose proof (sarif_result_inv B _ _ _ _ Hv)
    as (rule_id0 & rule0 & level & base & props0 & scored0
        & I1 & I2 & Hlevel & Hbase & I5 & I6 & Hsev & tags & refs & Ht & Hr
        & Hrefs).
  pose proof (sarif_result_fields B _ _ _ _ Hv)
    as (rule_id' & rule & props & scored & locations & location & physical
        & artifact & region & short & message & raw_cvss & score & help
        & F1 & F2 & F3 & F4 & _ & _ & _ & _ & _ & _ & F11 & F12 & _ & _ & _ & _
        & F17 & F18 & F19 & F20 & F21 & F22 & _).
  rewrite Hid in F1, I1. injection F1 as <-. injection I1 as <-.
  unfold pydict_get in F2, I2. rewrite Hnone in F2, I2.
  destruct (hashable rule_id); [| discriminate].
  injection F2 as <-. injection I2 as <-.
  injection F3 as <-. injection I5 as <-. injection I6 as <-.
  injection F11 as <-. injection F21 as <-.
  cbn in F12, F17, F18, F22, Ht. injection F18 as <-.
  injection Ht as <-. injection Hr as <-.
  cbn in F19. injection F19 as <-.
  exists level. split; [exact Hlevel |].
  rewrite Hsev. destruct (level_table _ _ Hbase) as (L1 & L2 & L3 & L4).
  repeat (split; [assumption |]).
  split; [congruence |]. split; [congruence |]. split; [exact F20 |].
  split; congruence.
Qed.

(** A result that names a rule the run does not define. *)
Lemma orphan_result_is_reported :
  exists v,
    sarif_result sample_builtins (JStr "Semgrep") []
      (JObj [("ruleId", JStr "unlisted"); ("level", JStr "error")]) = Ok v
    /\ title v = JStr "unlisted"
    /\ severity v = "HIGH"
    /\ cvss v = JFloat 0%float.
Proof.
  destruct (sarif_unknown_rule sample_builtins (JStr "Semgrep") []
              (JObj [("ruleId", JStr "unlisted"); ("level", JStr "error")])
              (JStr "unlisted") eq_refl eq_refl)
    as [Hex Hfields].
  destruct (proj1 Hex eq_refl) as [v Hv]. exists v. split; [exact Hv |].
  destruct (Hfields v Hv) as (level & Hl & He & _ & _ & _ & Ht & _ & Hc & _).
  injection Hl as <-.
  split; [exact Ht |]. split; [exact (He eq_refl) | exact Hc].
Defined.

(** X8. The score and the severity of a SARIF finding come from the
    same number: when the rule has a [security-severity], [cvss] is its
    value as a float and the severity is the band of that value; when it
    has none, [cvss] is 0.0 and the severity is the one of the level of
    the result, [error] to HIGH, [warning] to MEDIUM, [note] to LOW and
    anything else to MEDIUM, not the band of 0.0. *)
Theorem sarif_score_and_severity (B : builtins) (tool_name : json)
    (rules : pydict) (res : json) (v : Vulnerability)
    (rule_id rule props : json) (scored : bool) :
  sarif_result B tool_name rules res = Ok v ->
  py_get res "ruleId" (JStr "") = Ok rule_id ->
  pydict_get rules rule_id (JObj []) = Ok rule ->
  py_get rule "properties" (JObj []) = Ok props ->
  py_contains "security-severity" props = Ok scored ->
  exists score,
    cvss v = JFloat score
    /\ (scored = true ->
        exists raw, py_getitem props "security-severity" = Ok raw
                    /\ py_float B raw = Ok score
                    /\ severity v = score_severity score)
    /\ (scored = false ->
        score = 0%float
        /\ exists level,
             py_get res "level" (JStr "warning") = Ok level
             /\ (level = JStr "error" -> severity v = "HIGH")
             /\ (level = JStr "warning" -> severity v = "MEDIUM")
             /\ (level = JStr "note" -> severity v = "LOW")
             /\ (level <> JStr "error" -> level <> JStr "warning" ->
                 level <> JStr "note" -> severity v = "MEDIUM")).
Proof.
  intros Hv Hid Hrule Hprops Hscored.
  pose proof (sarif_result_inv B _ _ _ _ Hv)
    as (rule_id0 & rule0 & level & base & props0 & scored0
        & I1 & I2 & Hlevel & Hbase & I5 & I6 & Hsev & _).
  pose proof (sarif_result_fields B _ _ _ _ Hv)
    as (rule_id' & rule' & props' & scored' & locations & location & physical
        & artifact & region & short & message & raw_cvss & score & help
        & F1 & F2 & F3 & F4 & Fs & _ & _ & _ & _ & _ & _ & _ & _ & _ & _ & _
        & _ & F18 & F19 & F20 & _).
  rewrite Hid in F1, I1. injection F1 as <-. injection I1 as <-.
  rewrite Hrule in F2, I2. injection F2 as <-. injection I2 as <-.
  rewrite Hprops in F3, I5. injection F3 as <-. injection I5 as <-.
  rewrite Hscored in F4, I6. injection F4 as <-. injection I6 as <-.
  exists score. split; [exact F20 |]. split.
  - intros ->. destruct (Fs eq_refl) as (raw & score' & Hraw & Hf & Hs).
    exists raw. split; [exact Hraw |].
    assert (raw_cvss = raw) as ->.
    { destruct props; try discriminate. simpl in Hraw, F18.
      destruct (assoc "security-severity" kvs); [| discriminate].
      simpl in F18. congruence. }
    rewrite Hf in F19. injection F19 as <-. auto.
  - intros ->. split.
    + destruct props; try discriminate. simpl in Hscored, F18.
      destruct (assoc "security-severity" kvs) eqn:Ea.
      * rewrite bool_decide_eq_true_2 in Hscored by eauto. discriminate.
      * simpl in F18. injection F18 as <-. cbn in F19. by injection F19 as <-.
    + exists level. split; [exact Hlevel |].
      rewrite Hsev. exact (level_table _ _ Hbase).
Qed.

(** Scenario A: score 9.5 on both fields. *)
Lemma scenario_a_score_on_both_fields :
  exists v,
    sarif_result sample_builtins (JStr "Semgrep")
      [(JStr "sql-injection", scenario_a_rule)] scenario_a_result = Ok v
    /\ cvss v = JFloat 9.5%float
    /\ severity v = score_severity 9.5%float.
Proof.
  eexists. split; [reflexivity |].
  destruct (sarif_score_and_severity sample_builtins (JStr "Semgrep")
              [(JStr "sql-injection", scenario_a_rule)] scenario_a_result _
              (JStr "sql-injection") scenario_a_rule
              (JObj [("security-severity", JFloat 9.5%float)]) true
              eq_refl eq_refl eq_refl eq_refl eq_refl)
    as (score & Hc & Ht & _).
  destruct (Ht eq_refl) as (raw & Hraw & Hf & Hs).
  injection Hraw as <-. injection Hf as <-. split; [exact Hc | exact Hs].
Defined.

(** X9. The file path and the line of a SARIF finding are read from the
    first location of the result and from no other: the [uri] of its
    artifact location and the [startLine] of its region.  A result with
    an empty list of locations, or a first location without these
    fields, has the empty path and line 0. *)
Theorem sarif_first_location (B : builtins) (tool_name : json)
    (rules : pydict) (res locations : json) (v : Vulnerability) :
  sarif_result B tool_name rules res = Ok v ->
  py_get res "locations" (JArr [JObj []]) = Ok locations ->
  (truthy locations = false ->
   file_path v = JStr "" /\ line_number v = JInt 0)
  /\ (forall first others,
         locations = JArr (first :: others) ->
         exists physical artifact region,
           py_get first "physicalLocation" (JObj []) = Ok physical
           /\ py_get physical "artifactLocation" (JObj []) = Ok artifact
           /\ py_get physical "region" (JObj []) = Ok region
           /\ py_get artifact "uri" (JStr "") = Ok (file_path v)
           /\ py_get region "startLine" (JInt 0) = Ok (line_number v)).
Proof.
  intros Hv Hl.
  pose proof (sarif_result_fields B _ _ _ _ Hv)
    as (rule_id' & rule' & props' & scored' & locations' & location & physical
        & artifact & region & short & message & raw_cvss & score & help
        & _ & _ & _ & _ & _ & F6 & F7 & F8 & F9 & F10 & _ & _ & _ & _
        & F15 & F16 & _).
  rewrite Hl in F6. injection F6 as <-. split.
  - intros Hfalse. rewrite Hfalse in F7. injection F7 as <-.
    cbn in F8. injection F8 as <-. cbn in F9, F10.
    injection F9 as <-. injection F10 as <-.
    cbn in F15, F16. split; congruence.
  - intros first others ->. cbn in F7. injection F7 as <-.
    by exists physical, artifact, region.
Qed.

(** A result with two locations: the finding points at the first. *)
Lemma first_of_two_locations :
  exists v,
    sarif_result sample_builtins (JStr "Semgrep") [] two_location_result = Ok v
    /\ file_path v = JStr "src/a.py"
    /\ line_number v = JInt 12.
Proof.
  eexists. split; [reflexivity |].
  destruct (sarif_first_location sample_builtins (JStr "Semgrep") []
              two_location_result _ _ eq_refl eq_refl) as [_ H].
  destruct (H _ _ eq_refl)
    as (physical & artifact & region & H1 & H2 & H3 & H4 & H5).
  injection H1 as <-. injection H2 as <-. injection H3 as <-.
  split; [exact (f_equal (fun r => match r with
                                   | Ok p => p
                                   | Raise _ => JNull
                                   end) (eq_sym H4))
         | exact (f_equal (fun r => match r with
                                    | Ok p => p
                                    | Raise _ => JNull
                                    end) (eq_sym H5))].
Defined.

(* ================================================================== *)
(** * The rule table of a run *)
(* ================================================================== *)

Lemma key_eqb_str_r x s : key_eqb x (JStr s) = true <-> x = JStr s.
Proof.
  destruct x; simpl; try (split; [discriminate | discriminate]).
  rewrite String.eqb_eq. split; congruence.
Qed.

Lemma key_eqb_str_l x s : key_eqb (JStr s) x = true <-> x = JStr s.
Proof.
  destruct x; simpl; try (split; [discriminate | discriminate]).
  rewrite String.eqb_eq. split; congruence.
Qed.

Lemma pydict_lookup_set_str s k v d :
  pydict_lookup (JStr s) (pydict_set k v d)
  = if key_eqb k (JStr s) then Some v else pydict_lookup (JStr s) d.
Proof.
  induction d as [| [k' v'] d IH]; simpl; [done |].
  destruct (key_eqb k' k) eqn:Ekk; simpl.
  - destruct (key_eqb k (JStr s)) eqn:Eks.
    + apply key_eqb_str_r in Eks as ->. apply key_eqb_str_r in Ekk as ->.
      simpl. by rewrite String.eqb_refl.
    + destruct (key_eqb k' (JStr s)) eqn:Ek's; [| done].
      apply key_eqb_str_r in Ek's as ->. apply key_eqb_str_l in Ekk as ->.
      simpl in Eks. by rewrite String.eqb_refl in Eks.
  - rewrite IH. destruct (key_eqb k' (JStr s)) eqn:Ek's; [| done].
    destruct (key_eqb k (JStr s)) eqn:Eks; [| done].
    apply key_eqb_str_r in Ek's as ->. apply key_eqb_str_r in Eks as ->.
    simpl in Ekk. by rewrite String.eqb_refl in Ekk.
Qed.

Lemma find_app {A} (p : A -> bool) (l1 l2 : list A) :
  List.find p (l1 ++ l2)
  = match List.find p l1 with
    | Some x => Some x
    | None => List.find p l2
    end.
Proof.
  induction l1 as [| x l1 IH]; simpl; [done |]. by destruct (p x).
Qed.

Lemma rules_of_lookup rs acc rules s :
  rules_of rs acc = Ok rules ->
  pydict_lookup (JStr s) rules
  = match List.find (rule_has_id s) (rev rs) with
    | Some r => Some r
    | None => pydict_lookup (JStr s) acc
    end.
Proof.
  revert acc. induction rs as [| r rs IH]; intros acc; simpl.
  - by intros [= <-].
  - intros H. bind_inv H as k Ek.
    destruct (hashable k) eqn:Hk; [| discriminate].
    rewrite (IH _ H), find_app. simpl.
    destruct (List.find (rule_has_id s) (rev rs)); [done |].
    rewrite pydict_lookup_set_str. unfold rule_has_id. rewrite Ek.
    destruct (key_eqb k (JStr s)) eqn:Eks.
    + apply key_eqb_str_r in Eks as ->. by rewrite String.eqb_refl.
    + destruct k; try done.
      simpl in Eks. by rewrite Eks.
Qed.

(** X10. When several rules of a run carry the same id, the table of
    the run keeps the last of them: a result is matched with the last
    rule of [rules] that has its [ruleId], and with none when no rule
    has it. *)
Theorem rules_of_last_wins (rs : list json) (rules : pydict) (s : string) :
  rules_of rs [] = Ok rules ->
  pydict_lookup (JStr s) rules = List.find (rule_has_id s) (rev rs).
Proof.
  intros H. rewrite (rules_of_lookup _ _ _ s H).
  by destruct (List.find (rule_has_id s) (rev rs)).
Qed.

(** Two rules under one id: the second is the one looked up. *)
Lemma second_rule_shadows_first :
  exists rules,
    rules_of [JObj [("id", JStr "R1"); ("name", JStr "old")];
              JObj [("id", JStr "R1"); ("name", JStr "new")]] [] = Ok rules
    /\ pydict_lookup (JStr "R1") rules
       = Some (JObj [("id", JStr "R1"); ("name", JStr "new")]).
Proof.
  eexists. split; [reflexivity |].
  exact (rules_of_last_wins
           [JObj [("id", JStr "R1"); ("name", JStr "old")];
            JObj [("id", JStr "R1"); ("name", JStr "new")]] _ "R1" eq_refl).
Defined.

(* ================================================================== *)
(** * What a silent or a foreign document gives *)
(* ================================================================== *)

Lemma first_raise_None_oks {A} (outs : list (result A)) :
  first_raise outs = None -> map Ok (oks_before_raise outs) = outs.
Proof.
  induction outs as [| [a | e] outs IH]; simpl; [done | | discriminate].
  intros H. by rewrite IH.
Qed.

Lemma stop_at_first_raise_silent name f outs :
  length (snd (stop_at_first_raise name f outs)) <= 1
  /\ (snd (stop_at_first_raise name f outs) = [] ->
      map Ok (fst (stop_at_first_raise name f outs)) = outs).
Proof.
  unfold stop_at_first_raise. simpl.
  destruct (first_raise outs) eqn:Ef; simpl.
  - split; [lia | discriminate].
  - split; [lia |]. intros _. by apply first_raise_None_oks.
Qed.

(** X11. An adapter prints at most one line for a document, and when it
    prints none the document was read to its end: its findings are, in
    order, the findings of all its items, with none left out. *)
Theorem silent_parse_is_complete (B : builtins) (f : file) :
  (length (snd (parse_sarif B f)) <= 1
   /\ (snd (parse_sarif B f) = [] ->
       map Ok (fst (parse_sarif B f)) = sarif_outcomes B f))
  /\ (length (snd (parse_npm_audit f)) <= 1
      /\ (snd (parse_npm_audit f) = [] ->
          map Ok (fst (parse_npm_audit f)) = npm_outcomes f))
  /\ (length (snd (parse_trivy_json B f)) <= 1
      /\ (snd (parse_trivy_json B f) = [] ->
          map Ok (fst (parse_trivy_json B f)) = trivy_outcomes B f)).
Proof.
  rewrite parse_sarif_stops, parse_npm_audit_stops, parse_trivy_json_stops.
  repeat split; apply stop_at_first_raise_silent.
Qed.

(** X12. A decoded document of another kind is taken for an empty one:
    an object without the key the adapter looks for ([runs],
    [vulnerabilities], [Results]) gives no finding and no printed line.
    A document that is no object gives no finding and the line of an
    [AttributeError]. *)
Theorem foreign_documents (B : builtins) (f : file) :
  (forall kvs,
      contents f = Ok (JObj kvs) ->
      (assoc "runs" kvs = None -> parse_sarif B f = ([], []))
      /\ (assoc "vulnerabilities" kvs = None -> parse_npm_audit f = ([], []))
      /\ (assoc "Results" kvs = None -> parse_trivy_json B f = ([], [])))
  /\ (forall data,
         contents f = Ok data ->
         is_dict data = false ->
         parse_sarif B f = ([], [ParseError "SARIF" f AttributeError])
         /\ parse_npm_audit f = ([], [ParseError "npm audit" f AttributeError])
         /\ parse_trivy_json B f = ([], [ParseError "Trivy" f AttributeError])).
Proof.
  split.
  - intros kvs Hc.
    repeat split; intros Hk;
      unfold parse_sarif, parse_npm_audit, parse_trivy_json, try_except, abind, lift;
      rewrite Hc; simpl; by rewrite Hk.
  - intros data Hc Hd.
    repeat split;
      unfold parse_sarif, parse_npm_audit, parse_trivy_json, try_except, abind, lift;
      rewrite Hc; by destruct data.
Qed.

(** An audit written by npm 6 is read as holding nothing. *)
Lemma npm6_audit_reads_as_empty :
  parse_npm_audit npm6_audit = ([], []).
Proof.
  destruct (foreign_documents sample_builtins npm6_audit) as [H _].
  exact (proj1 (proj2 (H _ eq_refl)) eq_refl).
Defined.

(* ================================================================== *)
(** * Totals, findings and recommendations of a report *)
(* ================================================================== *)

Lemma sum_values_add (m : gmap string nat) k c :
  sum_values (<[k := default 0 (m !! k) + c]> m) = sum_values m + c.
Proof.
  unfold sum_values.
  destruct (m !! k) as [n |] eqn:Ek; simpl.
  - rewrite <- (insert_delete_eq m k (n + c)).
    rewrite map_fold_insert_L; [| intros; lia | apply lookup_delete_eq].
    rewrite (map_fold_delete_L _ _ k n m); [lia | intros; lia | done].
  - rewrite map_fold_insert_L; [lia | intros; lia | done].
Qed.

Lemma sum_values_add_summary total res :
  sum_values (add_summary total res)
  = sum_values total + sum_values (summary res).
Proof.
  unfold add_summary.
  apply (map_fold_weak_ind
           (fun (r : gmap string nat) (m : gmap string nat) =>
              sum_values r = sum_values total + sum_values m)).
  - unfold sum_values at 3. rewrite map_fold_empty. lia.
  - intros i x m r Hi IH. rewrite sum_values_add, IH.
    unfold sum_values at 4.
    rewrite map_fold_insert_L; [| intros; lia | done].
    fold (sum_values m). lia.
Qed.

Lemma sum_values_foldl_add_summary rs total :
  sum_values (foldl add_summary total rs)
  = sum_values total + sum_list (map (fun r => sum_values (summary r)) rs).
Proof.
  revert total. induction rs as [| r rs IH]; intros total; simpl; [lia |].
  rewrite IH, sum_values_add_summary. lia.
Qed.

Lemma with_severity_app s l1 l2 :
  with_severity s (l1 ++ l2) = with_severity s l1 ++ with_severity s l2.
Proof. unfold with_severity. apply filter_app. Qed.

Lemma recorded_counts s rs :
  Forall recorded rs ->
  sum_list (map (fun r => default 0 (summary r !! s)) rs)
  = length (with_severity s (flat_map vulnerabilities rs))
  /\ sum_list (map (fun r => sum_values (summary r)) rs)
     = length (flat_map vulnerabilities rs).
Proof.
  induction 1 as [| r rs [_ Hr] _ [IH1 IH2]]; simpl; [done |].
  rewrite with_severity_app, !List.length_app, IH1, IH2, Hr.
  by rewrite count_severities_lookup, count_severities_sum.
Qed.

Lemma main_report_recorded B E d report w :
  main_report B E d = (Some report, w) ->
  Forall recorded (scan_results report)
  /\ total_vulnerabilities report = foldl add_summary ∅ (scan_results report)
  /\ scan_results report
     = self_scan_results
         (fst (collect_results B E (new_generator d)
                 {| stderr := []; clock_reads := 0 |})).
Proof.
  unfold main_report.
  destruct (collect_results_recorded B E (new_generator d)
              {| stderr := []; clock_reads := 0 |}) as (new & Hn & Hrec).
  destruct (collect_results B E (new_generator d) _) as [generator w0].
  simpl in Hn. subst new.
  destruct (self_scan_results generator) as [| r0 rs] eqn:Ers; [discriminate |].
  intros [= <- _]. simpl. by rewrite Ers.
Qed.

(** X13. In the report [main] builds, the total of a severity is the
    number of findings of that severity over all scan results, and the
    totals over all severities add up to the number of findings: every
    finding is counted once. *)
Theorem totals_count_findings (B : builtins) (E : environment)
    (d : directory) (report : SecurityReport) (w : io) (s : string) :
  main_report B E d = (Some report, w) ->
  let findings := flat_map vulnerabilities (scan_results report) in
  default 0 (total_vulnerabilities report !! s)
  = length (with_severity s findings)
  /\ sum_values (total_vulnerabilities report) = length findings.
Proof.
  intros Hm findings.
  destruct (main_report_recorded B E d report w Hm) as (Hrec & -> & _).
  destruct (recorded_counts s _ Hrec) as [H1 H2].
  rewrite foldl_add_summary_lookup, lookup_empty, sum_values_foldl_add_summary.
  unfold sum_values at 1. rewrite map_fold_empty. simpl. by rewrite H1, H2.
Qed.

(** The report of the image scan: one finding, counted once. *)
Lemma image_scan_counts_one :
  exists report w,
    main_report sample_builtins sample_environment image_scan_only
    = (Some report, w)
    /\ sum_values (total_vulnerabilities report) = 1.
Proof.
  destruct (main_report sample_builtins sample_environment image_scan_only)
    as [[report |] w] eqn:Hm; [| vm_compute in Hm; discriminate Hm].
  pose proof (proj2 (totals_count_findings sample_builtins sample_environment
                       image_scan_only report w "" Hm)) as Hsum.
  exists report, w. split; [reflexivity |]. rewrite Hsum.
  vm_compute in Hm. by injection Hm as <- <-.
Defined.

Lemma critical_not_high n m : critical_message n <> high_message m.
Proof. discriminate. Qed.

Lemma critical_not_sast n : critical_message n <> sast_message.
Proof. discriminate. Qed.

Lemma high_not_sast n : high_message n <> sast_message.
Proof. discriminate. Qed.

(** X14. The recommendations of a report are never empty and hold at
    most three messages, in the order urgent, 7-day, coverage.  The
    urgent message stands first exactly when the CRITICAL total of the
    report is positive, and names that total; the 7-day message is
    present exactly when the HIGH total is positive, and names it; the
    coverage message is present exactly when no scanner name contains
    [semgrep]. *)
Theorem recommendations_follow_totals (E : environment)
    (self : ReportGenerator) (w : io) :
  let report := fst (generate_report E self w) in
  let recs := recommendations report in
  let c := default 0 (total_vulnerabilities report !! "CRITICAL") in
  let h := default 0 (total_vulnerabilities report !! "HIGH") in
  (1 <= length recs <= 3)
  /\ (recs = [reassurance_message]
      \/ recs `sublist_of` [critical_message c; high_message h; sast_message])
  /\ (0 < c <-> head recs = Some (critical_message c))
  /\ (0 < h <-> In (high_message h) recs)
  /\ (In sast_message recs
      <-> Forall (fun r => str_contains "semgrep" (lower (scanner r)) = false)
                 (scan_results report)).
Proof.
  cbn [fst generate_report recommendations total_vulnerabilities scan_results].
  rewrite !foldl_add_summary_lookup, !lookup_empty.
  cbn [default Nat.add]. rewrite <- !sum_summaries_sum_list.
  unfold _generate_recommendations.
  set (rs := self_scan_results self).
  set (c := sum_summaries "CRITICAL" rs). set (h := sum_summaries "HIGH" rs).
  assert (Hsem : existsb (fun s => str_contains "semgrep" (lower s))
                         (map scanner rs) = false
                 <-> Forall (fun r => str_contains "semgrep"
                                        (lower (scanner r)) = false) rs).
  { induction rs as [| r rs' IH]; simpl.
    - split; [constructor | done].
    - rewrite Forall_cons, orb_false_iff, IH. tauto. }
  rewrite <- Hsem. clear Hsem.
  destruct (Nat.ltb_spec 0 c) as [Hc | Hc];
    destruct (Nat.ltb_spec 0 h) as [Hh | Hh];
    destruct (existsb _ (map scanner rs)); cbn [negb app length head];
    (split; [lia |]);
    (split; [first [ by left | right ] |]).
  all: try solve [repeat first [ apply sublist_skip; solve [repeat constructor]
                               | apply sublist_cons
                               | apply sublist_skip
                               | apply sublist_nil ]].
  all: repeat split; try done; try lia; try tauto;
    try (intros H; exfalso; simpl in H;
         repeat match type of H with
                | _ \/ _ => destruct H as [H | H]; [discriminate H |]
                end;
         exact H).
  all: try (intros [=]; discriminate).
  all: try (intros; simpl; tauto).
Qed.

Lemma lower_idempotent_ascii c : ascii_lower (ascii_lower c) = ascii_lower c.
Proof. destruct c as [[] [] [] [] [] [] [] []]; reflexivity. Qed.

Lemma lower_upper_ascii c : ascii_lower (ascii_upper c) = ascii_lower c.
Proof. destruct c as [[] [] [] [] [] [] [] []]; reflexivity. Qed.

Lemma lower_upper s : lower (upper s) = lower s.
Proof.
  unfold lower, upper. induction s as [| c s IH]; simpl; [done |].
  by rewrite lower_upper_ascii, IH.
Qed.

(** X15. The recommendations read the scanner names without regard to
    the case of their ASCII letters: two generators whose scan results
    have the same summaries, and names that differ in case only, get the
    same recommendations.  A scan named [SEMGREP] counts like one named
    [semgrep]. *)
Theorem recommendations_ignore_case (self1 self2 : ReportGenerator) :
  Forall2 (fun r1 r2 => lower (scanner r1) = lower (scanner r2)
                        /\ summary r1 = summary r2)
          (self_scan_results self1) (self_scan_results self2) ->
  _generate_recommendations self1 = _generate_recommendations self2.
Proof.
  intros H. unfold _generate_recommendations.
  assert (Hsum : forall key,
             sum_summaries key (self_scan_results self1)
             = sum_summaries key (self_scan_results self2)).
  { intros key. induction H as [| r1 r2 l1 l2 [_ Hs] _ IH]; simpl; [done |].
    by rewrite IH, Hs. }
  assert (Hex : existsb (fun s => str_contains "semgrep" (lower s))
                        (map scanner (self_scan_results self1))
                = existsb (fun s => str_contains "semgrep" (lower s))
                          (map scanner (self_scan_results self2))).
  { clear Hsum.
    induction H as [| r1 r2 l1 l2 [Hn _] _ IH]; cbn [existsb map]; [done |].
    by rewrite IH, Hn. }
  by rewrite !Hsum, Hex.
Qed.

(** Scenario D with its scanner named [SEMGREP-RESULTS]. *)
Lemma capitals_reassure_too :
  _generate_recommendations scenario_d_capitals = [reassurance_message].
Proof.
  rewrite (recommendations_ignore_case scenario_d_capitals scenario_d).
  - reflexivity.
  - repeat constructor.
Defined.

(* ================================================================== *)
(** * The entry point *)
(* ================================================================== *)

Lemma flat_map_nil_iff {A C} (g : A -> list C) (xs : list A) :
  flat_map g xs = [] <-> Forall (fun x => g x = []) xs.
Proof.
  induction xs as [| x xs IH]; simpl.
  - split; [constructor | done].
  - rewrite Forall_cons, <- IH. split.
    + by intros [? ?]%app_eq_nil.
    + intros [-> ->]. done.
Qed.

Lemma contribution_nil_iff parse scanner_of f :
  contribution parse scanner_of f = [] <-> fst (parse f) = [].
Proof. unfold contribution. by destruct (fst (parse f)). Qed.

Lemma trivy_contribution_nil_iff B f :
  trivy_contribution B f = []
  <-> (suffix f = ".json" -> fst (parse_trivy_json B f) = []).
Proof.
  unfold trivy_contribution.
  destruct (String.eqb_spec (suffix f) ".json") as [-> | Hne].
  - rewrite contribution_nil_iff. tauto.
  - tauto.
Qed.

Lemma nothing_collected_iff B E d w :
  self_scan_results (fst (collect_results B E (new_generator d) w)) = []
  <-> dir_exists d = false
      \/ (Forall (fun f => fst (parse_sarif B f) = []) (sarif_files d)
          /\ Forall (fun f => fst (parse_npm_audit f) = []) (npm_files d)
          /\ Forall (fun f => suffix f = ".json" ->
                              fst (parse_trivy_json B f) = [])
                    (trivy_files d)).
Proof.
  destruct (dir_exists d) eqn:Hd.
  - pose proof (collect_results_extends B E (new_generator d) w Hd) as H.
    cbv zeta in H.
    destruct (collect_results B E (new_generator d) w) as [self' w'].
    destruct H as (_ & new & Hnew & Hent & _). simpl in Hnew |- *.
    rewrite Hnew.
    assert (Hn : new = [] <-> map untimed new = [])
      by (destruct new; split; (done || discriminate)).
    rewrite Hn, Hent. clear.
    split.
    + intros (H1 & (H2 & H3)%app_eq_nil)%app_eq_nil. right.
      rewrite flat_map_nil_iff in H1, H2, H3. repeat split.
      * eapply Forall_impl; [exact H1 |]. intros f. apply contribution_nil_iff.
      * eapply Forall_impl; [exact H2 |]. intros f. apply contribution_nil_iff.
      * eapply Forall_impl; [exact H3 |]. intros f.
        apply trivy_contribution_nil_iff.
    + intros [[=] | (H1 & H2 & H3)].
      assert (E1 : flat_map (contribution (parse_sarif B) stem) (sarif_files d) = []).
      { apply flat_map_nil_iff. eapply Forall_impl; [exact H1 |].
        intros f. apply contribution_nil_iff. }
      assert (E2 : flat_map (contribution parse_npm_audit (fun _ => "npm-audit"))
                            (npm_files d) = []).
      { apply flat_map_nil_iff. eapply Forall_impl; [exact H2 |].
        intros f. apply contribution_nil_iff. }
      assert (E3 : flat_map (trivy_contribution B) (trivy_files d) = []).
      { apply flat_map_nil_iff. eapply Forall_impl; [exact H3 |].
        intros f. apply trivy_contribution_nil_iff. }
      simpl. by rewrite E1, E2, E3.
  - unfold collect_results. simpl. rewrite Hd. simpl. split; auto.
Qed.

Section MainLemmas.
Context (B : builtins) (E : environment).
Context (output_json : SecurityReport -> string) (writable : string -> bool).

Lemma main_report_None d :
  fst (main_report B E d) = None
  <-> self_scan_results
        (fst (collect_results B E (new_generator d)
                {| stderr := []; clock_reads := 0 |})) = [].
Proof.
  unfold main_report.
  destruct (collect_results B E (new_generator d) _) as [generator w].
  simpl. destruct (self_scan_results generator); simpl; split; done.
Qed.

Lemma main_exit_iff args :
  run_termination (main B E output_json writable args) = SysExit 1
  <-> fst (main_report B E (args_input_dir args)) = None.
Proof.
  unfold main.
  destruct (main_report B E (args_input_dir args)) as [[report |] w]; simpl.
  - split; [| discriminate].
    destruct (match args_output args with
              | FormatJson => Ok (output_json report)
              | _ => output_markdown B report
              end) as [text | e]; simpl; [| discriminate].
    destruct (args_output_file args) as [[| c path] |]; simpl;
      try discriminate.
    destruct (writable (String c path)); discriminate.
  - split; done.
Qed.
End MainLemmas.

(** X16. [main] ends with [sys.exit(1)] exactly when no scan result was
    collected: the input directory does not exist, or no discovered
    document yields a finding.  It then prints no report and writes no
    file, and the last line on [stderr] says that no scan result was
    found; for a missing directory that line follows the one that
    reports the directory. *)
Theorem main_fails_iff_nothing_found (B : builtins) (E : environment)
    (output_json : SecurityReport -> string) (writable : string -> bool)
    (args : arguments) :
  let d := args_input_dir args in
  let r := main B E output_json writable args in
  (run_termination r = SysExit 1
   <-> dir_exists d = false
       \/ (Forall (fun f => fst (parse_sarif B f) = []) (sarif_files d)
           /\ Forall (fun f => fst (parse_npm_audit f) = []) (npm_files d)
           /\ Forall (fun f => suffix f = ".json" ->
                               fst (parse_trivy_json B f) = [])
                     (trivy_files d)))
  /\ (run_termination r = SysExit 1 ->
      run_stdout r = [] /\ run_files r = []
      /\ exists printed, run_stderr r = printed ++ [NoScanResults])
  /\ (dir_exists d = false ->
      r = {| run_termination := SysExit 1; run_stdout := [];
             run_stderr := [MissingInputDir; NoScanResults];
             run_files := [] |}).
Proof.
  intros d r. split; [| split].
  - subst r. rewrite main_exit_iff, main_report_None. apply nothing_collected_iff.
  - intros Hx. apply main_exit_iff in Hx. subst r. unfold main.
    fold d in Hx |- *. unfold main_report in *.
    destruct (collect_results B E (new_generator d) _) as [generator w].
    destruct (self_scan_results generator); [| discriminate].
    simpl. eauto.
  - intros Hd. subst r. unfold main, main_report, collect_results.
    fold d. simpl. rewrite Hd. reflexivity.
Qed.

(** The choice [html] of [--output] renders Markdown: a run that asks
    for [html] is, in all it prints and writes, the run that asks for
    [markdown]. *)
Lemma html_is_markdown (B : builtins) (E : environment)
    (output_json : SecurityReport -> string) (writable : string -> bool)
    (d : directory) (output_file : option string) :
  main B E output_json writable
    {| args_input_dir := d; args_output := FormatHtml;
       args_output_file := output_file |}
  = main B E output_json writable
      {| args_input_dir := d; args_output := FormatMarkdown;
         args_output_file := output_file |}.
Proof. reflexivity. Qed.



(* ================================================================== *)
(** * Slices and time stamps *)
(* ================================================================== *)

Lemma str_take_length n s : String.length (str_take n s) <= n.
Proof.
  revert s. induction n as [| n IH]; intros [| c s]; simpl; try lia.
  specialize (IH s). lia.
Qed.

Lemma str_take_prefix n s : String.prefix (str_take n s) s = true.
Proof.
  revert s. induction n as [| n IH]; intros [| c s]; simpl; try done.
  destruct (Ascii.ascii_dec c c); [apply IH | done].
Qed.

Lemma str_take_short n s : String.length s <= n -> str_take n s = s.
Proof.
  revert s. induction n as [| n IH]; intros [| c s]; simpl; try done; try lia.
  intros H. f_equal. apply IH. lia.
Qed.

(** X18. The Markdown entry of a finding shows its remediation cut to
    its first 100 characters, on one line that starts with [- Fix:]; a
    finding with the empty remediation has no such line. *)
Theorem markdown_fix_line_is_cut (B : builtins) (v : Vulnerability)
    (ls : list string) (r : string) :
  markdown_vuln B [] v = Ok ls ->
  remediation v = JStr r ->
  (r <> "" -> In ("  - Fix: " +:+ str_take 100 r) ls)
  /\ (r = "" -> Forall (fun l => startswith l "  - Fix: " = false) ls)
  /\ String.length (str_take 100 r) <= 100
  /\ String.prefix (str_take 100 r) r = true
  /\ (String.length r <= 100 -> str_take 100 r = r).
Proof.
  intros H Hr. unfold markdown_vuln in H. rewrite Hr in H.
  split; [| split; [| split; [| split]]].
  - intros Hne. cbn [truthy] in H.
    destruct (String.eqb_spec r "") as [Heq | _]; [by destruct Hne |].
    cbn in H.
    destruct (truthy (file_path v)); injection H as <-; simpl; auto.
  - intros ->. cbn in H.
    destruct (truthy (file_path v)); injection H as <-;
      repeat constructor.
  - apply str_take_length.
  - apply str_take_prefix.
  - apply str_take_short.
Qed.

(** A short remediation is shown whole. *)
Lemma short_fix_is_shown_whole :
  exists ls,
    markdown_vuln sample_builtins [] fixable_finding = Ok ls
    /\ In "  - Fix: Use parameterised queries" ls.
Proof.
  eexists. split; [reflexivity |].
  exact (proj1 (markdown_fix_line_is_cut sample_builtins fixable_finding _
                  "Use parameterised queries" eq_refl eq_refl)
               ltac:(discriminate)).
Defined.

Lemma str_take_length_min n s :
  String.length (str_take n s) = Nat.min n (String.length s).
Proof.
  revert s. induction n as [| n IH]; intros [| c s]; simpl; try done.
  by rewrite IH.
Qed.

(** X19. The commit of a report is the first 8 characters of
    [GITHUB_SHA]: an initial part of it that is 8 characters long when
    the value has 8 or more, and the whole value when it has fewer.  It
    is [unknown] when the variable is not set. *)
Theorem commit_is_short (E : environment) (self : ReportGenerator) (w : io) :
  let report := fst (generate_report E self w) in
  let sha := default "unknown" (environ E !! "GITHUB_SHA") in
  String.length (commit report) = Nat.min 8 (String.length sha)
  /\ String.prefix (commit report) sha = true
  /\ String.length (commit report) <= 8
  /\ (String.length sha <= 8 -> commit report = sha)
  /\ (8 <= String.length sha -> String.length (commit report) = 8)
  /\ (environ E !! "GITHUB_SHA" = None -> commit report = "unknown").
Proof.
  cbn [fst generate_report commit].
  split; [apply str_take_length_min |].
  split; [apply str_take_prefix |].
  split; [apply str_take_length |].
  split; [apply str_take_short |].
  split; [intros H; rewrite str_take_length_min; lia |].
  by intros ->.
Qed.

Lemma stamped_refl E st : stamped E st st.
Proof. exists []. simpl. rewrite app_nil_r. split; [done |]. split; [done | lia]. Qed.

Lemma stamped_trans E st1 st2 st3 :
  stamped E st1 st2 -> stamped E st2 st3 -> stamped E st1 st3.
Proof.
  intros (n1 & A1 & B1 & C1) (n2 & A2 & B2 & C2).
  exists (n1 ++ n2). rewrite A2, A1, C2, C1, map_app, B1, B2, C1.
  rewrite List.length_app, seq_app, map_app, app_assoc.
  split; [done |]. split; [done | lia].
Qed.

Lemma collect_file_stamped E parse scanner_of st f :
  stamped E st (collect_file E parse scanner_of st f).
Proof.
  destruct st as [rs w]. unfold collect_file.
  destruct (parse f) as [[| v vs] printed]; simpl.
  - exists []. simpl. rewrite app_nil_r. split; [done |]. split; [done | lia].
  - eexists [_]. simpl. split; [done |]. split; [done | lia].
Qed.

Lemma foldl_stamped E step (fs : list file) :
  (forall st f, stamped E st (step st f)) ->
  forall st, stamped E st (foldl step st fs).
Proof.
  intros Hstep. induction fs as [| f fs IH]; intros st; simpl.
  - apply stamped_refl.
  - eapply stamped_trans; [apply Hstep | apply IH].
Qed.

Lemma collect_results_stamped B E self w :
  stamped E (self_scan_results self, w)
          (self_scan_results (fst (collect_results B E self w)),
           snd (collect_results B E self w)).
Proof.
  unfold collect_results. destruct (dir_exists (input_dir self)); simpl.
  - rewrite <- surjective_pairing.
    eapply stamped_trans;
      [apply foldl_stamped; intros; apply collect_file_stamped |].
    eapply stamped_trans;
      [apply foldl_stamped; intros; apply collect_file_stamped |].
    apply foldl_stamped. intros st f.
    destruct (String.eqb (suffix f) ".json");
      [apply collect_file_stamped | apply stamped_refl].
  - exists []. simpl. rewrite app_nil_r. split; [done |]. split; [done | lia].
Qed.

(** X20. The scan results of a report carry successive readings of the
    clock in the order they were collected, the first reading for the
    first scan result, and the report itself carries the reading that
    follows them: no scan result is stamped after the report. *)
Theorem timestamps_in_collection_order (B : builtins) (E : environment)
    (d : directory) (report : SecurityReport) (w : io) :
  main_report B E d = (Some report, w) ->
  let n := length (scan_results report) in
  map timestamp (scan_results report) = map (now_iso E) (seq 0 n)
  /\ generated_at report = now_iso E n
  /\ clock_reads w = S n.
Proof.
  unfold main_report.
  pose proof (collect_results_stamped B E (new_generator d)
                {| stderr := []; clock_reads := 0 |}) as (new & Hn & Ht & Hc).
  destruct (collect_results B E (new_generator d) _) as [generator w0].
  simpl in Hn, Ht, Hc. subst new.
  destruct (self_scan_results generator) as [| r rs] eqn:Ers; [discriminate |].
  intros [= <- <-]. cbn [scan_results generated_at clock_reads generate_report fst snd].
  rewrite Ers. rewrite Hc. auto.
Qed.

(** The image scan: one scan result at reading 0, the report at 1. *)
Lemma image_scan_is_stamped :
  exists report w,
    main_report sample_builtins sample_environment image_scan_only
    = (Some report, w)
    /\ map timestamp (scan_results report) = ["2024-01-01T00:00:00"]
    /\ generated_at report = "2024-01-01T00:00:01".
Proof.
  destruct (main_report sample_builtins sample_environment image_scan_only)
    as [[report |] w] eqn:Hm; [| vm_compute in Hm; discriminate Hm].
  destruct (timestamps_in_collection_order sample_builtins sample_environment
              image_scan_only report w Hm) as (Ht & Hg & _).
  exists report, w. split; [reflexivity |]. rewrite Ht, Hg.
  vm_compute in Hm. injection Hm as <- <-. split; reflexivity.
Defined.

(* ================================================================== *)
(** * The example application *)
(* ================================================================== *)

Lemma py_slice_Ok n x y :
  py_slice n x = Ok y ->
  sliceable x = true /\ sliceable y = true /\ field_length y <= n.
Proof.
  destruct x; cbn [py_slice]; intros H; try discriminate H;
    injection H as <-; cbn [sliceable field_length]; repeat split.
  - apply str_take_length.
  - rewrite length_take. lia.
Qed.

Lemma py_slice_sliceable n x :
  sliceable x = true -> exists y, py_slice n x = Ok y.
Proof. destruct x; cbn; intros H; try discriminate H; eauto. Qed.

(** What [create_item] does, by cases. *)
Lemma create_item_cases data st :
  (exists e, create_item data st = (Raise e, st))
  \/ (create_item data st
      = (Ok {| status := 400;
               body := JObj [("error", JStr "Name is required")] |}, st)
      /\ (truthy data = false \/ py_contains "name" data = Ok false))
  \/ (exists kvs raw_name name description,
        data = JObj kvs
        /\ assoc "name" kvs = Some raw_name
        /\ py_slice 100 raw_name = Ok name
        /\ py_slice 500 (default (JStr "") (assoc "description" kvs))
           = Ok description
        /\ create_item data st
           = (Ok {| status := 201;
                    body := item_json {| item_id := length (items st) + 1;
                                         item_name := name;
                                         item_description := description |} |},
              {| items := items st
                          ++ [{| item_id := length (items st) + 1;
                                 item_name := name;
                                 item_description := description |}];
                 logged := logged st
                           ++ ["Created item: "
                               +:+ pretty (length (items st) + 1)] |})).
Proof.
  unfold create_item.
  destruct (truthy data) eqn:Ht; cbn [negb]; [| right; left; split; [reflexivity | by left]].
  destruct (py_contains "name" data) as [named | e] eqn:Hc; cbn [rbind];
    [| left; by exists e].
  destruct named; cbn [negb]; [| right; left; split; [reflexivity | by right]].
  destruct (py_getitem data "name") as [raw_name | e] eqn:Hg; cbn [rbind];
    [| left; by exists e].
  destruct data as [| | | | | | kvs]; try discriminate Hg.
  cbn [py_getitem] in Hg.
  destruct (assoc "name" kvs) as [v |] eqn:Ha; [| discriminate Hg].
  injection Hg as ->.
  destruct (py_slice 100 raw_name) as [name | e] eqn:Hn; cbn [rbind];
    [| left; by exists e].
  cbn [py_get rbind].
  destruct (py_slice 500 (default (JStr "") (assoc "description" kvs)))
    as [description | e] eqn:Hd; cbn [rbind]; [| left; by exists e].
  right; right. exists kvs, raw_name, name, description.
  repeat split; try assumption.
Qed.

(** How one request changes the stored items. *)
Lemma serve_one_items st rq :
  items (serve_one st rq) = items st
  \/ (exists data name description,
        rq = CreateItem data
        /\ sliceable name = true /\ field_length name <= 100
        /\ sliceable description = true /\ field_length description <= 500
        /\ items (serve_one st rq)
           = items st ++ [{| item_id := length (items st) + 1;
                             item_name := name;
                             item_description := description |}])
  \/ (exists unwanted,
        rq = DeleteItem unwanted
        /\ items (serve_one st rq)
           = List.filter (fun i => negb (item_id i =? unwanted)%nat)
                         (items st)).
Proof.
  destruct rq as [| data | wanted | unwanted]; unfold serve_one.
  - by left.
  - destruct (create_item_cases data st)
      as [[e ->] | [[-> _] | (kvs & raw & name & description & -> & _ & Hn & Hd & ->)]];
      [by left | by left |].
    right; left. exists (JObj kvs), name, description.
    apply py_slice_Ok in Hn as (_ & ? & ?).
    apply py_slice_Ok in Hd as (_ & ? & ?).
    repeat split; assumption.
  - left. unfold get_item. by destruct (List.find _ _).
  - right; right. exists unwanted. split; [reflexivity |].
    unfold delete_item. by destruct (_ =? _)%nat.
Qed.

Lemma serve_app requests requests' st :
  serve (requests ++ requests') st = serve requests' (serve requests st).
Proof. unfold serve. apply foldl_app. Qed.

Lemma Forall_filter_keep {A} (P : A -> Prop) (f : A -> bool) l :
  Forall P l -> Forall P (List.filter f l).
Proof.
  induction 1 as [| x l Hx _ IH]; cbn; [constructor |].
  destruct (f x); [by constructor | assumption].
Qed.

(** X21 (create_item): a request body is stored, with status 201, exactly
    when it is an object whose [name] is a string or a list and whose
    [description], if it has one, is a string or a list: the item
    appended to [items] then has the next id, the first 100 characters or
    elements of the name and the first 500 of the description, it is the
    body of the answer, and nothing else in [items] changes.  The body is
    refused with status 400 exactly when it is empty, zero, false or
    null, or an object, list or string without [name].  Every other
    body, an object with a number for a name for one, makes the view
    raise.  A refusal and an exception leave the state as it was. *)
Theorem create_item_validation (data : json) (st : app_state) :
  ((exists r st', create_item data st = (Ok r, st') /\ status r = 201)
   <-> exists kvs raw_name,
         data = JObj kvs
         /\ assoc "name" kvs = Some raw_name
         /\ sliceable raw_name = true
         /\ sliceable (default (JStr "") (assoc "description" kvs)) = true)
  /\ ((exists r st', create_item data st = (Ok r, st') /\ status r = 400)
      <-> truthy data = false \/ py_contains "name" data = Ok false)
  /\ (forall r st',
        create_item data st = (Ok r, st') -> status r = 201 \/ status r = 400)
  /\ (forall r st',
        create_item data st = (Ok r, st') -> status r = 201 ->
        exists kvs raw_name new_item,
          data = JObj kvs
          /\ assoc "name" kvs = Some raw_name
          /\ py_slice 100 raw_name = Ok (item_name new_item)
          /\ py_slice 500 (default (JStr "") (assoc "description" kvs))
             = Ok (item_description new_item)
          /\ item_id new_item = length (items st) + 1
          /\ body r = item_json new_item
          /\ items st' = items st ++ [new_item]
          /\ logged st'
             = logged st ++ ["Created item: " +:+ pretty (item_id new_item)])
  /\ (forall r st',
        create_item data st = (Ok r, st') -> status r = 400 ->
        st' = st /\ body r = JObj [("error", JStr "Name is required")])
  /\ (forall e st', create_item data st = (Raise e, st') -> st' = st).
Proof.
  split; [| split; [| split; [| split; [| split]]]]; [split | split | | | |].
  - intros (r & st' & Hc & Hs).
    destruct (create_item_cases data st)
      as [[e He] | [[H4 _] | (kvs & raw & name & description & -> & Ha & Hn & Hd & _)]].
    + rewrite He in Hc. discriminate Hc.
    + rewrite H4 in Hc. injection Hc as <- _. discriminate Hs.
    + exists kvs, raw. apply py_slice_Ok in Hn as (? & _).
      apply py_slice_Ok in Hd as (? & _). by repeat split.
  - intros (kvs & raw & -> & Ha & Hn & Hd).
    destruct (py_slice_sliceable 100 _ Hn) as [name Hname].
    destruct (py_slice_sliceable 500 _ Hd) as [description Hdescription].
    assert (Ht : truthy (JObj kvs) = true) by (by destruct kvs).
    unfold create_item. rewrite Ht.
    cbn [negb py_contains py_getitem py_get rbind]. rewrite Ha.
    rewrite bool_decide_eq_true_2 by eauto.
    cbn [negb rbind]. rewrite Hname. cbn [rbind]. rewrite Hdescription.
    cbn [rbind]. eexists _, _. split; reflexivity.
  - intros (r & st' & Hc & Hs).
    destruct (create_item_cases data st)
      as [[e He] | [[_ H4] | (kvs & raw & name & description & _ & _ & _ & _ & H2)]].
    + rewrite He in Hc. discriminate Hc.
    + exact H4.
    + rewrite H2 in Hc. injection Hc as <- _. discriminate Hs.
  - intros H. unfold create_item.
    destruct (truthy data); cbn [negb]; [| eexists _, _; split; reflexivity].
    destruct H as [H | ->]; [discriminate H |].
    cbn [rbind negb]. eexists _, _; split; reflexivity.
  - intros r st' Hc.
    destruct (create_item_cases data st)
      as [[e He] | [[H4 _] | (kvs & raw & name & description & _ & _ & _ & _ & H2)]].
    + rewrite He in Hc. discriminate Hc.
    + rewrite H4 in Hc. injection Hc as <- _. by right.
    + rewrite H2 in Hc. injection Hc as <- _. by left.
  - intros r st' Hc Hs.
    destruct (create_item_cases data st)
      as [[e He] | [[H4 _] | (kvs & raw & name & description & -> & Ha & Hn & Hd & H2)]].
    + rewrite He in Hc. discriminate Hc.
    + rewrite H4 in Hc. injection Hc as <- _. discriminate Hs.
    + rewrite H2 in Hc. injection Hc as <- <-.
      exists kvs, raw,
        {| item_id := length (items st) + 1; item_name := name;
           item_description := description |}.
      cbn [item_id item_name item_description body items logged].
      by repeat split.
  - intros r st' Hc Hs.
    destruct (create_item_cases data st)
      as [[e He] | [[H4 _] | (kvs & raw & name & description & _ & _ & _ & _ & H2)]].
    + rewrite He in Hc. discriminate Hc.
    + rewrite H4 in Hc. by injection Hc as <- <-.
    + rewrite H2 in Hc. injection Hc as <- _. discriminate Hs.
  - intros e st' Hc.
    destruct (create_item_cases data st)
      as [[e' He] | [[H4 _] | (kvs & raw & name & description & _ & _ & _ & _ & H2)]].
    + rewrite He in Hc. by injection Hc as _ <-.
    + rewrite H4 in Hc. discriminate Hc.
    + rewrite H2 in Hc. discriminate Hc.
Qed.

(** X22 (create_item, delete_item): whatever requests a fresh process has
    served, every stored name is a string or a list of at most 100
    characters or elements, and every stored description one of at most
    500. *)
Theorem stored_fields_are_bounded (requests : list request) :
  Forall (fun i =>
            sliceable (item_name i) = true
            /\ field_length (item_name i) <= 100
            /\ sliceable (item_description i) = true
            /\ field_length (item_description i) <= 500)
         (items (serve requests fresh)).
Proof.
  induction requests as [| rq requests IH] using rev_ind; [constructor |].
  rewrite serve_app. cbn [serve foldl].
  fold (serve requests fresh).
  destruct (serve_one_items (serve requests fresh) rq)
    as [-> | [(data & name & description & _ & ? & ? & ? & ? & ->)
             | (unwanted & _ & ->)]].
  - exact IH.
  - apply Forall_app. split; [exact IH |].
    constructor; [| constructor]. by repeat split.
  - by apply Forall_filter_keep.
Qed.

Lemma serve_keeps_counting requests st :
  forallb keeps_items requests = true ->
  map item_id (items st) = seq 1 (length (items st)) ->
  map item_id (items (serve requests st))
  = seq 1 (length (items (serve requests st))).
Proof.
  revert st. induction requests as [| rq requests IH]; intros st Hk Hst;
    [exact Hst |].
  cbn [forallb] in Hk. apply andb_prop in Hk as [Hrq Hk].
  cbn [serve foldl]. apply (IH _ Hk).
  destruct (serve_one_items st rq)
    as [-> | [(data & name & description & _ & _ & _ & _ & _ & ->)
             | (unwanted & -> & _)]].
  - exact Hst.
  - rewrite map_app, length_app, Hst. cbn [map length item_id].
    rewrite seq_app. cbn [seq]. do 2 f_equal. lia.
  - discriminate Hrq.
Qed.

(** X23 (create_item): as long as nothing is deleted, the items of a
    fresh process carry the ids 1, 2, 3, ... in the order they were
    created. *)
Theorem ids_count_up (requests : list request) :
  forallb keeps_items requests = true ->
  map item_id (items (serve requests fresh))
  = seq 1 (length (items (serve requests fresh))).
Proof. intros Hk. by apply serve_keeps_counting. Qed.

Lemma two_items_get_ids_1_and_2 :
  map item_id
      (items (serve [CreateItem (JObj [("name", JStr "a")]); GetItems;
                     CreateItem (JObj [("name", JStr "b")])] fresh))
  = [1; 2].
Proof.
  exact (ids_count_up [CreateItem (JObj [("name", JStr "a")]); GetItems;
                       CreateItem (JObj [("name", JStr "b")])] eq_refl).
Defined.

Lemma find_app_l {A} (f : A -> bool) l l' x :
  List.find f l = Some x -> List.find f (l ++ l') = Some x.
Proof.
  induction l as [| y l IH]; cbn; [discriminate |].
  destruct (f y); [trivial | exact IH].
Qed.

Lemma find_app_r {A} (f : A -> bool) l l' :
  List.find f l = None -> List.find f (l ++ l') = List.find f l'.
Proof.
  induction l as [| y l IH]; cbn; [trivial |].
  destruct (f y); [discriminate | exact IH].
Qed.

(** X24 (create_item, get_item, delete_item): an id is the number of
    stored items plus one, so after a deletion it can be one that is
    taken.  [get_item] answers with the first item of that id: asked for
    the id of the item just created, it returns that item if no older one
    has the id, and an older item if one has. *)
Theorem get_item_after_create (data : json) (st st' : app_state)
  (r : response) :
  create_item data st = (Ok r, st') ->
  status r = 201 ->
  exists found,
    get_item (length (items st) + 1) st'
    = (Ok {| status := 200; body := item_json found |}, st')
    /\ if existsb (fun i => item_id i =? length (items st) + 1)%nat (items st)
       then In found (items st)
       else body r = item_json found.
Proof.
  intros Hc Hs.
  destruct (create_item_cases data st)
    as [[e He] | [[H4 _] | (kvs & raw & name & description & _ & _ & _ & _ & H2)]].
  - rewrite He in Hc. discriminate Hc.
  - rewrite H4 in Hc. injection Hc as <- _. discriminate Hs.
  - rewrite H2 in Hc. injection Hc as <- <-. clear H2 Hs.
    unfold get_item. cbn [items].
    destruct (List.find (fun i => item_id i =? length (items st) + 1)%nat
                        (items st)) as [old |] eqn:Hf.
    + rewrite (find_app_l _ _ _ _ Hf). exists old. split; [reflexivity |].
      destruct (existsb _ _) eqn:Hex.
      * by apply find_some in Hf as [? _].
      * apply find_some in Hf as [Hin Hid].
        assert (existsb (fun i => item_id i =? length (items st) + 1)%nat
                        (items st) = true)
          by (apply existsb_exists; eauto).
        congruence.
    + rewrite (find_app_r _ _ _ Hf). cbn [List.find item_id].
      rewrite Nat.eqb_refl. eexists. split; [reflexivity |].
      destruct (existsb _ _) eqn:Hex; [| reflexivity].
      apply existsb_exists in Hex as (old & Hin & Hid).
      by rewrite (find_none _ _ Hf old Hin) in Hid.
Qed.

Lemma new_item_hidden_by_older_one :
  exists found,
    get_item 2 {| items := items after_a_deletion ++ [third_item];
                  logged := logged after_a_deletion ++ ["Created item: 2"] |}
    = (Ok {| status := 200; body := item_json found |},
       {| items := items after_a_deletion ++ [third_item];
          logged := logged after_a_deletion ++ ["Created item: 2"] |})
    /\ In found (items after_a_deletion).
Proof.
  exact (get_item_after_create
           (JObj [("name", JStr "c")]) after_a_deletion
           {| items := items after_a_deletion ++ [third_item];
              logged := logged after_a_deletion ++ ["Created item: 2"] |}
           {| status := 201; body := item_json third_item |}
           eq_refl eq_refl).
Defined.

Lemma filter_length_all {A} (f : A -> bool) l :
  length (List.filter f l) = length l -> List.filter f l = l.
Proof.
  induction l as [| x l IH]; cbn; [trivial |].
  destruct (f x); cbn; intros H.
  - f_equal. apply IH. lia.
  - pose proof (filter_length_le f l). lia.
Qed.

Lemma filter_idem {A} (f : A -> bool) l :
  List.filter f (List.filter f l) = List.filter f l.
Proof.
  induction l as [| x l IH]; cbn; [trivial |].
  destruct (f x) eqn:Hx; cbn; [rewrite Hx; by f_equal | exact IH].
Qed.

(** X25 (delete_item, get_item): [delete_item] removes every item with
    the id and no other, keeping the order of the rest.  It answers 200
    if there was such an item and 404, with nothing changed, if there was
    none.  After it, [get_item] and a second [delete_item] for the same
    id answer 404. *)
Theorem delete_item_removes (unwanted : nat) (st : app_state) :
  exists r st',
    delete_item unwanted st = (Ok r, st')
    /\ (if existsb (fun i => item_id i =? unwanted)%nat (items st)
        then status r = 200
        else status r = 404 /\ st' = st)
    /\ items st'
       = List.filter (fun i => negb (item_id i =? unwanted)%nat) (items st)
    /\ (exists r4, status r4 = 404
                   /\ get_item unwanted st' = (Ok r4, st')
                   /\ delete_item unwanted st' = (Ok r4, st')).
Proof.
  set (keep := fun i => negb (item_id i =? unwanted)%nat).
  assert (Hnone : forall l, List.find (fun i => item_id i =? unwanted)%nat
                                      (List.filter keep l) = None).
  { intros l. induction l as [| x l IH]; cbn; [trivial |].
    unfold keep at 1. destruct (item_id x =? unwanted)%nat eqn:Hx; cbn;
      [exact IH | by rewrite Hx]. }
  assert (Hagain : forall lg,
             delete_item unwanted {| items := List.filter keep (items st);
                                     logged := lg |}
             = (Ok {| status := 404;
                      body := JObj [("error", JStr "Item not found")] |},
                {| items := List.filter keep (items st); logged := lg |})).
  { intros lg. unfold delete_item. cbn [items logged]. fold keep.
    rewrite filter_idem, Nat.eqb_refl. reflexivity. }
  assert (Hget : forall lg,
             get_item unwanted {| items := List.filter keep (items st);
                                  logged := lg |}
             = (Ok {| status := 404;
                      body := JObj [("error", JStr "Item not found")] |},
                {| items := List.filter keep (items st); logged := lg |})).
  { intros lg. unfold get_item. cbn [items]. by rewrite Hnone. }
  unfold delete_item. fold keep.
  destruct (length (List.filter keep (items st)) =? length (items st))%nat
    eqn:Hl.
  - apply Nat.eqb_eq, filter_length_all in Hl.
    eexists _, _. split; [reflexivity |]. cbn [items status].
    split; [| split; [reflexivity |]].
    + destruct (existsb _ _) eqn:Hex.
      * apply existsb_exists in Hex as (i & Hin & Hid).
        rewrite <- Hl in Hin. apply filter_In in Hin as [_ Hk].
        unfold keep in Hk. rewrite Hid in Hk. discriminate Hk.
      * split; [reflexivity |]. rewrite Hl. by destruct st.
    + eexists. split; [| split; [apply Hget | apply Hagain]]. reflexivity.
  - eexists _, _. split; [reflexivity |]. cbn [items status].
    split; [| split; [reflexivity |]].
    + destruct (existsb _ _) eqn:Hex; [reflexivity |].
      apply Nat.eqb_neq in Hl. exfalso. apply Hl. f_equal.
      apply forallb_filter_id. apply forallb_forall. intros i Hin.
      unfold keep. destruct (item_id i =? unwanted)%nat eqn:Hid; [| reflexivity].
      assert (existsb (fun i => item_id i =? unwanted)%nat (items st) = true)
        by (apply existsb_exists; eauto).
      congruence.
    + eexists. split; [| split; [apply Hget | apply Hagain]]. reflexivity.
Qed.
